(** * flics-app: the dashboard script [app/main.py]

    A shallow embedding of the parts of [app/main.py] that carry behaviour:
    file discovery, metadata read-outs, the maximum-intensity projection,
    ROI extraction, the fixed-capacity coordinate tables, the [save]
    routine that reconciles the in-memory selection with the dataset file,
    and the callbacks that list the images, move through the frames,
    redraw the plot from the dataset and fill in the parameter inputs.

    Python values are modelled as follows.
    - A Python number is a [num]: a rational or the not-a-number sentinel.
    - A Python exception is a constructor of [exn]; a call that may raise
      returns a [result].
    - Module-level widgets and data sources are fields of one [world]
      record; code that prints or touches the disk runs in the monad [M],
      whose state survives an exception (as Python's does). The record
      also carries a fault budget, so that a failure of the environment
      between two file-system mutations can be stated.
    - The dataset file is a [dataset]: records of data variables keyed by
      path, either with a scalar [path] coordinate (one record) or with
      [path] as a dimension (a list of records). *)

From Stdlib Require Import ZArith QArith Qround Lia.
From stdpp Require Import base option list strings gmap fin_maps.

Local Open Scope string_scope.
Local Open Scope list_scope.
Local Open Scope Z_scope.

(* ===================================================================== *)
(** * Exceptions and results *)
(* ===================================================================== *)

(** Where an [IndexError] comes from: a Python list, or a numpy axis
    (numpy reports the axis, the index and the size of the axis). *)
Inductive index_site :=
  | ListRange
  | AxisBound (axis : nat) (index size : Z)
  | TooManyIndices.

Inductive exn :=
  | IndexError (site : index_site)
  | KeyError (key : string)
  | ValueError
  | TypeError
  | ZeroDivisionError
  | FileNotFoundError
  | BackendError   (* xarray / netCDF refusing something that is not a readable dataset *)
  | OSError.       (* the environment failing a file-system mutation *)

Inductive result (A : Type) :=
  | Ok (a : A)
  | Raise (e : exn).
Arguments Ok {A} a.
Arguments Raise {A} e.

Definition rbind {A B} (r : result A) (k : A -> result B) : result B :=
  match r with
  | Ok a => k a
  | Raise e => Raise e
  end.

Notation "x <- e ;; k" := (rbind e (fun x => k))
  (at level 100, e at next level, right associativity).

(** [for x in xs: s = body(x, s)], stopping at the first exception. *)
Fixpoint for_each {A S} (body : A -> S -> result S) (xs : list A) (s : S)
  : result S :=
  match xs with
  | [] => Ok s
  | x :: xs' => s' <- body x s ;; for_each body xs' s'
  end.

(* ===================================================================== *)
(** * Python numbers, lists and strings *)
(* ===================================================================== *)

Inductive num :=
  | NaN
  | Num (q : Q).

(** [bool(v)] of a number: only zero is falsy (not-a-number is truthy). *)
Definition num_truthy (v : num) : bool :=
  match v with
  | NaN => true
  | Num q => negb (Qeq_bool q 0)
  end.

(** [a != b] on numbers: not-a-number differs from everything. *)
Definition num_ne (a b : num) : bool :=
  match a, b with
  | Num x, Num y => negb (Qeq_bool x y)
  | _, _ => true
  end.

Definition num_mul (a b : num) : num :=
  match a, b with
  | Num x, Num y => Num (x * y)
  | _, _ => NaN
  end.

(** [a / b]: Python raises on a zero divisor. *)
Definition num_div (a b : num) : result num :=
  match b with
  | Num y =>
      if Qeq_bool y 0 then Raise ZeroDivisionError
      else match a with
           | Num x => Ok (Num (x / y))
           | NaN => Ok NaN
           end
  | NaN => Ok NaN
  end.

(** Rounding half to even, as [round] on a Python float does. *)
Definition round_half_even (q : Q) : Z :=
  let f := Qfloor q in
  match (q - inject_Z f ?= 1 # 2)%Q with
  | Lt => f
  | Gt => f + 1
  | Eq => if Z.even f then f else f + 1
  end.

(** [round(v)]: not-a-number cannot be converted to an integer. *)
Definition py_round (v : num) : result Z :=
  match v with
  | Num q => Ok (round_half_even q)
  | NaN => Raise ValueError
  end.

(** [l[i]] on a Python list: a negative index counts from the end. *)
Definition list_index {A} (l : list A) (i : Z) : result A :=
  let n := Z.of_nat (length l) in
  let j := if i <? 0 then i + n else i in
  if (0 <=? j) && (j <? n) then
    match l !! Z.to_nat j with
    | Some x => Ok x
    | None => Raise (IndexError ListRange)
    end
  else Raise (IndexError ListRange).

(** Slice bounds are clamped, never out of range. *)
Definition clamp_index (n i : Z) : Z :=
  if i <? 0 then Z.max (i + n) 0 else Z.min i n.

(** [l[a:b]]. *)
Definition py_slice {A} (a b : Z) (l : list A) : list A :=
  let n := Z.of_nat (length l) in
  let lo := clamp_index n a in
  let hi := clamp_index n b in
  take (Z.to_nat (hi - lo)) (drop (Z.to_nat lo) l).

(** [s.endswith(suffix)]. *)
Definition endswith (s suffix : string) : bool :=
  let n := String.length s in
  let m := String.length suffix in
  if (m <=? n)%nat then String.eqb (String.substring (n - m) m s) suffix else false.

(** [os.path.join(a, b)] on a POSIX system, for two components. *)
Definition os_path_join (a b : string) : string :=
  if String.prefix "/" b then b
  else if String.eqb a "" || endswith a "/" then String.append a b
  else String.append a (String.append "/" b).

(** [d[k]] on a dict. *)
Definition dict_get {V} (d : gmap string V) (k : string) : result V :=
  match d !! k with
  | Some v => Ok v
  | None => Raise (KeyError k)
  end.

(* ===================================================================== *)
(** * Arrays *)
(* ===================================================================== *)

(** A 2D plane of pixel intensities (integer-typed TIFF data), row major. *)
Abbreviation plane := (list (list Z)).

(** What [read_image_file] yields: a single plane or a time stack of planes. *)
Inductive ndarray :=
  | Arr2 (rows : plane)
  | Arr3 (frames : list plane).

(** A table of numbers, row major. *)
Abbreviation table := (list (list num)).

(** [np.full((rows, cols), v)]. *)
Definition np_full (rows cols : nat) (v : num) : table :=
  replicate rows (replicate cols v).

(** [t[index, :] = row]; numpy refuses an index past the last row. *)
Definition np_set_row (t : table) (index : nat) (row : list num)
  : result table :=
  if (index <? length t)%nat then Ok (<[index := row]> t)
  else Raise (IndexError (AxisBound 0 (Z.of_nat index) (Z.of_nat (length t)))).

Definition zip_max (a b : plane) : plane := zip_with (zip_with Z.max) a b.

(** [np.max(frames, axis=0)]: the reduction has no identity, so an empty
    stack is refused. *)
Definition np_max_axis0 (frames : list plane) : result plane :=
  match frames with
  | [] => Raise ValueError
  | f :: fs => Ok (foldl zip_max f fs)
  end.

(* ===================================================================== *)
(** * The dataset and the program state *)
(* ===================================================================== *)

(** Scan metadata as [tifffile] hands it over: a dict of dicts. *)
Abbreviation metadata := (gmap string (gmap string num)).

(** [roi_source.data]: one column per ROI attribute. *)
Record roi_columns := {
  roi_x : list num;
  roi_y : list num;
  roi_width : list num;
  roi_height : list num;
}.

(** [vector_source.data]: per vector, the list of its x and of its y
    coordinates. *)
Record vector_columns := {
  vec_xs : list (list num);
  vec_ys : list (list num);
}.

(** The array half of a [(dims, array)] pair handed to xarray. *)
Inductive payload :=
  | Image (a : option plane)   (* [None] when there is no projection *)
  | Table (t : table).

(** A value of the dict built by [create_data_dict]. *)
Inductive value :=
  | Scalar (x : num)
  | Array (dims : list string) (p : payload).

(** A path as the script passes it around: a [str] or [None]. *)
Abbreviation pypath := (option string).

(** The data variables stored for one path. *)
Abbreviation record := (gmap string value).

(** An xarray dataset, seen through its [path] coordinate. *)
Inductive dataset :=
  | DsNoPath (vars : record)                  (* no [path] at all, e.g. [xr.Dataset()] *)
  | DsScalarPath (p : pypath) (vars : record) (* [path] is a scalar coordinate *)
  | DsPathDim (recs : list (pypath * record)). (* [path] is a dimension *)

Inductive file :=
  | NetCDF (ds : dataset)
  | Opaque.

(** The dict returned by [create_coords_dict]. *)
Record coords := {
  c_path : pypath;
  c_pix_x : list Z;
  c_pix_y : list Z;
  c_time : list Z;
  c_roi_num : list Z;
  c_roi_loc : list string;
  c_vector_num : list Z;
  c_vector_loc : list string;
}.

(** Module-level state of the script and the part of the machine it
    touches. [faults] is the number of file-system mutations the
    environment still carries out before one fails ([None]: it never
    fails). *)
Record world := {
  base_dir_input_value : string;
  image_select_value : string;
  fov_input_value : string;
  line_rate_input_value : string;
  frame_rate_input_value : string;
  raw_image : list ndarray;             (* [raw_source.data['image']] *)
  raw_meta : list (option metadata);    (* [raw_source.data['meta']] *)
  roi_source : roi_columns;
  vector_source : vector_columns;
  walk : string -> list (string * list string);
    (* [os.walk(top)]: (root, files), the dataset file aside, which
       [files] holds and whose name does not end with [IMAGE_EXT] *)
  dirs : gset string;
  files : gmap string file;
  console : list string;
  faults : option nat;
}.

Definition set_console (c : list string) (w : world) : world :=
  {| base_dir_input_value := base_dir_input_value w;
     image_select_value := image_select_value w;
     fov_input_value := fov_input_value w;
     line_rate_input_value := line_rate_input_value w;
     frame_rate_input_value := frame_rate_input_value w;
     raw_image := raw_image w; raw_meta := raw_meta w;
     roi_source := roi_source w; vector_source := vector_source w;
     walk := walk w; dirs := dirs w; files := files w;
     console := c; faults := faults w |}.

Definition set_disk (fs : gmap string file) (b : option nat) (w : world)
  : world :=
  {| base_dir_input_value := base_dir_input_value w;
     image_select_value := image_select_value w;
     fov_input_value := fov_input_value w;
     line_rate_input_value := line_rate_input_value w;
     frame_rate_input_value := frame_rate_input_value w;
     raw_image := raw_image w; raw_meta := raw_meta w;
     roi_source := roi_source w; vector_source := vector_source w;
     walk := walk w; dirs := dirs w; files := fs;
     console := console w; faults := b |}.

(** Python builtins the script calls and whose text formats are not
    modelled: [float(s)] and [int(s)] on a string ([None]: [ValueError])
    and [str(v)] on a number. *)
Class Builtins := {
  py_float : string -> option num;
  py_int : string -> option Z;
  py_str : num -> string;
}.

(* ===================================================================== *)
(** * The monad of effectful code *)
(* ===================================================================== *)

Definition M (A : Type) : Type := world -> result A * world.

Definition ret {A} (a : A) : M A := fun w => (Ok a, w).

Definition throw {A} (e : exn) : M A := fun w => (Raise e, w).

Definition bind {A B} (m : M A) (k : A -> M B) : M B :=
  fun w =>
    match m w with
    | (Ok a, w') => k a w'
    | (Raise e, w') => (Raise e, w')
    end.

Notation "x <~ e ;; k" := (bind e (fun x => k))
  (at level 100, e at next level, right associativity).
Notation "e ;;; k" := (bind e (fun _ => k))
  (at level 100, right associativity).

(** A computation that only reads the state. *)
Definition reads {A} (f : world -> result A) : M A := fun w => (f w, w).

Definition lift {A} (r : result A) : M A := fun w => (r, w).

(** [print(s)]. *)
Definition print (s : string) : M unit :=
  fun w => (Ok tt, set_console (console w ++ [s]) w).

(** [try: body except E: handler], [catches] telling which exceptions
    [E] covers. *)
Definition try_except {A} (body : M A) (catches : exn -> bool)
  (handler : M A) : M A :=
  fun w =>
    match body w with
    | (Raise e, w') => if catches e then handler w' else (Raise e, w')
    | r => r
    end.

Definition is_IndexError (e : exn) : bool :=
  match e with IndexError _ => true | _ => false end.
Definition is_KeyError (e : exn) : bool :=
  match e with KeyError _ => true | _ => false end.
Definition is_TypeError (e : exn) : bool :=
  match e with TypeError => true | _ => false end.
Definition is_FileNotFoundError (e : exn) : bool :=
  match e with FileNotFoundError => true | _ => false end.

(* ===================================================================== *)
(** * The file system and the dataset library *)
(* ===================================================================== *)

(** [os], [xarray] and netCDF are not part of the repository. They are
    modelled by what the script relies on: a file holds a dataset or
    something else; a dataset is a collection of records keyed by path;
    [db[key] = value] stores the value handed over; an assignment
    through [.loc] takes a number and refuses a [(dims, array)] pair;
    concatenating along [path] appends the records, provided the
    unlabelled dimensions [x] and [y] have the same sizes on both
    sides; deleting and writing a file are the two mutations the
    environment may fail. Path labels are kept as they are handed over:
    what the file format does to a label (a missing label, a label
    longer than the first one written) is not modelled. *)

(** [os.path.isdir(p)]. *)
Definition os_path_isdir (p : string) : M bool :=
  fun w => (Ok (bool_decide (p ∈ dirs w)), w).

(** [os.path.isfile(p)]; [None] is not a path. *)
Definition os_path_isfile (p : pypath) : M bool :=
  fun w =>
    match p with
    | None => (Raise TypeError, w)
    | Some p =>
        (Ok match files w !! p with Some _ => true | None => false end, w)
    end.

(** A mutation of the disk: refused by the environment when the fault
    budget is exhausted, otherwise carried out. *)
Definition fs_mutation (f : gmap string file -> result (gmap string file))
  : M unit :=
  fun w =>
    match faults w with
    | Some O => (Raise OSError, w)
    | b =>
        match f (files w) with
        | Ok fs' => (Ok tt, set_disk fs' (Nat.pred <$> b) w)
        | Raise e => (Raise e, w)
        end
    end.

(** [os.remove(p)]. *)
Definition os_remove (p : pypath) : M unit :=
  match p with
  | None => throw TypeError
  | Some p =>
      fs_mutation (fun fs =>
        match fs !! p with
        | Some _ => Ok (delete p fs)
        | None => Raise FileNotFoundError
        end)
  end.

(** [xr.open_dataset(p)]. *)
Definition xr_open_dataset (p : pypath) : M dataset :=
  fun w =>
    match p with
    | None => (Raise BackendError, w)
    | Some p =>
        match files w !! p with
        | Some (NetCDF ds) => (Ok ds, w)
        | Some Opaque => (Raise BackendError, w)
        | None => (Raise FileNotFoundError, w)
        end
    end.

(** [ds.to_netcdf(p)]; without a path nothing is written. *)
Definition to_netcdf (ds : dataset) (p : pypath) : M unit :=
  match p with
  | None => ret tt
  | Some p => fs_mutation (fun fs => Ok (<[p := NetCDF ds]> fs))
  end.

(** [xr.Dataset()]. *)
Definition xr_empty : dataset := DsNoPath ∅.

(** [xr.Dataset(data_vars, coords)]. *)
Definition xr_Dataset (data_vars : list (string * value)) (c : coords)
  : dataset :=
  DsScalarPath (c_path c) (list_to_map data_vars).

(** [db['path'].values], as the list of path labels. *)
Definition ds_paths (db : dataset) : result (list pypath) :=
  match db with
  | DsNoPath _ => Raise (KeyError "path")
  | DsScalarPath p _ => Ok [p]
  | DsPathDim recs => Ok (recs.*1)
  end.

(** The records of a dataset, in the order of the [path] dimension. *)
Definition ds_records (db : dataset) : list (pypath * record) :=
  match db with
  | DsNoPath _ => []
  | DsScalarPath p vars => [(p, vars)]
  | DsPathDim recs => recs
  end.

(** The sizes of the dimensions [x] and [y] of a record: the shape of
    its projection. *)
Definition plane_shape (r : record) : option (nat * nat) :=
  match r !! "2d_projection" with
  | Some (Array _ (Image (Some p))) =>
      Some (length p, length (default [] (head p)))
  | _ => None
  end.

(** Two datasets whose [x] and [y] have the same sizes. *)
Definition aligned (db ds : dataset) : bool :=
  forallb
    (fun r : pypath * record =>
       forallb
         (fun r' : pypath * record =>
            bool_decide (plane_shape r.2 = plane_shape r'.2))
         (ds_records ds))
    (ds_records db).

(** [xr.concat([db, ds], dim='path')]: [x] and [y] carry no labels, so
    they can only be aligned when their sizes agree. *)
Definition xr_concat (db ds : dataset) : result dataset :=
  match db, ds with
  | DsNoPath _, _ | _, DsNoPath _ => Raise ValueError
  | _, _ =>
      if aligned db ds then Ok (DsPathDim (ds_records db ++ ds_records ds))
      else Raise ValueError
  end.

(** [db[key].loc[{'path': path}]]. *)
Definition loc_get (recs : list (pypath * record)) (key : string)
  (path : pypath) : result value :=
  match List.find (fun pr => bool_decide (pr.1 = path)) recs with
  | Some pr => dict_get pr.2 key
  | None => Raise (KeyError "path")
  end.

(** The records once [key] holds [v] at [path]. *)
Definition store_at (recs : list (pypath * record)) (key : string)
  (path : pypath) (v : value) : list (pypath * record) :=
  (fun pr : pypath * record =>
     if bool_decide (pr.1 = path) then (pr.1, <[key := v]> pr.2) else pr)
  <$> recs.

(** [db[key].loc[{'path': path}] = v]: the selection is an array of
    numbers and takes a number; the [(dims, array)] pair that
    [db[key] = ...] understands is no value for it. *)
Definition loc_set (recs : list (pypath * record)) (key : string)
  (path : pypath) (v : value) : result (list (pypath * record)) :=
  match v with
  | Scalar _ => Ok (store_at recs key path v)
  | Array _ _ => Raise TypeError
  end.

(** [stored != v] where [stored] is the [tolist()] of what the dataset
    holds and [v] an entry of the data dict: two numbers compare by
    value; a list never equals a [(dims, array)] tuple or a number. *)
Definition py_ne (stored v : value) : bool :=
  match stored, v with
  | Scalar a, Scalar b => num_ne a b
  | _, _ => true
  end.

(* ===================================================================== *)
(** * File discovery and the dataset path *)
(* ===================================================================== *)

Definition IMAGE_EXT : string := ".tif".

(** [get_file_paths]: every file under the base directory ending with
    [ext], in walking order. *)
Definition get_file_paths (ext : string) : M (list string) :=
  reads (fun w =>
    Ok (flat_map
          (fun rf : string * list string =>
             os_path_join rf.1 <$> List.filter (fun f => endswith f ext) rf.2)
          (walk w (base_dir_input_value w)))).

(** [get_db_path]: falls off the end (returns [None]) when the base
    directory is not a directory. *)
Definition get_db_path : M pypath :=
  base <~ reads (fun w => Ok (base_dir_input_value w)) ;;
  isdir <~ os_path_isdir base ;;
  if isdir then ret (Some (os_path_join base "db.nc")) else ret None.

Definition read_db : M dataset :=
  try_except
    (p <~ get_db_path ;; xr_open_dataset p)
    is_FileNotFoundError
    (ret xr_empty).

Definition get_full_path (relative_path : string) : M pypath :=
  image_paths <~ get_file_paths IMAGE_EXT ;;
  try_except
    (f <~ lift (list_index
                  (List.filter (fun f => endswith f relative_path) image_paths)
                  0) ;;
     ret (Some f))
    is_IndexError
    (print "Failed to find appropriate image path" ;;; ret None).

(* ===================================================================== *)
(** * The current image and its metadata *)
(* ===================================================================== *)

Definition get_current_image (w : world) : result ndarray :=
  list_index (raw_image w) 0.

Definition get_current_metadata (w : world) : option metadata :=
  match list_index (raw_meta w) 0 with
  | Ok meta => meta
  | Raise _ => None      (* [except IndexError: return None] *)
  end.

(** [if meta:] on what [get_current_metadata] returned: [None] and the
    empty dict are falsy. *)
Definition meta_truthy (meta : option metadata) : option metadata :=
  match meta with
  | Some m => if bool_decide (dom m = ∅) then None else Some m
  | None => None
  end.

(** [meta['FrameData'][key]]. *)
Definition frame_data (meta : metadata) (key : string) : result num :=
  fd <- dict_get meta "FrameData" ;;
  dict_get fd key.

Definition get_frame_rate (w : world) : result (option num) :=
  match meta_truthy (get_current_metadata w) with
  | Some meta =>
      v <- frame_data meta "SI.hRoiManager.scanFrameRate" ;; Ok (Some v)
  | None => Ok None
  end.

Definition get_line_rate (w : world) : result (option num) :=
  match meta_truthy (get_current_metadata w) with
  | Some meta =>
      line_period <- frame_data meta "SI.hRoiManager.linePeriod" ;;
      v <- num_div (Num 1) line_period ;;
      Ok (Some v)
  | None => Ok None
  end.

Definition get_number_of_rows (w : world) : result (option num) :=
  match meta_truthy (get_current_metadata w) with
  | Some meta =>
      v <- frame_data meta "SI.hRoiManager.linesPerFrame" ;; Ok (Some v)
  | None => Ok None
  end.

Definition get_number_of_columns (w : world) : result (option num) :=
  match meta_truthy (get_current_metadata w) with
  | Some meta =>
      v <- frame_data meta "SI.hRoiManager.pixelsPerLine" ;; Ok (Some v)
  | None => Ok None
  end.

Definition get_zoom_factor (w : world) : result (option num) :=
  match meta_truthy (get_current_metadata w) with
  | Some meta =>
      v <- frame_data meta "SI.hRoiManager.scanZoomFactor" ;; Ok (Some v)
  | None => Ok None
  end.

(** [a * b] on values that may be [None], and [a / d] for a number [d]. *)
Definition py_mul (a b : option num) : result num :=
  match a, b with
  | Some x, Some y => Ok (num_mul x y)
  | _, _ => Raise TypeError
  end.

Definition py_div (a : option num) (d : num) : result num :=
  match a with
  | Some x => num_div x d
  | None => Raise TypeError
  end.

Section Parameters.
Context {B : Builtins}.

Definition get_fov : M (option num) :=
  text <~ reads (fun w => Ok (fov_input_value w)) ;;
  match py_int text with
  | Some z => ret (Some (Num (inject_Z z)))
  | None => print "Invalid input! FOV must be an integer." ;;; ret None
  end.

Definition calc_x_pixel_to_micron : M (option num) :=
  try_except
    (n <~ reads get_number_of_columns ;;
     fov <~ get_fov ;;
     zoom <~ reads get_zoom_factor ;;
     d <~ lift (py_mul fov zoom) ;;
     v <~ lift (py_div n d) ;;
     ret (Some v))
    is_TypeError
    (ret None).

Definition calc_y_pixel_to_micron : M (option num) :=
  try_except
    (n <~ reads get_number_of_rows ;;
     fov <~ get_fov ;;
     zoom <~ reads get_zoom_factor ;;
     d <~ lift (py_mul fov zoom) ;;
     v <~ lift (py_div n d) ;;
     ret (Some v))
    is_TypeError
    (ret None).

Definition PARAM_GETTERS : gmap string (M (option num)) :=
  list_to_map
    [ ("zoom_factor", reads get_zoom_factor);
      ("n_rows", reads get_number_of_rows);
      ("n_columns", reads get_number_of_columns);
      ("frame_rate", reads get_frame_rate);
      ("line_rate", reads get_line_rate);
      ("x_pixel_to_micron", calc_x_pixel_to_micron);
      ("y_pixel_to_micron", calc_y_pixel_to_micron) ].

Definition get_string (param : string) : M string :=
  shown <~ try_except
    (getter <~ lift (dict_get PARAM_GETTERS param) ;;
     value <~ getter ;;
     match value with
     | Some v => if num_truthy v then ret (Some (py_str v)) else ret None
     | None => ret None
     end)
    is_KeyError
    (ret (Some "INVALID")) ;;
  match shown with
  | Some s => ret s
  | None => ret "---"
  end.
End Parameters.

(* ===================================================================== *)
(** * Projection and ROI extraction *)
(* ===================================================================== *)

(** [calculate_2d_projection]: falls off the end (returns [None]) for an
    image that is not a stack. *)
Definition calculate_2d_projection (w : world) : result (option plane) :=
  image <- get_current_image w ;;
  match image with        (* [if len(image.shape) is 3] *)
  | Arr3 frames => p <- np_max_axis0 frames ;; Ok (Some p)
  | Arr2 _ => Ok None
  end.

(** [a[i]] along one axis of a numpy array; numpy reports the index as
    written and the size of the axis. *)
Definition np_index {A} (axis : nat) (l : list A) (i : Z) : result A :=
  let n := Z.of_nat (length l) in
  let j := if i <? 0 then i + n else i in
  match (if (0 <=? j) && (j <? n) then l !! Z.to_nat j else None) with
  | Some x => Ok x
  | None => Raise (IndexError (AxisBound axis i n))
  end.

(** [image[frame, y_start:y_end, x_start:x_end]]. *)
Definition np_crop (image : ndarray) (frame y_start y_end x_start x_end : Z)
  : result plane :=
  match image with
  | Arr3 frames =>
      f <- np_index 0 frames frame ;;
      Ok (py_slice x_start x_end <$> py_slice y_start y_end f)
  | Arr2 _ => Raise (IndexError TooManyIndices)
  end.

Definition get_roi_data (roi_index frame : Z) (w : world) : result plane :=
  wv <- list_index (roi_width (roi_source w)) roi_index ;;
  width <- py_round wv ;;
  hv <- list_index (roi_height (roi_source w)) roi_index ;;
  height <- py_round hv ;;
  xv <- list_index (roi_x (roi_source w)) roi_index ;;
  x_center <- py_round xv ;;
  yv <- list_index (roi_y (roi_source w)) roi_index ;;
  y_center <- py_round yv ;;
  let x_start := x_center - width `div` 2 in
  let x_end := x_center + width `div` 2 in
  let y_start := y_center - height `div` 2 in
  let y_end := y_center + height `div` 2 in
  image <- get_current_image w ;;
  np_crop image frame y_start y_end x_start x_end.

(* ===================================================================== *)
(** * The coordinate tables *)
(* ===================================================================== *)

Definition get_roi_params (index : Z) (w : world) : result (list num) :=
  let values := roi_source w in
  x <- list_index (roi_x values) index ;;
  y <- list_index (roi_y values) index ;;
  width <- list_index (roi_width values) index ;;
  height <- list_index (roi_height values) index ;;
  Ok [x; y; width; height].

Definition get_vector_params (index : Z) (w : world) : result (list num) :=
  let values := vector_source w in
  xs0 <- (xs <- list_index (vec_xs values) index ;; list_index xs 0) ;;
  xs1 <- (xs <- list_index (vec_xs values) index ;; list_index xs 1) ;;
  ys0 <- (ys <- list_index (vec_ys values) index ;; list_index ys 0) ;;
  ys1 <- (ys <- list_index (vec_ys values) index ;; list_index ys 1) ;;
  Ok [xs0; xs1; ys0; ys1].

Definition get_roi_data_by_index (w : world) : result table :=
  let roi_data := np_full 50 4 NaN in
  let n_rois := length (roi_x (roi_source w)) in
  for_each
    (fun index roi_data =>
       row <- get_roi_params (Z.of_nat index) w ;;
       np_set_row roi_data index row)
    (seq 0 n_rois) roi_data.

Definition get_vector_data_by_index (w : world) : result table :=
  let vector_data := np_full 50 4 NaN in
  let n_vectors := length (vec_xs (vector_source w)) in
  for_each
    (fun index vector_data =>
       row <- get_vector_params (Z.of_nat index) w ;;
       np_set_row vector_data index row)
    (seq 0 n_vectors) vector_data.

(* ===================================================================== *)
(** * Saving *)
(* ===================================================================== *)

(** [image.shape]. *)
Definition shape (image : ndarray) : list Z :=
  match image with
  | Arr2 rows =>
      [Z.of_nat (length rows); Z.of_nat (length (default [] (head rows)))]
  | Arr3 frames =>
      let f := default [] (head frames) in
      [Z.of_nat (length frames); Z.of_nat (length f);
       Z.of_nat (length (default [] (head f)))]
  end.

(** [np.arange(n)]. *)
Definition np_arange (n : Z) : list Z := Z.of_nat <$> seq 0 (Z.to_nat n).

Section Saving.
Context {B : Builtins}.

(** [float(s)]. *)
Definition float_of (s : string) : result num :=
  match py_float s with
  | Some v => Ok v
  | None => Raise ValueError
  end.

Definition create_data_dict (w : world) : result (list (string * value)) :=
  projection <- calculate_2d_projection w ;;
  line_rate <- float_of (line_rate_input_value w) ;;
  frame_rate <- float_of (frame_rate_input_value w) ;;
  roi_data <- get_roi_data_by_index w ;;
  vector_data <- get_vector_data_by_index w ;;
  Ok [ ("2d_projection", Array ["x"; "y"] (Image projection));
       ("line_rate", Scalar line_rate);
       ("frame_rate", Scalar frame_rate);
       ("roi_data", Array ["roi_num"; "roi_loc"] (Table roi_data));
       ("vector_data", Array ["vector_num"; "vector_loc"] (Table vector_data));
       ("corr_calc_state", Scalar (Num 0));
       ("fitting_state", Scalar (Num 0)) ].

Definition create_coords_dict (path : pypath) (w : world) : result coords :=
  image <- get_current_image w ;;
  n_x <- list_index (shape image) 2 ;;
  n_y <- list_index (shape image) 1 ;;
  n_t <- list_index (shape image) 0 ;;
  Ok {| c_path := path;
        c_pix_x := np_arange n_x;
        c_pix_y := np_arange n_y;
        c_time := np_arange n_t;
        c_roi_num := np_arange 50;
        c_roi_loc := ["x"; "y"; "width"; "height"];
        c_vector_num := np_arange 50;
        c_vector_loc := ["x_start"; "x_end"; "y_start"; "y_end"] |}.

(** One turn of the loop over [data_vars.items()] in the branch for an
    existing path. *)
Definition update_field (path : pypath) (kv : string * value) (db : dataset)
  : result dataset :=
  let (key, value) := kv in
  match db with
  | DsNoPath _ => Raise (KeyError "path")
  | DsPathDim recs =>        (* [db['path'].values.tolist()] is a list *)
      stored <- loc_get recs key path ;;
      if py_ne stored value then
        recs' <- loc_set recs key path value ;;
        Ok (DsPathDim recs')
      else Ok db
  | DsScalarPath p vars =>   (* ... is a [str] *)
      stored <- dict_get vars key ;;
      if py_ne stored value then Ok (DsScalarPath p (<[key := value]> vars))
      else Ok db
  end.

Definition save : M unit :=
  selected <~ reads (fun w => Ok (image_select_value w)) ;;
  path <~ get_full_path selected ;;
  data_vars <~ reads create_data_dict ;;
  db_path <~ get_db_path ;;
  isfile <~ os_path_isfile db_path ;;
  if isfile then
    db <~ xr_open_dataset db_path ;;
    paths <~ lift (ds_paths db) ;;
    db' <~ (if bool_decide (path ∈ paths) then
              print "trying to update DB for existing path" ;;;
              lift (for_each (update_field path) data_vars db)
            else
              print "trying to update DB with new path" ;;;
              coords <~ reads (create_coords_dict path) ;;
              lift (xr_concat db (xr_Dataset data_vars coords))) ;;
    os_remove db_path ;;;
    db_path' <~ get_db_path ;;
    to_netcdf db' db_path'
  else
    coords <~ reads (create_coords_dict path) ;;
    to_netcdf (xr_Dataset data_vars coords) db_path.
End Saving.

(* ===================================================================== *)
(** * Well-formed selections and sample states *)
(* ===================================================================== *)

(** A selection of [n] ROIs: every column of [roi_source.data] has [n]
    entries (the plotting library keeps the columns level). *)
Definition roi_wf (c : roi_columns) (n : nat) : Prop :=
  length (roi_x c) = n /\ length (roi_y c) = n /\
  length (roi_width c) = n /\ length (roi_height c) = n.

(** A selection of [m] vectors: [m] lists of x and [m] lists of y
    coordinates, each with a start and an end. *)
Definition vector_wf (c : vector_columns) (m : nat) : Prop :=
  length (vec_xs c) = m /\ length (vec_ys c) = m /\
  Forall (fun l => (2 <= length l)%nat) (vec_xs c) /\
  Forall (fun l => (2 <= length l)%nat) (vec_ys c).

(** A plane of [h] rows of [w] pixels, and a stack of such planes. *)
Definition plane_wf (h w : nat) (f : plane) : Prop :=
  length f = h /\ Forall (fun row => length row = w) f.

Definition stack_wf (h w : nat) (frames : list plane) : Prop :=
  Forall (plane_wf h w) frames.

(** Pixel [(i, j)] of a plane. *)
Definition pixel (f : plane) (i j : nat) : option Z :=
  row ← f !! i; row !! j.

Definition nan_row : list num := [NaN; NaN; NaN; NaN].

(** What a finished table looks like: 50 rows, the first [n] given by
    [rows], the others filled with the sentinel. *)
Definition padded (t : table) (n : nat) (rows : nat -> option (list num))
  : Prop :=
  length t = 50%nat
  /\ (forall i, (i < n)%nat -> is_Some (rows i) /\ t !! i = rows i)
  /\ (forall i, (n <= i < 50)%nat -> t !! i = Some nan_row).

(** Row [i] of the ROI selection: (x, y, width, height). *)
Definition roi_row (c : roi_columns) (i : nat) : option (list num) :=
  x ← roi_x c !! i; y ← roi_y c !! i;
  wd ← roi_width c !! i; h ← roi_height c !! i;
  Some [x; y; wd; h].

(** Row [i] of the vector selection: (x_start, x_end, y_start, y_end). *)
Definition vector_row (c : vector_columns) (i : nat) : option (list num) :=
  xs ← vec_xs c !! i; ys ← vec_ys c !! i;
  x0 ← xs !! 0%nat; x1 ← xs !! 1%nat; y0 ← ys !! 0%nat; y1 ← ys !! 1%nat;
  Some [x0; x1; y0; y1].

(** The dataset file of the session. *)
Definition db_file (w : world) : string :=
  os_path_join (base_dir_input_value w) "db.nc".

(** The record a dataset holds for a path: the first one labelled with
    it along the [path] dimension. *)
Definition find_record (recs : list (pypath * record)) (path : pypath)
  : option record :=
  pr ← List.find (fun pr => bool_decide (pr.1 = path)) recs; Some pr.2.

Definition ds_record (db : dataset) (path : pypath) : option record :=
  find_record (ds_records db) path.

(** The dataset [save] writes back over an existing dataset file [db]:
    the middle of [save], without its console output. *)
Definition reconciled (w : world) (path : pypath)
  (data_vars : list (string * value)) (db : dataset) : result dataset :=
  paths <- ds_paths db ;;
  if bool_decide (path ∈ paths) then for_each (update_field path) data_vars db
  else coords <- create_coords_dict path w ;;
       xr_concat db (xr_Dataset data_vars coords).

(** A stored value that is the number zero. *)
Definition is_zero (v : option value) : Prop :=
  exists q, v = Some (Scalar (Num q)) /\ Qeq_bool q 0 = true.

(** The keys of the data dict that name a processing state. *)
Definition is_state_flag (key : string) : bool := endswith key "_state".

(** [save] went through and the dataset file now holds, for [path], a
    record whose two state flags are zero. *)
Definition saved_with_zero_flags {B : Builtins} (w : world) (path : pypath)
  : Prop :=
  (save w).1 = Ok tt
  /\ exists db' rec',
       files (save w).2 !! db_file w = Some (NetCDF db')
       /\ ds_record db' path = Some rec'
       /\ is_zero (rec' !! "corr_calc_state")
       /\ is_zero (rec' !! "fitting_state").

(** Sample builtins: enough of [float], [int] and [str] for the sample
    states below. *)
Definition sample_builtins : Builtins :=
  {| py_float := fun s => if String.eqb s "2.5" then Some (Num (5 # 2)) else None;
     py_int := fun s => if String.eqb s "870" then Some 870 else None;
     py_str := fun _ => "a number" |}.

(** A two-frame 3 x 4 stack. *)
Definition sample_stack : list plane :=
  [ [[1; 2; 3; 4]; [5; 6; 7; 8]; [9; 10; 11; 12]];
    [[7; 0; 1; 9]; [2; 9; 3; 1]; [0; 50; 2; 3]] ].

Definition sample_rois : roi_columns :=
  {| roi_x := [Num 2; Num 3];
     roi_y := [Num 1; Num 1];
     roi_width := [Num 3; Num 5];
     roi_height := [Num 2; Num 2] |}.

Definition sample_vectors : vector_columns :=
  {| vec_xs := [[Num 0; Num 1]];
     vec_ys := [[Num 2; Num 3]] |}.

(** A session on [/data], which holds [a.tif] and [sub/b.tif]: [sel] is
    the selected image, [disk] the files that may hold a dataset and [b]
    the fault budget. The metadata has a zoom factor of zero and lacks
    the other keys. *)
Definition session (sel : string) (disk : gmap string file) (b : option nat)
  : world :=
  {| base_dir_input_value := "/data";
     image_select_value := sel;
     fov_input_value := "870";
     line_rate_input_value := "2.5";
     frame_rate_input_value := "2.5";
     raw_image := [Arr3 sample_stack];
     raw_meta :=
       [Some {[ "FrameData" := {[ "SI.hRoiManager.scanZoomFactor" := Num 0 ]} ]}];
     roi_source := sample_rois;
     vector_source := sample_vectors;
     walk := fun _ =>
       [("/data", ["a.tif"; "notes.txt"]); ("/data/sub", ["b.tif"])];
     dirs := {[ "/data" ]};
     files := disk;
     console := [];
     faults := b |}.

(** No dataset file yet. *)
Definition sample_world : world := session "/a.tif" ∅ None.

(** A dataset file with one record, for [/data/a.tif]: a 3 x 4
    projection, no selection, and state flags that are not zero. *)
Definition stored_record : record :=
  list_to_map
    [ ("2d_projection",
       Array ["x"; "y"]
         (Image (Some [[7; 2; 3; 9]; [5; 9; 7; 8]; [9; 50; 11; 12]])));
      ("line_rate", Scalar (Num (10 # 4)));
      ("frame_rate", Scalar (Num 1));
      ("roi_data", Array ["roi_num"; "roi_loc"] (Table (np_full 50 4 NaN)));
      ("vector_data",
       Array ["vector_num"; "vector_loc"] (Table (np_full 50 4 NaN)));
      ("corr_calc_state", Scalar (Num 1));
      ("fitting_state", Scalar NaN) ].

Definition stored_dataset : dataset :=
  DsScalarPath (Some "/data/a.tif") stored_record.

Definition sample_disk : gmap string file :=
  {[ "/data/db.nc" := NetCDF stored_dataset ]}.

(** Saving the image the dataset knows, a new image, and the known
    image with the environment failing the second mutation. *)
Definition update_world : world := session "/a.tif" sample_disk None.
Definition append_world : world := session "/b.tif" sample_disk None.
Definition failing_world : world := session "/a.tif" sample_disk (Some 1%nat).

(** A dataset file with two records along the path dimension, for
    [/data/a.tif] and [/data/c.tif], and a session that saves the
    first of them again. *)
Definition two_records : dataset :=
  DsPathDim [(Some "/data/a.tif", stored_record);
             (Some "/data/c.tif", stored_record)].

Definition second_save_world : world :=
  session "/a.tif" {[ "/data/db.nc" := NetCDF two_records ]} None.

(** The data dict of the sample session. *)
Definition sample_data_vars : list (string * value) :=
  match create_data_dict (B := sample_builtins) sample_world with
  | Ok data_vars => data_vars
  | Raise _ => []
  end.

(** The same session with 51 ROIs and 51 vectors selected. *)
Definition crowded_world : world :=
  {| base_dir_input_value := "/data";
     image_select_value := "/a.tif";
     fov_input_value := "870";
     line_rate_input_value := "2.5";
     frame_rate_input_value := "2.5";
     raw_image := [Arr3 sample_stack];
     raw_meta := [];
     roi_source :=
       {| roi_x := replicate 51 (Num 1); roi_y := replicate 51 (Num 1);
          roi_width := replicate 51 (Num 2); roi_height := replicate 51 (Num 2) |};
     vector_source :=
       {| vec_xs := replicate 51 [Num 0; Num 1];
          vec_ys := replicate 51 [Num 0; Num 1] |};
     walk := fun _ => [("/data", ["a.tif"])];
     dirs := {[ "/data" ]};
     files := ∅;
     console := [];
     faults := None |}.

(* ===================================================================== *)
(** * Browsing: the image list, the time slider and the plot *)
(* ===================================================================== *)

(** The callbacks below also write to widgets and data sources that the
    [world] record does not hold (the options of the image select, the
    time slider, the image source, the read-only parameter inputs). What
    a callback assigns to them is returned as its result; what it reads
    from them is an argument. The dispatch of [on_change] events is the
    plotting library's and is not modelled. Left out are the functions
    that read a TIFF file ([read_image_file], [read_metadata] and
    [select_image], which calls them), [change_selected_roi], which
    needs the column count of a region without rows, and the unused
    [get_current_file_name] and [get_current_metset_path]. *)

Definition modify (f : world -> world) : M unit := fun w => (Ok tt, f w).

Definition set_image_select_value (v : string) (w : world) : world :=
  {| base_dir_input_value := base_dir_input_value w;
     image_select_value := v;
     fov_input_value := fov_input_value w;
     line_rate_input_value := line_rate_input_value w;
     frame_rate_input_value := frame_rate_input_value w;
     raw_image := raw_image w; raw_meta := raw_meta w;
     roi_source := roi_source w; vector_source := vector_source w;
     walk := walk w; dirs := dirs w; files := files w;
     console := console w; faults := faults w |}.

Definition set_line_rate_input (v : string) (w : world) : world :=
  {| base_dir_input_value := base_dir_input_value w;
     image_select_value := image_select_value w;
     fov_input_value := fov_input_value w;
     line_rate_input_value := v;
     frame_rate_input_value := frame_rate_input_value w;
     raw_image := raw_image w; raw_meta := raw_meta w;
     roi_source := roi_source w; vector_source := vector_source w;
     walk := walk w; dirs := dirs w; files := files w;
     console := console w; faults := faults w |}.

Definition set_frame_rate_input (v : string) (w : world) : world :=
  {| base_dir_input_value := base_dir_input_value w;
     image_select_value := image_select_value w;
     fov_input_value := fov_input_value w;
     line_rate_input_value := line_rate_input_value w;
     frame_rate_input_value := v;
     raw_image := raw_image w; raw_meta := raw_meta w;
     roi_source := roi_source w; vector_source := vector_source w;
     walk := walk w; dirs := dirs w; files := files w;
     console := console w; faults := faults w |}.

Definition set_roi_source (r : roi_columns) (w : world) : world :=
  {| base_dir_input_value := base_dir_input_value w;
     image_select_value := image_select_value w;
     fov_input_value := fov_input_value w;
     line_rate_input_value := line_rate_input_value w;
     frame_rate_input_value := frame_rate_input_value w;
     raw_image := raw_image w; raw_meta := raw_meta w;
     roi_source := r; vector_source := vector_source w;
     walk := walk w; dirs := dirs w; files := files w;
     console := console w; faults := faults w |}.

Definition set_vector_source (v : vector_columns) (w : world) : world :=
  {| base_dir_input_value := base_dir_input_value w;
     image_select_value := image_select_value w;
     fov_input_value := fov_input_value w;
     line_rate_input_value := line_rate_input_value w;
     frame_rate_input_value := frame_rate_input_value w;
     raw_image := raw_image w; raw_meta := raw_meta w;
     roi_source := roi_source w; vector_source := v;
     walk := walk w; dirs := dirs w; files := files w;
     console := console w; faults := faults w |}.

(** [s[k:]] on a string. *)
Definition py_drop (k : nat) (s : string) : string :=
  String.substring k (String.length s - k) s.

(** [update_image_select(attr, old, new)]; the result is what it assigns
    to [image_select.options]. *)
Definition update_image_select (new : string) : M (list string) :=
  isdir <~ os_path_isdir new ;;
  if isdir then
    image_paths <~ get_file_paths IMAGE_EXT ;;
    let relative_paths := py_drop (String.length new) <$> image_paths in
    match relative_paths with
    | first :: _ =>    (* [if relative_paths:] *)
        modify (set_image_select_value first) ;;;
        ret relative_paths
    | [] => ret ["---"]
    end
  else ret ["---"].

(** The time slider: [start] is 0 and [step] is 1 throughout. *)
Record slider := {
  slider_end : Z;
  slider_value : Z;
  slider_disabled : bool;
}.

(** [update_time_slider]; the result is the slider it leaves. *)
Definition update_time_slider (w : world) : result slider :=
  image <- get_current_image w ;;
  match image with
  | Arr3 frames =>
      n_t <- list_index (shape image) 0 ;;
      Ok {| slider_end := n_t - 1; slider_value := 0; slider_disabled := false |}
  | Arr2 _ =>
      Ok {| slider_end := 1; slider_value := 0; slider_disabled := true |}
  end.

Definition get_current_frame (time_slider : slider) (w : world)
  : result plane :=
  image <- get_current_image w ;;
  match image with
  | Arr3 frames => np_index 0 frames (slider_value time_slider)
  | Arr2 rows => Ok rows
  end.

(** What [update_plot] assigns to [image_source.data] and to the ends
    of the plot's ranges. *)
Record image_display := {
  shown_image : list plane;
  shown_dw : list Z;
  shown_dh : list Z;
  x_range_end : Z;
  y_range_end : Z;
}.

Definition isnan (x : num) : bool :=
  match x with
  | NaN => true
  | Num _ => false
  end.

(** [db[key]] restricted to [path] unless the path label of the dataset
    is a [str], as [draw_existing_rois] and [draw_existing_vectors] read
    it. A scalar label that is no [str] leaves no [path] dimension to
    select along. *)
Definition stored_value (db : dataset) (key : string) (path : pypath)
  : result value :=
  match db with
  | DsNoPath _ => Raise (KeyError "path")
  | DsPathDim recs => loc_get recs key path
  | DsScalarPath (Some _) vars => dict_get vars key
  | DsScalarPath None _ => Raise (KeyError "path")
  end.

(** [a = np.asarray(stored); a[~np.isnan(a).any(axis=1)]]: the rows
    without a not-a-number. A scalar and an empty list have no axis 1
    (numpy's [AxisError], a [ValueError]); a missing array is no
    number. *)
Definition nan_free_rows (stored : value) : result table :=
  match stored with
  | Array _ (Table (row :: rows)) =>
      Ok (List.filter (fun row => negb (existsb isnan row)) (row :: rows))
  | Array _ (Image (Some (row :: rows))) =>
      Ok ((fun row : list Z => (fun z => Num (inject_Z z)) <$> row)
            <$> row :: rows)
  | Array _ (Image None) => Raise TypeError
  | Array _ (Table []) | Array _ (Image (Some [])) | Scalar _ =>
      Raise ValueError
  end.

Definition no_rois : roi_columns :=
  {| roi_x := []; roi_y := []; roi_width := []; roi_height := [] |}.

Definition no_vectors : vector_columns := {| vec_xs := []; vec_ys := [] |}.

(** One turn of [for roi in roi_data: x.append(roi[0]) ...]. *)
Definition append_roi (roi : list num) (c : roi_columns) : result roi_columns :=
  x <- np_index 0 roi 0 ;;
  y <- np_index 0 roi 1 ;;
  width <- np_index 0 roi 2 ;;
  height <- np_index 0 roi 3 ;;
  Ok {| roi_x := roi_x c ++ [x]; roi_y := roi_y c ++ [y];
        roi_width := roi_width c ++ [width];
        roi_height := roi_height c ++ [height] |}.

(** One turn of [for vector in vector_data: xs.append([...]) ...]. *)
Definition append_vector (vector : list num) (c : vector_columns)
  : result vector_columns :=
  x0 <- np_index 0 vector 0 ;;
  x1 <- np_index 0 vector 1 ;;
  y0 <- np_index 0 vector 2 ;;
  y1 <- np_index 0 vector 3 ;;
  Ok {| vec_xs := vec_xs c ++ [[x0; x1]]; vec_ys := vec_ys c ++ [[y0; y1]] |}.

Definition draw_existing_rois (db : dataset) : M unit :=
  selected <~ reads (fun w => Ok (image_select_value w)) ;;
  path <~ get_full_path selected ;;
  stored <~ lift (stored_value db "roi_data" path) ;;
  roi_data <~ lift (nan_free_rows stored) ;;
  columns <~ lift (for_each append_roi roi_data no_rois) ;;
  modify (set_roi_source columns).

Definition draw_existing_vectors (db : dataset) : M unit :=
  selected <~ reads (fun w => Ok (image_select_value w)) ;;
  path <~ get_full_path selected ;;
  stored <~ lift (stored_value db "vector_data" path) ;;
  vector_data <~ lift (nan_free_rows stored) ;;
  columns <~ lift (for_each append_vector vector_data no_vectors) ;;
  modify (set_vector_source columns).

(** [update_plot]; the result is what it assigns to the image source
    and the plot ranges. *)
Definition update_plot (time_slider : slider) : M image_display :=
  frame <~ reads (get_current_frame time_slider) ;;
  width <~ lift (list_index (shape (Arr2 frame)) 1) ;;
  height <~ lift (list_index (shape (Arr2 frame)) 0) ;;
  let display :=
    {| shown_image := [frame]; shown_dw := [width]; shown_dh := [height];
       x_range_end := width; y_range_end := height |} in
  selected <~ reads (fun w => Ok (image_select_value w)) ;;
  path <~ get_full_path selected ;;
  db_path <~ get_db_path ;;
  isfile <~ os_path_isfile db_path ;;
  drawn <~ (if isfile then
              db <~ xr_open_dataset db_path ;;
              match ds_paths db with       (* ['path' in db and ...] *)
              | Ok paths =>
                  if bool_decide (path ∈ paths) then
                    draw_existing_rois db ;;;
                    draw_existing_vectors db ;;;
                    ret true
                  else ret false
              | Raise _ => ret false
              end
            else ret false) ;;
  if drawn : bool then ret display
  else
    modify (set_roi_source no_rois) ;;;
    modify (set_vector_source no_vectors) ;;;
    ret display.

(** What [update_frame] assigns to: the image shown and the region
    shown next to it. *)
Record frame_display := {
  image_source_image : list plane;
  roi_plot_image : list plane;
}.

(** [update_frame(attr, old, new)], with the indices of the selected
    ROIs as [selected_indices]. What was assigned before an exception
    stays assigned, so the display is returned beside the result. *)
Definition update_frame (new : Z) (selected_indices : list Z)
  (time_slider : slider) (d : frame_display) (w : world)
  : result unit * frame_display * world :=
  match get_current_image w with
  | Raise e => (Raise e, d, w)
  | Ok (Arr2 _) => (Ok tt, d, w)
  | Ok (Arr3 frames) =>
      let failed d' :=
        (Ok tt, d', set_console (console w ++ ["Failed to update image frame!"]) w) in
      match np_index 0 frames new with
      | Raise e => if is_IndexError e then failed d else (Raise e, d, w)
      | Ok f =>
          let d1 := {| image_source_image := [f];
                       roi_plot_image := roi_plot_image d |} in
          match selected_indices with
          | [] => (Ok tt, d1, w)
          | roi_index :: _ =>
              match get_roi_data roi_index (slider_value time_slider) w with
              | Ok region =>
                  (Ok tt,
                   {| image_source_image := [f]; roi_plot_image := [region] |},
                   w)
              | Raise e => if is_IndexError e then failed d1 else (Raise e, d1, w)
              end
          end
      end
  end.

(** The read-only inputs [update_parameter_widgets] assigns to, beside
    the line and frame rate inputs of the [world]. *)
Record parameter_inputs := {
  rows_input_value : string;
  columns_input_value : string;
  zoom_factor_input_value : string;
  x_pixel_to_micron_input_value : string;
  y_pixel_to_micron_input_value : string;
}.

Section Widgets.
Context {B : Builtins}.

Definition update_parameter_widgets : M parameter_inputs :=
  line_rate <~ get_string "line_rate" ;;
  modify (set_line_rate_input line_rate) ;;;
  frame_rate <~ get_string "frame_rate" ;;
  modify (set_frame_rate_input frame_rate) ;;;
  rows <~ get_string "n_rows" ;;
  columns <~ get_string "n_columns" ;;
  zoom_factor <~ get_string "zoom_factor" ;;
  x_pixel_to_micron <~ get_string "x_pixel_to_micron" ;;
  y_pixel_to_micron <~ get_string "y_pixel_to_micron" ;;
  ret {| rows_input_value := rows;
         columns_input_value := columns;
         zoom_factor_input_value := zoom_factor;
         x_pixel_to_micron_input_value := x_pixel_to_micron;
         y_pixel_to_micron_input_value := y_pixel_to_micron |}.

(** [str(v)] of a getter's result: [None] prints as its name. *)
Definition str_of (value : option num) : string :=
  match value with
  | Some v => py_str v
  | None => "None"
  end.

(** [update_pixel_to_micron]; the result is what it assigns to the two
    pixel-to-micron inputs. *)
Definition update_pixel_to_micron : M (string * string) :=
  x <~ calc_x_pixel_to_micron ;;
  y <~ calc_y_pixel_to_micron ;;
  ret (str_of x, str_of y).
End Widgets.

(** The selections as rows, the way the tables hold them: ROI [i] as
    (x, y, width, height), vector [i] as its first two x and first two
    y coordinates. *)
Definition roi_rows (c : roi_columns) : table :=
  zip_with (fun xy wh : num * num => [xy.1; xy.2; wh.1; wh.2])
    (zip (roi_x c) (roi_y c)) (zip (roi_width c) (roi_height c)).

Definition vector_rows (c : vector_columns) : table :=
  zip_with (fun xs ys : list num => take 2 xs ++ take 2 ys)
    (vec_xs c) (vec_ys c).

(** A row without a not-a-number. *)
Definition nan_free (row : list num) : bool := negb (existsb isnan row).

(** A selection of [m] vectors of two points each. *)
Definition two_point_vectors (c : vector_columns) (m : nat) : Prop :=
  length (vec_xs c) = m /\ length (vec_ys c) = m /\
  Forall (fun l => length l = 2%nat) (vec_xs c) /\
  Forall (fun l => length l = 2%nat) (vec_ys c).

(** What [draw_existing_rois] and [draw_existing_vectors] make of a
    stored value. *)
Definition rois_of_stored (stored : value) : result roi_columns :=
  roi_data <- nan_free_rows stored ;;
  for_each append_roi roi_data no_rois.

Definition vectors_of_stored (stored : value) : result vector_columns :=
  vector_data <- nan_free_rows stored ;;
  for_each append_vector vector_data no_vectors.

(** [w'] is [w] but for the disk, the fault budget and the console:
    the widgets, the image, its metadata, the selections and the
    directory tree are those of [w]. *)
Definition same_session (w w' : world) : Prop :=
  w' = set_disk (files w') (faults w') (set_console (console w') w).

(** An environment that never fails stays that way. *)
Definition still_unlimited (w w' : world) : Prop :=
  faults w = None -> faults w' = None.

(** A computation whose final state is always related by [R] to the
    state it started in. *)
Definition preserves (R : world -> world -> Prop) {A} (m : M A) : Prop :=
  forall w, R w (m w).2.

(** What [update_plot] shows for a frame: the frame, its width and
    height, and the plot ranges ending there. *)
Definition display_of (frame : plane) : image_display :=
  let width := Z.of_nat (length (default [] (head frame))) in
  let height := Z.of_nat (length frame) in
  {| shown_image := [frame]; shown_dw := [width]; shown_dh := [height];
     x_range_end := width; y_range_end := height |}.

(** The time slider after [show_2d_projection(attr, old, new)]: its
    [disabled] flag is assigned first, whatever follows. *)
Definition toggled_slider (new : bool) (time_slider : slider) : slider :=
  {| slider_end := slider_end time_slider;
     slider_value := slider_value time_slider;
     slider_disabled := if negb new then false else true |}.

(** What [show_2d_projection] assigns to the image source: all of it
    through [update_plot], or the [image] column alone. *)
Inductive toggle_display :=
  | FrameShown (d : image_display)
  | ProjectionShown (image : list (option plane)).

Definition show_2d_projection (new : bool) (time_slider : slider)
  : M toggle_display :=
  if negb new then         (* [if new is False] *)
    d <~ update_plot (toggled_slider new time_slider) ;;
    ret (FrameShown d)
  else
    projection <~ reads calculate_2d_projection ;;
    ret (ProjectionShown [projection]).

(** A session on a single plane that came without metadata. *)
Definition plane_world : world :=
  {| base_dir_input_value := "/data";
     image_select_value := "/a.tif";
     fov_input_value := "870";
     line_rate_input_value := "2.5";
     frame_rate_input_value := "2.5";
     raw_image := [Arr2 [[1; 2]; [3; 4]]];
     raw_meta := [None];
     roi_source := no_rois;
     vector_source := no_vectors;
     walk := fun _ => [("/data", ["a.tif"])];
     dirs := {[ "/data" ]};
     files := ∅;
     console := [];
     faults := None |}.

(** A session whose metadata is the scan [scan], with [fov] typed into
    the field-of-view input. *)
Definition scan_world (scan : gmap string num) (fov : string) : world :=
  {| base_dir_input_value := "/data";
     image_select_value := "/a.tif";
     fov_input_value := fov;
     line_rate_input_value := "---";
     frame_rate_input_value := "---";
     raw_image := [Arr3 sample_stack];
     raw_meta := [Some {[ "FrameData" := scan ]}];
     roi_source := no_rois;
     vector_source := no_vectors;
     walk := fun _ => [("/data", ["a.tif"])];
     dirs := {[ "/data" ]};
     files := ∅;
     console := [];
     faults := None |}.

(** A 512 x 512 scan at zoom factor 0 with a line period of 0. *)
Definition still_scan : gmap string num :=
  list_to_map
    [ ("SI.hRoiManager.pixelsPerLine", Num 512);
      ("SI.hRoiManager.linesPerFrame", Num 512);
      ("SI.hRoiManager.scanZoomFactor", Num 0);
      ("SI.hRoiManager.scanFrameRate", Num 30);
      ("SI.hRoiManager.linePeriod", Num 0) ].

(* ===================================================================== *)
(** * Loops and indexing *)
(* ===================================================================== *)

Lemma for_each_app {A S} (body : A -> S -> result S) xs ys s :
  for_each body (xs ++ ys) s
  = (s' <- for_each body xs s ;; for_each body ys s').
Proof.
  revert s; induction xs as [|x xs IH]; intros s; simpl; [done|].
  destruct (body x s); simpl; auto.
Qed.

Lemma list_index_nat {A} (l : list A) (i : nat) x :
  l !! i = Some x -> list_index l (Z.of_nat i) = Ok x.
Proof.
  intros Hl. pose proof (lookup_lt_Some _ _ _ Hl) as Hlt.
  unfold list_index.
  destruct (Z.ltb_spec (Z.of_nat i) 0); [lia|].
  destruct (Z.leb_spec 0 (Z.of_nat i)); [|lia].
  destruct (Z.ltb_spec (Z.of_nat i) (Z.of_nat (length l))); [|lia].
  simpl. by rewrite Nat2Z.id, Hl.
Qed.

Lemma list_index_0 {A} (x : A) l : list_index (x :: l) 0 = Ok x.
Proof. exact (list_index_nat (x :: l) 0 x eq_refl). Qed.

Lemma list_index_1 {A} (x y : A) l : list_index (x :: y :: l) 1 = Ok y.
Proof. exact (list_index_nat (x :: y :: l) 1 y eq_refl). Qed.

Section Tables.
Local Open Scope nat_scope.

(** The loop shared by both table builders, for at most 50 selections. *)
Lemma fill_rows (params : nat -> result (list num)) (row : nat -> list num) n :
  n <= 50 ->
  (forall i, i < n -> params i = Ok (row i)) ->
  exists t,
    for_each (fun index t => r <- params index ;; np_set_row t index r)
      (seq 0 n) (np_full 50 4 NaN) = Ok t
    /\ length t = 50
    /\ (forall i, i < n -> t !! i = Some (row i))
    /\ (forall i, n <= i < 50 -> t !! i = Some nan_row).
Proof.
  induction n as [|n IH]; intros Hn Hp.
  - exists (np_full 50 4 NaN). split; [done|]. split; [done|].
    split; [intros; lia|]. intros i Hi. unfold np_full.
    by rewrite lookup_replicate_2 by lia.
  - destruct IH as (t & Hrun & Hlen & Hlo & Hhi); [lia | intros; apply Hp; lia |].
    exists (<[n := row n]> t).
    rewrite seq_S, for_each_app, Hrun. simpl.
    rewrite (Hp n) by lia. simpl. unfold np_set_row.
    destruct (Nat.ltb_spec n (length t)); [|lia].
    split; [done|]. split; [by rewrite length_insert|]. split.
    + intros i Hi. destruct (decide (i = n)) as [->|Hne].
      * apply list_lookup_insert_eq. lia.
      * rewrite list_lookup_insert_ne by done. apply Hlo. lia.
    + intros i Hi. rewrite list_lookup_insert_ne by lia. apply Hhi. lia.
Qed.

(** The same loop with more than 50 selections stops at row 50. *)
Lemma fill_rows_overflow (params : nat -> result (list num))
  (row : nat -> list num) n :
  50 < n ->
  (forall i, i < n -> params i = Ok (row i)) ->
  for_each (fun index t => r <- params index ;; np_set_row t index r)
    (seq 0 n) (np_full 50 4 NaN)
  = Raise (IndexError (AxisBound 0 50 50)).
Proof.
  intros Hn Hp.
  destruct (fill_rows params row 50) as (t & Hrun & Hlen & _);
    [lia | intros; apply Hp; lia |].
  replace n with (50 + (n - 50)) by lia.
  rewrite seq_app, for_each_app, Hrun. simpl.
  destruct (n - 50) as [|k] eqn:Hk; [lia|]. simpl.
  rewrite (Hp 50) by lia. simpl. unfold np_set_row.
  destruct (Nat.ltb_spec 50 (length t)); [lia|]. by rewrite Hlen.
Qed.

Lemma roi_params_ok w n i :
  roi_wf (roi_source w) n -> i < n ->
  exists x y wd h,
    roi_x (roi_source w) !! i = Some x /\ roi_y (roi_source w) !! i = Some y /\
    roi_width (roi_source w) !! i = Some wd /\
    roi_height (roi_source w) !! i = Some h /\
    get_roi_params (Z.of_nat i) w = Ok [x; y; wd; h].
Proof.
  intros (Hx & Hy & Hw & Hh) Hi.
  destruct (lookup_lt_is_Some_2 (roi_x (roi_source w)) i) as [x Ex]; [lia|].
  destruct (lookup_lt_is_Some_2 (roi_y (roi_source w)) i) as [y Ey]; [lia|].
  destruct (lookup_lt_is_Some_2 (roi_width (roi_source w)) i) as [wd Ew]; [lia|].
  destruct (lookup_lt_is_Some_2 (roi_height (roi_source w)) i) as [h Eh]; [lia|].
  exists x, y, wd, h. repeat (split; [done|]).
  unfold get_roi_params.
  by rewrite (list_index_nat _ _ _ Ex), (list_index_nat _ _ _ Ey),
    (list_index_nat _ _ _ Ew), (list_index_nat _ _ _ Eh).
Qed.

Lemma vector_params_ok w m i :
  vector_wf (vector_source w) m -> i < m ->
  exists x0 x1 xr y0 y1 yr,
    vec_xs (vector_source w) !! i = Some (x0 :: x1 :: xr) /\
    vec_ys (vector_source w) !! i = Some (y0 :: y1 :: yr) /\
    get_vector_params (Z.of_nat i) w = Ok [x0; x1; y0; y1].
Proof.
  intros (Hx & Hy & Fx & Fy) Hi.
  destruct (lookup_lt_is_Some_2 (vec_xs (vector_source w)) i) as [xs Ex]; [lia|].
  destruct (lookup_lt_is_Some_2 (vec_ys (vector_source w)) i) as [ys Ey]; [lia|].
  pose proof (proj1 (Forall_lookup _ _) Fx _ _ Ex) as Lx.
  pose proof (proj1 (Forall_lookup _ _) Fy _ _ Ey) as Ly.
  destruct xs as [|x0 [|x1 xr]]; simpl in Lx; try lia.
  destruct ys as [|y0 [|y1 yr]]; simpl in Ly; try lia.
  exists x0, x1, xr, y0, y1, yr. repeat (split; [done|]).
  unfold get_vector_params.
  rewrite (list_index_nat _ _ _ Ex), (list_index_nat _ _ _ Ey). cbn [rbind].
  by rewrite !list_index_0, !list_index_1.
Qed.
End Tables.

Section TableClaims.
Local Open Scope nat_scope.

Lemma roi_table_ok w n :
  roi_wf (roi_source w) n -> n <= 50 ->
  exists t, get_roi_data_by_index w = Ok t /\ padded t n (roi_row (roi_source w)).
Proof.
  intros Hwf Hn.
  set (row i := default [] (roi_row (roi_source w) i)).
  assert (Hrow : forall i, i < n ->
            get_roi_params (Z.of_nat i) w = Ok (row i)
            /\ roi_row (roi_source w) i = Some (row i)).
  { intros i Hi.
    destruct (roi_params_ok w n i Hwf Hi) as (x & y & wd & h & Ex & Ey & Ew & Eh & Hp).
    unfold row, roi_row. rewrite Ex, Ey, Ew, Eh. by simpl. }
  destruct (fill_rows (fun i => get_roi_params (Z.of_nat i) w) row n Hn)
    as (t & Hrun & Hlen & Hlo & Hhi).
  { intros i Hi. apply Hrow, Hi. }
  exists t. split.
  - unfold get_roi_data_by_index. destruct Hwf as (-> & _). exact Hrun.
  - split; [done|]. split; [|done].
    intros i Hi. destruct (Hrow i Hi) as [_ ->]. split; [by eexists|]. by apply Hlo.
Qed.

Lemma vector_table_ok w m :
  vector_wf (vector_source w) m -> m <= 50 ->
  exists t,
    get_vector_data_by_index w = Ok t /\ padded t m (vector_row (vector_source w)).
Proof.
  intros Hwf Hm.
  set (row i := default [] (vector_row (vector_source w) i)).
  assert (Hrow : forall i, i < m ->
            get_vector_params (Z.of_nat i) w = Ok (row i)
            /\ vector_row (vector_source w) i = Some (row i)).
  { intros i Hi.
    destruct (vector_params_ok w m i Hwf Hi)
      as (x0 & x1 & xr & y0 & y1 & yr & Ex & Ey & Hp).
    unfold row, vector_row. rewrite Ex, Ey. by simpl. }
  destruct (fill_rows (fun i => get_vector_params (Z.of_nat i) w) row m Hm)
    as (t & Hrun & Hlen & Hlo & Hhi).
  { intros i Hi. apply Hrow, Hi. }
  exists t. split.
  - unfold get_vector_data_by_index. destruct Hwf as (-> & _). exact Hrun.
  - split; [done|]. split; [|done].
    intros i Hi. destruct (Hrow i Hi) as [_ ->]. split; [by eexists|]. by apply Hlo.
Qed.

Lemma roi_table_overflow w n :
  roi_wf (roi_source w) n -> 50 < n ->
  get_roi_data_by_index w = Raise (IndexError (AxisBound 0 50 50)).
Proof.
  intros Hwf Hn.
  pose proof (fill_rows_overflow (fun i => get_roi_params (Z.of_nat i) w)
                (fun i => default [] (roi_row (roi_source w) i)) n Hn) as H.
  unfold get_roi_data_by_index. destruct Hwf as (Hx & Hrest). rewrite Hx.
  apply H. intros i Hi.
  destruct (roi_params_ok w n i (conj Hx Hrest) Hi)
    as (x & y & wd & h & Ex & Ey & Ew & Eh & Hp).
  unfold roi_row. rewrite Ex, Ey, Ew, Eh. by simpl.
Qed.

Lemma vector_table_overflow w m :
  vector_wf (vector_source w) m -> 50 < m ->
  get_vector_data_by_index w = Raise (IndexError (AxisBound 0 50 50)).
Proof.
  intros Hwf Hm.
  pose proof (fill_rows_overflow (fun i => get_vector_params (Z.of_nat i) w)
                (fun i => default [] (vector_row (vector_source w) i)) m Hm) as H.
  unfold get_vector_data_by_index. destruct Hwf as (Hx & Hrest). rewrite Hx.
  apply H. intros i Hi.
  destruct (vector_params_ok w m i (conj Hx Hrest) Hi)
    as (x0 & x1 & xr & y0 & y1 & yr & Ex & Ey & Hp).
  unfold vector_row. rewrite Ex, Ey. by simpl.
Qed.

(** C3. For a selection of [n <= 50] ROIs and [m <= 50] vectors both
    table builders return a table of exactly 50 rows: row [i < n] of the
    ROI table is ROI [i]'s (x, y, width, height), row [i < m] of the
    vector table is vector [i]'s (x_start, x_end, y_start, y_end), each
    in selection order, and every later row holds four not-a-number
    sentinels. The coordinate labels written next to them number the
    50 rows and name the 4 columns. *)
Theorem C3_tables_fixed_capacity_nan_padded w n m :
  roi_wf (roi_source w) n -> vector_wf (vector_source w) m ->
  n <= 50 -> m <= 50 ->
  (exists rt vt,
     get_roi_data_by_index w = Ok rt
     /\ get_vector_data_by_index w = Ok vt
     /\ padded rt n (roi_row (roi_source w))
     /\ padded vt m (vector_row (vector_source w)))
  /\ (forall path c, create_coords_dict path w = Ok c ->
        c_roi_num c = Z.of_nat <$> seq 0 50
        /\ c_roi_loc c = ["x"; "y"; "width"; "height"]
        /\ c_vector_num c = Z.of_nat <$> seq 0 50
        /\ c_vector_loc c = ["x_start"; "x_end"; "y_start"; "y_end"]).
Proof.
  intros Hr Hv Hn Hm. split.
  - destruct (roi_table_ok w n Hr Hn) as (rt & Hrt & Prt).
    destruct (vector_table_ok w m Hv Hm) as (vt & Hvt & Pvt).
    by exists rt, vt.
  - intros path c. unfold create_coords_dict.
    destruct (get_current_image w) as [image|]; simpl; [|done].
    destruct (list_index (shape image) 2); simpl; [|done].
    destruct (list_index (shape image) 1); simpl; [|done].
    destruct (list_index (shape image) 0); simpl; [|done].
    intros [= <-]. done.
Qed.

(** C8. The capacity of 50 rows is not checked: with more than 50 ROIs
    (vectors) selected, the builder gets through rows 0..49 and then
    fails with numpy's out-of-bounds error for index 50 on the axis of
    size 50; with at most 50 it returns a table. *)
Theorem C8_capacity_unchecked w n m :
  roi_wf (roi_source w) n -> vector_wf (vector_source w) m ->
  (50 < n ->
     get_roi_data_by_index w = Raise (IndexError (AxisBound 0 50 50)))
  /\ (n <= 50 -> exists t, get_roi_data_by_index w = Ok t)
  /\ (50 < m ->
        get_vector_data_by_index w = Raise (IndexError (AxisBound 0 50 50)))
  /\ (m <= 50 -> exists t, get_vector_data_by_index w = Ok t).
Proof.
  intros Hr Hv. repeat split.
  - by apply roi_table_overflow.
  - intros Hn. destruct (roi_table_ok w n Hr Hn) as (t & Ht & _). by exists t.
  - by apply vector_table_overflow.
  - intros Hm. destruct (vector_table_ok w m Hv Hm) as (t & Ht & _). by exists t.
Qed.
End TableClaims.

(* ===================================================================== *)
(** * The maximum-intensity projection *)
(* ===================================================================== *)

Section Projection.
Local Open Scope nat_scope.

Lemma pixel_is_Some h w f i j :
  plane_wf h w f -> i < h -> j < w -> is_Some (pixel f i j).
Proof.
  intros [Hlen Hrows] Hi Hj. unfold pixel.
  destruct (lookup_lt_is_Some_2 f i) as [row Er]; [lia|]. rewrite Er. simpl.
  apply lookup_lt_is_Some_2.
  by rewrite (proj1 (Forall_lookup _ _) Hrows _ _ Er).
Qed.

Lemma zip_max_wf h w a b :
  plane_wf h w a -> plane_wf h w b -> plane_wf h w (zip_max a b).
Proof.
  intros [La Ra] [Lb Rb]. unfold zip_max. split.
  - rewrite length_zip_with. lia.
  - apply Forall_lookup. intros i row. rewrite lookup_zip_with.
    destruct (a !! i) as [ra|] eqn:Ea; simpl; [|done].
    destruct (b !! i) as [rb|] eqn:Eb; simpl; [|done].
    intros [= <-]. rewrite length_zip_with.
    rewrite (proj1 (Forall_lookup _ _) Ra _ _ Ea).
    rewrite (proj1 (Forall_lookup _ _) Rb _ _ Eb). lia.
Qed.

Lemma zip_max_pixel a b i j x y :
  pixel a i j = Some x -> pixel b i j = Some y ->
  pixel (zip_max a b) i j = Some (Z.max x y).
Proof.
  unfold pixel, zip_max. rewrite lookup_zip_with.
  destruct (a !! i) as [ra|]; simpl; [|done].
  destruct (b !! i) as [rb|]; simpl; [|done].
  rewrite lookup_zip_with. intros -> ->. done.
Qed.

(** Folding the pointwise maximum over a stack yields, at each pixel, an
    upper bound of the stack that one of its planes attains. *)
Lemma foldl_zip_max h w fs : forall f,
  plane_wf h w f -> stack_wf h w fs ->
  plane_wf h w (foldl zip_max f fs)
  /\ forall i j, i < h -> j < w ->
       exists v, pixel (foldl zip_max f fs) i j = Some v
         /\ (forall g, g ∈ f :: fs -> exists u, pixel g i j = Some u /\ (u <= v)%Z)
         /\ (exists g, g ∈ f :: fs /\ pixel g i j = Some v).
Proof.
  induction fs as [|g fs IH]; intros f Hf Hfs; simpl.
  - split; [done|]. intros i j Hi Hj.
    destruct (pixel_is_Some h w f i j Hf Hi Hj) as [v Hv]. exists v.
    split; [done|]. split.
    + intros g' ->%list_elem_of_singleton. exists v. split; [done|lia].
    + exists f. split; [apply list_elem_of_here|done].
  - apply Forall_cons in Hfs as [Hg Hfs].
    destruct (IH (zip_max f g) (zip_max_wf h w f g Hf Hg) Hfs) as [Hwf Hpix].
    split; [done|]. intros i j Hi Hj.
    destruct (Hpix i j Hi Hj) as (v & Hv & Hub & (g' & Hin & Hat)).
    destruct (pixel_is_Some h w f i j Hf Hi Hj) as [x Hx].
    destruct (pixel_is_Some h w g i j Hg Hi Hj) as [y Hy].
    pose proof (zip_max_pixel f g i j x y Hx Hy) as Hm.
    destruct (Hub (zip_max f g) (list_elem_of_here _ _)) as (u & Hu & Hle).
    rewrite Hm in Hu. injection Hu as <-.
    exists v. split; [done|]. split.
    + intros g0 Hg0. apply elem_of_cons in Hg0 as [->|Hg0].
      { exists x. split; [done|lia]. }
      apply elem_of_cons in Hg0 as [->|Hg0].
      { exists y. split; [done|lia]. }
      apply Hub. by apply list_elem_of_further.
    + apply elem_of_cons in Hin as [->|Hin].
      * rewrite Hm in Hat. injection Hat as <-.
        destruct (Z.max_spec x y) as [[_ ->]|[_ ->]].
        { exists g. split; [|done]. apply list_elem_of_further, list_elem_of_here. }
        { exists f. split; [apply list_elem_of_here|done]. }
      * exists g'. split; [|done]. by do 2 apply list_elem_of_further.
Qed.

(** C6. For a time stack with at least one frame, all frames [h] by [w],
    [calculate_2d_projection] returns one [h] by [w] plane whose pixel
    [(i, j)] is the maximum over the frames of their pixel [(i, j)]: no
    frame exceeds it and some frame attains it. *)
Theorem C6_projection_is_max_over_time w frames h wd :
  get_current_image w = Ok (Arr3 frames) ->
  frames <> [] ->
  stack_wf h wd frames ->
  exists p,
    calculate_2d_projection w = Ok (Some p)
    /\ plane_wf h wd p
    /\ forall i j, i < h -> j < wd ->
         exists v, pixel p i j = Some v
           /\ (forall f, f ∈ frames -> exists u, pixel f i j = Some u /\ (u <= v)%Z)
           /\ (exists f, f ∈ frames /\ pixel f i j = Some v).
Proof.
  intros Himg Hne Hwf. unfold calculate_2d_projection. rewrite Himg. simpl.
  destruct frames as [|f fs]; [done|]. simpl.
  apply Forall_cons in Hwf as [Hf Hfs].
  destruct (foldl_zip_max h wd fs f Hf Hfs) as [Hp Hpix].
  exists (foldl zip_max f fs). done.
Qed.
End Projection.

(* ===================================================================== *)
(** * Looking up a path; reading the dataset *)
(* ===================================================================== *)

Lemma get_file_paths_reads ext w :
  exists image_paths, get_file_paths ext w = (Ok image_paths, w).
Proof. unfold get_file_paths, reads. by eexists. Qed.

Lemma filter_none {A} (P : A -> bool) l :
  Forall (fun x => P x = false) l -> List.filter P l = [].
Proof.
  induction 1 as [|x l Hx _ IH]; simpl; [done|]. by rewrite Hx.
Qed.

Lemma filter_first {A} (P : A -> bool) pre x post :
  Forall (fun y => P y = false) pre -> P x = true ->
  List.filter P (pre ++ x :: post) = x :: List.filter P post.
Proof.
  intros Hpre Hx. rewrite List.filter_app, (filter_none P pre Hpre). simpl.
  by rewrite Hx.
Qed.

(** C4. [get_full_path] never raises. When no discovered path ends with
    the relative path it prints the failure message and returns [None];
    otherwise it returns the first discovered path that ends with it and
    prints nothing. *)
Theorem C4_get_full_path_sentinel relative_path w :
  exists image_paths,
    get_file_paths IMAGE_EXT w = (Ok image_paths, w)
    /\ (Forall (fun f => endswith f relative_path = false) image_paths ->
        get_full_path relative_path w
        = (Ok None,
           set_console (console w ++ ["Failed to find appropriate image path"]) w))
    /\ (forall pre f post,
          image_paths = pre ++ f :: post ->
          Forall (fun g => endswith g relative_path = false) pre ->
          endswith f relative_path = true ->
          get_full_path relative_path w = (Ok (Some f), w)).
Proof.
  destruct (get_file_paths_reads IMAGE_EXT w) as [image_paths Hp].
  exists image_paths. split; [done|]. split.
  - intros Hnone. unfold get_full_path, bind, try_except, lift.
    rewrite Hp, (filter_none _ _ Hnone). done.
  - intros pre f post -> Hpre Hf. unfold get_full_path, bind, try_except, lift.
    rewrite Hp, (filter_first _ pre f post Hpre Hf), list_index_0. done.
Qed.

(** [get_full_path] changes nothing but the console. *)
Lemma get_full_path_world relative_path w :
  exists r c, get_full_path relative_path w = (Ok r, set_console c w).
Proof.
  unfold get_full_path, bind, try_except, lift, get_file_paths, reads.
  match goal with |- context [List.filter ?P ?l] => destruct (List.filter P l) as [|f fs] end.
  - exists None. eexists. done.
  - rewrite list_index_0. exists (Some f), (console w). by destruct w.
Qed.

Lemma get_db_path_dir w :
  base_dir_input_value w ∈ dirs w ->
  get_db_path w = (Ok (Some (os_path_join (base_dir_input_value w) "db.nc")), w).
Proof.
  intros Hd. unfold get_db_path, bind, reads, os_path_isdir.
  by rewrite bool_decide_eq_true_2.
Qed.

Lemma get_db_path_nodir w :
  base_dir_input_value w ∉ dirs w -> get_db_path w = (Ok None, w).
Proof.
  intros Hd. unfold get_db_path, bind, reads, os_path_isdir.
  by rewrite bool_decide_eq_false_2.
Qed.

(** C5. [read_db] opens the path given by [get_db_path]: a
    [FileNotFoundError] from opening it is turned into the empty
    dataset, a dataset that opens is returned as it is. In particular,
    with the base directory in place and no [db.nc] in it, the empty
    dataset is returned and nothing is raised. *)
Theorem C5_read_db_missing_file w :
  (forall p w1, get_db_path w = (Ok p, w1) ->
     (forall w2, xr_open_dataset p w1 = (Raise FileNotFoundError, w2) ->
        read_db w = (Ok xr_empty, w2))
     /\ (forall ds w2, xr_open_dataset p w1 = (Ok ds, w2) ->
           read_db w = (Ok ds, w2)))
  /\ (base_dir_input_value w ∈ dirs w ->
      (files w !! os_path_join (base_dir_input_value w) "db.nc" = None ->
         read_db w = (Ok xr_empty, w))
      /\ (forall ds,
            files w !! os_path_join (base_dir_input_value w) "db.nc"
            = Some (NetCDF ds) ->
            read_db w = (Ok ds, w))).
Proof.
  split.
  - intros p w1 Hp. split.
    + intros w2 Ho. unfold read_db, try_except, bind. by rewrite Hp, Ho.
    + intros ds w2 Ho. unfold read_db, try_except, bind. by rewrite Hp, Ho.
  - intros Hd. split.
    + intros Hf. unfold read_db, try_except, bind.
      rewrite (get_db_path_dir w Hd). unfold xr_open_dataset. by rewrite Hf.
    + intros ds Hf. unfold read_db, try_except, bind.
      rewrite (get_db_path_dir w Hd). unfold xr_open_dataset. by rewrite Hf.
Qed.

(* ===================================================================== *)
(** * Parameter read-outs *)
(* ===================================================================== *)

Section Readouts.
Context {B : Builtins}.

Lemma get_string_absent param w :
  PARAM_GETTERS !! param = None -> get_string param w = (Ok "INVALID", w).
Proof.
  intros Hp. unfold get_string, bind, try_except, lift, dict_get.
  by rewrite Hp.
Qed.

Lemma get_string_key_error param (getter : M (option num)) key w w' :
  PARAM_GETTERS !! param = Some getter ->
  getter w = (Raise (KeyError key), w') ->
  get_string param w = (Ok "INVALID", w').
Proof.
  intros Hp Hg. unfold get_string, bind, try_except, lift, dict_get.
  by rewrite Hp, Hg.
Qed.

Lemma get_string_falsy param (getter : M (option num)) value w w' :
  PARAM_GETTERS !! param = Some getter ->
  getter w = (Ok value, w') ->
  match value with Some v => num_truthy v = false | None => True end ->
  get_string param w = (Ok "---", w').
Proof.
  intros Hp Hg Hv. unfold get_string, bind, try_except, lift, dict_get.
  rewrite Hp, Hg. destruct value as [v|]; [|done]. by rewrite Hv.
Qed.

Lemma get_string_invalid_inv param w w' :
  (forall v, py_str v <> "INVALID") ->
  get_string param w = (Ok "INVALID", w') ->
  PARAM_GETTERS !! param = None
  \/ exists (getter : M (option num)) key,
       PARAM_GETTERS !! param = Some getter
       /\ getter w = (Raise (KeyError key), w').
Proof.
  intros Hstr. unfold get_string, bind, try_except, lift, dict_get.
  destruct (PARAM_GETTERS !! param) as [getter|] eqn:Hp; [|by left].
  destruct (getter w) as [[value|e] w1] eqn:Hg.
  - destruct value as [v|]; [destruct (num_truthy v)|]; unfold ret; simpl;
      intros [= Hs _]; try done. by destruct (Hstr v).
  - destruct e; simpl; try done.
    intros [= <-]. right. by exists getter, key.
Qed.

(** C10, as amended. A registered parameter whose getter returns a falsy
    value, be it [None] or a number equal to zero, reads ['---'], so a
    parameter that is really zero reads like a missing one. ['INVALID']
    is what an unregistered name reads, and also what a registered
    parameter reads when its getter raises [KeyError] (metadata present
    but without the key looked up); nothing else reads ['INVALID'],
    provided [str] of a number is never that text. *)
Theorem C10_get_string_placeholders param w :
  (forall (getter : M (option num)) value w',
     PARAM_GETTERS !! param = Some getter ->
     getter w = (Ok value, w') ->
     match value with Some v => num_truthy v = false | None => True end ->
     get_string param w = (Ok "---", w'))
  /\ (forall (getter : M (option num)) w',
        PARAM_GETTERS !! param = Some getter ->
        getter w = (Ok (Some (Num 0)), w') ->
        get_string param w = (Ok "---", w'))
  /\ (PARAM_GETTERS !! param = None ->
      get_string param w = (Ok "INVALID", w))
  /\ (forall (getter : M (option num)) key w',
        PARAM_GETTERS !! param = Some getter ->
        getter w = (Raise (KeyError key), w') ->
        get_string param w = (Ok "INVALID", w'))
  /\ ((forall v, py_str v <> "INVALID") ->
      forall w',
        get_string param w = (Ok "INVALID", w') ->
        PARAM_GETTERS !! param = None
        \/ exists (getter : M (option num)) key,
             PARAM_GETTERS !! param = Some getter
             /\ getter w = (Raise (KeyError key), w')).
Proof.
  split; [|split; [|split; [|split]]].
  - intros getter value w'. apply get_string_falsy.
  - intros getter w' Hp Hg. by apply (get_string_falsy param getter (Some (Num 0)) w w').
  - apply get_string_absent.
  - intros getter key w'. apply get_string_key_error.
  - intros Hstr w'. by apply get_string_invalid_inv.
Qed.
End Readouts.

(* ===================================================================== *)
(** * The extracted region *)
(* ===================================================================== *)

Lemma clamp_index_range n i : 0 <= n -> 0 <= clamp_index n i <= n.
Proof. unfold clamp_index. destruct (Z.ltb_spec i 0); lia. Qed.

Lemma py_slice_length {A} a b (l : list A) :
  Z.of_nat (length (py_slice a b l))
  = Z.max 0 (clamp_index (Z.of_nat (length l)) b
             - clamp_index (Z.of_nat (length l)) a).
Proof.
  unfold py_slice. rewrite length_take, length_drop.
  pose proof (clamp_index_range (Z.of_nat (length l)) a ltac:(lia)).
  pose proof (clamp_index_range (Z.of_nat (length l)) b ltac:(lia)).
  lia.
Qed.

(** A slice that stays inside the list has [b - a] entries. *)
Lemma py_slice_length_inside {A} a b (l : list A) :
  0 <= a <= b -> b <= Z.of_nat (length l) ->
  Z.of_nat (length (py_slice a b l)) = b - a.
Proof.
  intros Hab Hb. rewrite py_slice_length. unfold clamp_index.
  destruct (Z.ltb_spec a 0), (Z.ltb_spec b 0); lia.
Qed.

(** Whatever the position, a slice from [c - d] to [c + d] never has
    [2 * d + 1] entries. *)
Lemma py_slice_length_never_odd {A} c d (l : list A) :
  Z.of_nat (length (py_slice (c - d) (c + d) l)) <> 2 * d + 1.
Proof.
  rewrite py_slice_length. unfold clamp_index.
  destruct (Z.ltb_spec (c - d) 0), (Z.ltb_spec (c + d) 0); lia.
Qed.

Lemma odd_half w : Z.odd w = true -> 2 * (w `div` 2) = w - 1.
Proof.
  intros Ho. rewrite (Z.div_mod w 2) at 2 by lia.
  rewrite <- Z.bit0_mod, Z.bit0_odd, Ho. simpl. lia.
Qed.

Lemma even_half w : Z.even w = true -> 2 * (w `div` 2) = w.
Proof.
  intros He. rewrite (Z.div_mod w 2) at 2 by lia.
  rewrite <- Z.bit0_mod, Z.bit0_odd, <- Z.negb_even, He. simpl. lia.
Qed.

Lemma py_slice_Forall {A} (P : A -> Prop) a b l :
  Forall P l -> Forall P (py_slice a b l).
Proof. intros H. unfold py_slice. by apply Forall_take, Forall_drop. Qed.

Lemma py_slice_lookup {A} a b (l : list A) i x :
  0 <= a ->
  py_slice a b l !! i = Some x -> l !! (Z.to_nat a + i)%nat = Some x.
Proof.
  intros Ha. unfold py_slice. intros Hl.
  apply lookup_take_Some in Hl as [Hl _]. rewrite lookup_drop in Hl.
  pose proof (lookup_lt_Some _ _ _ Hl) as Hlt.
  unfold clamp_index in *. destruct (Z.ltb_spec a 0); [lia|].
  replace (Z.to_nat a + i)%nat
    with (Z.to_nat (Z.min a (Z.of_nat (length l))) + i)%nat by lia.
  done.
Qed.

(** Inside the list, entry [i] of a slice is entry [a + i] of the
    list. *)
Lemma py_slice_lookup_inside {A} a b (l : list A) i :
  0 <= a -> b <= Z.of_nat (length l) -> Z.of_nat i < b - a ->
  py_slice a b l !! i = l !! (Z.to_nat a + i)%nat.
Proof.
  intros Ha Hb Hi. unfold py_slice, clamp_index.
  destruct (Z.ltb_spec a 0); [lia|]. destruct (Z.ltb_spec b 0); [lia|].
  rewrite lookup_take_lt by lia. rewrite lookup_drop.
  f_equal. lia.
Qed.

(** C9, as amended. The region is cut from [x_center - w//2] to
    [x_center + w//2] and from [y_center - h//2] to [y_center + h//2],
    [w] and [h] being the rounded width and height. For an ROI of
    non-negative size whose span lies inside the image the region is
    [2 * (w//2)] pixels wide and [2 * (h//2)] high: one less than [w]
    ([h]) when that is odd, exactly [w] ([h]) when it is even. Wherever
    the ROI lies, the region is never [w] wide for an odd [w], nor [h]
    high for an odd [h]. As to which pixels are taken: for an ROI that
    starts inside the image every pixel [(i, j)] of the region is pixel
    [(y_center - h//2 + i, x_center - w//2 + j)] of the frame, and for
    an ROI whose span lies inside the image the region has such a pixel
    for every [i] below [2 * (h//2)] and [j] below [2 * (w//2)]. *)
Theorem C9_region_one_short_for_odd_sizes
  w roi_index frame qx qy qw qh frames f (hh ww : nat) :
  list_index (roi_width (roi_source w)) roi_index = Ok (Num qw) ->
  list_index (roi_height (roi_source w)) roi_index = Ok (Num qh) ->
  list_index (roi_x (roi_source w)) roi_index = Ok (Num qx) ->
  list_index (roi_y (roi_source w)) roi_index = Ok (Num qy) ->
  get_current_image w = Ok (Arr3 frames) ->
  np_index 0 frames frame = Ok f ->
  plane_wf hh ww f ->
  let width := round_half_even qw in
  let height := round_half_even qh in
  let x_center := round_half_even qx in
  let y_center := round_half_even qy in
  exists region,
    get_roi_data roi_index frame w = Ok region
    /\ (0 <= width -> 0 <= x_center - width `div` 2 ->
        x_center + width `div` 2 <= Z.of_nat ww ->
        Forall (fun row => Z.of_nat (length row) = 2 * (width `div` 2)) region)
    /\ (0 <= height -> 0 <= y_center - height `div` 2 ->
        y_center + height `div` 2 <= Z.of_nat hh ->
        Z.of_nat (length region) = 2 * (height `div` 2))
    /\ (Z.odd width = true -> 2 * (width `div` 2) = width - 1)
    /\ (Z.even width = true -> 2 * (width `div` 2) = width)
    /\ (Z.odd height = true -> 2 * (height `div` 2) = height - 1)
    /\ (Z.even height = true -> 2 * (height `div` 2) = height)
    /\ (Z.odd width = true ->
        Forall (fun row => Z.of_nat (length row) <> width) region)
    /\ (Z.odd height = true -> Z.of_nat (length region) <> height)
    /\ (0 <= x_center - width `div` 2 -> 0 <= y_center - height `div` 2 ->
        forall i j v,
          pixel region i j = Some v ->
          pixel f (Z.to_nat (y_center - height `div` 2) + i)
            (Z.to_nat (x_center - width `div` 2) + j) = Some v)
    /\ (0 <= width -> 0 <= height ->
        0 <= x_center - width `div` 2 ->
        x_center + width `div` 2 <= Z.of_nat ww ->
        0 <= y_center - height `div` 2 ->
        y_center + height `div` 2 <= Z.of_nat hh ->
        forall i j,
          Z.of_nat i < 2 * (height `div` 2) ->
          Z.of_nat j < 2 * (width `div` 2) ->
          is_Some (pixel region i j)
          /\ pixel region i j
             = pixel f (Z.to_nat (y_center - height `div` 2) + i)
                 (Z.to_nat (x_center - width `div` 2) + j)).
Proof.
  intros Hw Hh Hx Hy Himg Hf [Hlen Hrows] width height x_center y_center.
  eexists. split.
  { unfold get_roi_data. rewrite Hw, Hh, Hx, Hy, Himg. simpl.
    rewrite Hf. simpl. reflexivity. }
  assert (Hsub : Forall (fun row : list Z => length row = ww)
                   (py_slice (y_center - height `div` 2)
                      (y_center + height `div` 2) f))
    by by apply py_slice_Forall.
  subst width height x_center y_center.
  split; [|split; [|split; [|split; [|split; [|split; [|split; [|split; [|split]]]]]]]].
  - intros Hpos Hlo Hhi. apply Forall_fmap.
    eapply Forall_impl; [exact Hsub|]. intros row Hr. simpl in *.
    assert (0 <= round_half_even qw `div` 2) by (apply Z.div_pos; lia).
    rewrite py_slice_length_inside; lia.
  - intros Hpos Hlo Hhi. rewrite length_fmap.
    assert (0 <= round_half_even qh `div` 2) by (apply Z.div_pos; lia).
    rewrite py_slice_length_inside; lia.
  - apply odd_half.
  - apply even_half.
  - apply odd_half.
  - apply even_half.
  - intros Hodd. apply Forall_fmap.
    eapply Forall_impl; [exact Hsub|]. intros row Hr. simpl.
    pose proof (odd_half _ Hodd).
    pose proof (py_slice_length_never_odd (round_half_even qx)
                  (round_half_even qw `div` 2) row). lia.
  - intros Hodd. rewrite length_fmap.
    pose proof (odd_half _ Hodd).
    pose proof (py_slice_length_never_odd (round_half_even qy)
                  (round_half_even qh `div` 2) f). lia.
  - intros Hxs Hys i j v. unfold pixel. rewrite list_lookup_fmap.
    destruct (py_slice _ _ f !! i) as [row|] eqn:Hrow; simpl; [|done].
    intros Hv. rewrite (py_slice_lookup _ _ f i row Hys Hrow). simpl.
    by apply (py_slice_lookup _ _ row j v Hxs Hv).
  - intros Hwpos Hhpos Hxs Hxe Hys Hye i j Hi Hj.
    assert (0 <= round_half_even qw `div` 2) by (apply Z.div_pos; lia).
    assert (0 <= round_half_even qh `div` 2) by (apply Z.div_pos; lia).
    assert (Hpix : pixel
                     (py_slice (round_half_even qx - round_half_even qw `div` 2)
                        (round_half_even qx + round_half_even qw `div` 2)
                      <$> py_slice (round_half_even qy - round_half_even qh `div` 2)
                            (round_half_even qy + round_half_even qh `div` 2) f)
                     i j
                   = pixel f
                       (Z.to_nat (round_half_even qy - round_half_even qh `div` 2) + i)
                       (Z.to_nat (round_half_even qx - round_half_even qw `div` 2) + j)).
    { unfold pixel. rewrite list_lookup_fmap.
      rewrite py_slice_lookup_inside by lia.
      destruct (f !! _) as [row|] eqn:Hrow; simpl; [|done].
      pose proof (proj1 (Forall_lookup _ _) Hrows _ _ Hrow) as Hlr.
      simpl in Hlr. rewrite py_slice_lookup_inside by lia. done. }
    split; [|exact Hpix]. rewrite Hpix.
    apply (pixel_is_Some hh ww); [by split | lia | lia].
Qed.

(* ===================================================================== *)
(** * Saving: the write-back *)
(* ===================================================================== *)

(** Deleting the old file and writing the new one, under every fault
    budget: with no mutation left nothing happens, with one left the old
    file is gone and nothing replaces it. *)
Lemma write_back w db' old :
  base_dir_input_value w ∈ dirs w ->
  files w !! db_file w = Some old ->
  (os_remove (Some (db_file w)) ;;;
   db_path' <~ get_db_path ;;
   to_netcdf db' db_path') w
  = match faults w with
    | Some O => (Raise OSError, w)
    | Some (S O) =>
        (Raise OSError, set_disk (delete (db_file w) (files w)) (Some O) w)
    | b =>
        (Ok tt,
         set_disk (<[db_file w := NetCDF db']> (delete (db_file w) (files w)))
           (Nat.pred <$> (Nat.pred <$> b)) w)
    end.
Proof.
  intros Hd Hf. unfold bind at 1. unfold os_remove, fs_mutation. rewrite Hf.
  destruct (faults w) as [[|[|k]]|] eqn:Hb; simpl; try done.
  - unfold bind.
    rewrite (get_db_path_dir (set_disk (delete (db_file w) (files w)) (Some O) w) Hd).
    done.
  - unfold bind.
    rewrite (get_db_path_dir
               (set_disk (delete (db_file w) (files w)) (Some (S k)) w) Hd).
    done.
  - unfold bind.
    rewrite (get_db_path_dir (set_disk (delete (db_file w) (files w)) None w) Hd).
    done.
Qed.

Section SavingProofs.
Context {B : Builtins}.

Lemma coords_path path w coords :
  create_coords_dict path w = Ok coords -> c_path coords = path.
Proof.
  unfold create_coords_dict.
  destruct (get_current_image w) as [image|]; simpl; [|done].
  destruct (list_index (shape image) 2); simpl; [|done].
  destruct (list_index (shape image) 1); simpl; [|done].
  destruct (list_index (shape image) 0); simpl; [|done].
  by intros [= <-].
Qed.

(** What [save] returns and what it leaves on disk, case by case: the
    data dict, the base directory, the dataset file, the reconciliation
    and the fault budget decide. *)
Lemma save_run w :
  exists path,
    (get_full_path (image_select_value w) w).1 = Ok path
    /\ ((save w).1, files (save w).2)
       = match create_data_dict w with
         | Raise e => (Raise e, files w)
         | Ok data_vars =>
             if bool_decide (base_dir_input_value w ∈ dirs w) then
               match files w !! db_file w with
               | None =>
                   match create_coords_dict path w with
                   | Raise e => (Raise e, files w)
                   | Ok _ =>
                       match faults w with
                       | Some O => (Raise OSError, files w)
                       | _ =>
                           (Ok tt,
                            <[db_file w :=
                                NetCDF (DsScalarPath path (list_to_map data_vars))]>
                              (files w))
                       end
                   end
               | Some Opaque => (Raise BackendError, files w)
               | Some (NetCDF db) =>
                   match reconciled w path data_vars db with
                   | Raise e => (Raise e, files w)
                   | Ok db' =>
                       match faults w with
                       | Some O => (Raise OSError, files w)
                       | Some (S O) =>
                           (Raise OSError, delete (db_file w) (files w))
                       | _ => (Ok tt, <[db_file w := NetCDF db']> (files w))
                       end
                   end
               end
             else (Raise TypeError, files w)
         end.
Proof.
  destruct (get_full_path_world (image_select_value w) w) as (path & c & Hg).
  exists path. split; [by rewrite Hg|].
  destruct (save w) as [res w'] eqn:Hs. simpl.
  unfold save in Hs. unfold bind at 1 in Hs. unfold reads at 1 in Hs.
  unfold bind at 1 in Hs. rewrite Hg in Hs.
  unfold bind at 1 in Hs. unfold reads at 1 in Hs.
  change (create_data_dict (set_console c w)) with (create_data_dict w) in Hs.
  destruct (create_data_dict w) as [data_vars|e]; [|by injection Hs as <- <-].
  unfold bind at 1 in Hs.
  destruct (decide (base_dir_input_value w ∈ dirs w)) as [Hdir|Hdir].
  2:{ rewrite (get_db_path_nodir (set_console c w) Hdir) in Hs.
      rewrite bool_decide_eq_false_2 by done.
      unfold bind, os_path_isfile in Hs. by injection Hs as <- <-. }
  rewrite (get_db_path_dir (set_console c w) Hdir) in Hs.
  rewrite bool_decide_eq_true_2 by done.
  unfold bind at 1 in Hs. unfold os_path_isfile in Hs.
  change (files (set_console c w)) with (files w) in Hs.
  change (os_path_join (base_dir_input_value (set_console c w)) "db.nc")
    with (db_file w) in Hs.
  destruct (files w !! db_file w) as [[db|]|] eqn:Hfile.
  - (* a dataset file *)
    unfold bind at 1 in Hs. unfold xr_open_dataset in Hs.
    change (files (set_console c w)) with (files w) in Hs. rewrite Hfile in Hs.
    unfold bind at 1 in Hs. unfold lift at 1 in Hs. unfold reconciled.
    destruct (ds_paths db) as [paths|e]; simpl; [|by injection Hs as <- <-].
    unfold bind at 1 in Hs.
    destruct (bool_decide (path ∈ paths)).
    + unfold bind at 1 in Hs. unfold print at 1 in Hs. unfold lift in Hs.
      destruct (for_each (update_field path) data_vars db) as [db'|e];
        [|by injection Hs as <- <-].
      set (w2 := set_console _ _) in Hs.
      change (db_file w) with (db_file w2) in Hs.
      rewrite (write_back w2 db' (NetCDF db) Hdir Hfile) in Hs.
      change (faults w2) with (faults w) in Hs.
      destruct (faults w) as [[|[|k]]|]; injection Hs as <- <-; simpl;
        try done; by rewrite insert_delete_eq.
    + unfold bind at 1 in Hs. unfold print at 1 in Hs.
      unfold bind at 1 in Hs. unfold reads at 1 in Hs.
      set (w2 := set_console _ _) in Hs.
      change (create_coords_dict path w2) with (create_coords_dict path w) in Hs.
      destruct (create_coords_dict path w) as [coords|e]; simpl;
        [|by injection Hs as <- <-].
      unfold lift in Hs.
      destruct (xr_concat db (xr_Dataset data_vars coords)) as [db'|e];
        [|by injection Hs as <- <-].
      change (db_file w) with (db_file w2) in Hs.
      rewrite (write_back w2 db' (NetCDF db) Hdir Hfile) in Hs.
      change (faults w2) with (faults w) in Hs.
      destruct (faults w) as [[|[|k]]|]; injection Hs as <- <-; simpl;
        try done; by rewrite insert_delete_eq.
  - (* a file that is no dataset *)
    unfold bind, xr_open_dataset in Hs.
    change (files (set_console c w)) with (files w) in Hs. rewrite Hfile in Hs.
    by injection Hs as <- <-.
  - (* no file *)
    unfold bind at 1 in Hs. unfold reads at 1 in Hs.
    change (create_coords_dict path (set_console c w))
      with (create_coords_dict path w) in Hs.
    destruct (create_coords_dict path w) as [coords|e] eqn:Hco;
      [|by injection Hs as <- <-].
    unfold to_netcdf, fs_mutation, xr_Dataset in Hs.
    change (faults (set_console c w)) with (faults w) in Hs.
    rewrite (coords_path _ _ _ Hco) in Hs.
    destruct (faults w) as [[|k]|]; by injection Hs as <- <-.
Qed.

(** [save] when a dataset file exists and the reconciliation goes
    through, under every fault budget. *)
Lemma save_with_file w path data_vars db db' :
  (get_full_path (image_select_value w) w).1 = Ok path ->
  create_data_dict w = Ok data_vars ->
  base_dir_input_value w ∈ dirs w ->
  files w !! db_file w = Some (NetCDF db) ->
  reconciled w path data_vars db = Ok db' ->
  (save w).1
  = match faults w with
    | Some O | Some (S O) => Raise OSError
    | _ => Ok tt
    end
  /\ files (save w).2
     = match faults w with
       | Some O => files w
       | Some (S O) => delete (db_file w) (files w)
       | _ => <[db_file w := NetCDF db']> (files w)
       end.
Proof.
  intros Hpath Hdata Hdir Hfile Hrec.
  destruct (save_run w) as (path' & Hpath' & Hrun).
  rewrite Hpath in Hpath'. injection Hpath' as <-.
  rewrite Hdata, Hfile, Hrec, bool_decide_eq_true_2 in Hrun by done.
  destruct (faults w) as [[|[|k]]|]; by injection Hrun as -> ->.
Qed.

(** [save] when there is no dataset file yet. *)
Lemma save_first_time w path data_vars coords :
  (get_full_path (image_select_value w) w).1 = Ok path ->
  create_data_dict w = Ok data_vars ->
  base_dir_input_value w ∈ dirs w ->
  files w !! db_file w = None ->
  create_coords_dict path w = Ok coords ->
  faults w <> Some O ->
  (save w).1 = Ok tt
  /\ files (save w).2
     = <[db_file w := NetCDF (DsScalarPath path (list_to_map data_vars))]>
         (files w).
Proof.
  intros Hpath Hdata Hdir Hfile Hco Hb.
  destruct (save_run w) as (path' & Hpath' & Hrun).
  rewrite Hpath in Hpath'. injection Hpath' as <-.
  rewrite Hdata, Hfile, Hco, bool_decide_eq_true_2 in Hrun by done.
  destruct (faults w) as [[|k]|]; try done; by injection Hrun as -> ->.
Qed.

(* --------------------------------------------------------------------- *)
(** ** Records along the path dimension *)

Lemma find_record_elem recs path :
  path ∈ recs.*1 <-> is_Some (find_record recs path).
Proof.
  unfold find_record. induction recs as [|[p r] recs IH]; simpl.
  - split; [by intros ?%elem_of_nil | by intros [? ?]].
  - case_bool_decide as Hp; simpl in *.
    + split; [by eexists | intros _; subst; apply list_elem_of_here].
    + rewrite elem_of_cons. split.
      * intros [->|Hin]; [done | by apply IH].
      * intros Hs. right. by apply IH.
Qed.

Lemma loc_get_found recs key path rec :
  find_record recs path = Some rec -> loc_get recs key path = dict_get rec key.
Proof.
  unfold find_record, loc_get.
  destruct (List.find _ recs) as [pr|]; simpl; [|done]. by intros [= ->].
Qed.

Lemma store_at_paths recs key path v : (store_at recs key path v).*1 = recs.*1.
Proof.
  unfold store_at. induction recs as [|[p r] recs IH]; csimpl; [done|].
  rewrite IH. by case_bool_decide.
Qed.

Lemma find_record_cons q r recs p :
  find_record ((q, r) :: recs) p
  = if bool_decide (q = p) then Some r else find_record recs p.
Proof. unfold find_record. simpl. by case_bool_decide. Qed.

Lemma store_at_cons q r recs key path v :
  store_at ((q, r) :: recs) key path v
  = (if bool_decide (q = path) then (q, <[key := v]> r) else (q, r))
      :: store_at recs key path v.
Proof. done. Qed.

Lemma find_record_store_at recs key path v p :
  find_record (store_at recs key path v) p
  = if bool_decide (p = path) then <[key := v]> <$> find_record recs p
    else find_record recs p.
Proof.
  induction recs as [|[q r] recs IH].
  - by case_bool_decide.
  - rewrite store_at_cons.
    destruct (bool_decide_reflect (q = path)) as [->|Hq];
      rewrite !find_record_cons, IH.
    + destruct (bool_decide_reflect (path = p)) as [->|Hp].
      * by rewrite bool_decide_eq_true_2.
      * done.
    + destruct (bool_decide_reflect (q = p)) as [->|Hp]; [|done].
      by rewrite (bool_decide_eq_false_2 (p = path)).
Qed.

(** One turn of the loop that goes through: the key was in the record;
    the field is overwritten when the stored value differs and left
    alone otherwise; labels and other records stay. *)
Lemma update_field_inv path key v db rec db1 :
  ds_record db path = Some rec ->
  update_field path (key, v) db = Ok db1 ->
  exists stored,
    rec !! key = Some stored
    /\ ds_paths db1 = ds_paths db
    /\ ds_record db1 path
       = Some (if py_ne stored v then <[key := v]> rec else rec)
    /\ (forall p, p <> path -> ds_record db1 p = ds_record db p).
Proof.
  intros Hrec. destruct db as [vars|p vars|recs]; simpl in *.
  - done.
  - unfold ds_record, find_record in Hrec. simpl in Hrec.
    case_bool_decide as Hp; simpl in Hrec; [|done]. injection Hrec as ->. subst p.
    unfold dict_get. destruct (rec !! key) as [stored|] eqn:Hkey; [|done].
    cbn [rbind]. intros Hrun. exists stored. split; [done|].
    destruct (py_ne stored v); injection Hrun as <-; (split; [done|]);
      unfold ds_record, find_record; simpl.
    + rewrite bool_decide_eq_true_2 by done. split; [done|].
      intros q Hq. by rewrite !bool_decide_eq_false_2.
    + rewrite bool_decide_eq_true_2 by done. done.
  - unfold ds_record in *. simpl in *.
    rewrite (loc_get_found _ _ _ _ Hrec). unfold dict_get.
    destruct (rec !! key) as [stored|] eqn:Hkey; [|done].
    cbn [rbind]. intros Hrun. exists stored. split; [done|].
    destruct (py_ne stored v).
    + destruct v as [x|dims a]; [|done]. cbn [loc_set rbind] in Hrun.
      injection Hrun as <-. simpl. rewrite store_at_paths. split; [done|]. split.
      * rewrite find_record_store_at, bool_decide_eq_true_2 by done.
        by rewrite Hrec.
      * intros q Hq. by rewrite find_record_store_at, bool_decide_eq_false_2.
    + by injection Hrun as <-.
Qed.

(** One turn of the loop on a dataset whose only record is that of the
    path: [db[key] = value] takes any value. *)
Lemma update_field_scalar_path path key v rec stored :
  rec !! key = Some stored ->
  update_field path (key, v) (DsScalarPath path rec)
  = Ok (DsScalarPath path (if py_ne stored v then <[key := v]> rec else rec)).
Proof.
  intros Hkey. simpl. unfold dict_get. rewrite Hkey. simpl.
  by destruct (py_ne stored v).
Qed.

(** One turn of the loop along a path dimension with a
    [(dims, array)] pair: the comparison finds a difference and the
    assignment is refused. *)
Lemma update_field_path_dim_raises path key dims a recs rec :
  find_record recs path = Some rec ->
  is_Some (rec !! key) ->
  update_field path (key, Array dims a) (DsPathDim recs) = Raise TypeError.
Proof.
  intros Hrec [stored Hkey]. simpl.
  rewrite (loc_get_found _ _ _ _ Hrec). unfold dict_get. rewrite Hkey.
  cbn [rbind]. by destruct stored.
Qed.

(** The whole loop over the data dict, when it goes through. *)
Lemma update_loop_inv path (data_vars : list (string * value)) :
  NoDup data_vars.*1 ->
  forall db rec db',
    ds_record db path = Some rec ->
    for_each (update_field path) data_vars db = Ok db' ->
    (forall k, k ∈ data_vars.*1 -> is_Some (rec !! k))
    /\ ds_paths db' = ds_paths db
    /\ (forall p, p <> path -> ds_record db' p = ds_record db p)
    /\ exists rec',
         ds_record db' path = Some rec'
         /\ (forall k,
               rec' !! k
               = match (list_to_map data_vars : gmap string value) !! k with
                 | Some v => (fun s => if py_ne s v then v else s) <$> rec !! k
                 | None => rec !! k
                 end).
Proof.
  induction data_vars as [|[k0 v0] rest IH]; intros Hnd db rec db' Hrec Hrun.
  - simpl in Hrun. injection Hrun as <-.
    split; [by intros k ?%elem_of_nil|]. split; [done|]. split; [done|].
    by exists rec.
  - simpl in Hnd. apply NoDup_cons in Hnd as [Hk0 Hnd].
    cbn [for_each] in Hrun.
    destruct (update_field path (k0, v0) db) as [db1|e] eqn:Hstep; [|done].
    cbn [rbind] in Hrun.
    destruct (update_field_inv path k0 v0 db rec db1 Hrec Hstep)
      as (s0 & Hs0 & Hp1 & Hr1 & Ho1).
    set (rec1 := if py_ne s0 v0 then <[k0 := v0]> rec else rec) in *.
    destruct (IH Hnd db1 rec1 db' Hr1 Hrun)
      as (Hkeys1 & Hp' & Ho' & rec' & Hr' & Hlk).
    assert (Hother : forall k, k0 <> k -> rec1 !! k = rec !! k).
    { intros k Hne. unfold rec1.
      destruct (py_ne s0 v0); [by rewrite lookup_insert_ne | done]. }
    split; [|split; [|split]].
    + intros k Hk. simpl in Hk. apply elem_of_cons in Hk as [->|Hk]; [by eexists|].
      rewrite <- Hother; [by apply Hkeys1 | by intros ->].
    + by rewrite Hp'.
    + intros p Hp. by rewrite Ho', Ho1.
    + exists rec'. split; [done|].
      intros k. rewrite Hlk, list_to_map_cons.
      destruct (decide (k0 = k)) as [<-|Hne].
      * rewrite lookup_insert_eq.
        rewrite (not_elem_of_list_to_map_1 _ _ Hk0).
        unfold rec1. rewrite Hs0. simpl.
        destruct (py_ne s0 v0); [by rewrite lookup_insert_eq | done].
      * rewrite lookup_insert_ne by done. by rewrite (Hother k Hne).
Qed.

(** The whole loop on a dataset whose only record is that of the path
    goes through when the record has the keys of the data dict. *)
Lemma update_loop_scalar_path path (data_vars : list (string * value)) :
  NoDup data_vars.*1 ->
  forall rec,
    (forall k, k ∈ data_vars.*1 -> is_Some (rec !! k)) ->
    exists rec',
      for_each (update_field path) data_vars (DsScalarPath path rec)
      = Ok (DsScalarPath path rec').
Proof.
  induction data_vars as [|[k0 v0] rest IH]; intros Hnd rec Hkeys.
  - by exists rec.
  - simpl in Hnd. apply NoDup_cons in Hnd as [Hk0 Hnd].
    destruct (Hkeys k0) as [s0 Hs0]; [simpl; apply list_elem_of_here|].
    cbn [for_each]. rewrite (update_field_scalar_path path k0 v0 rec s0 Hs0).
    cbn [rbind]. apply (IH Hnd).
    intros k Hk. destruct (Hkeys k) as [s Hs]; [simpl; by apply list_elem_of_further|].
    destruct (py_ne s0 v0); [|by eexists].
    destruct (decide (k0 = k)) as [->|Hne].
    + rewrite lookup_insert_eq. by eexists.
    + rewrite lookup_insert_ne by done. by eexists.
Qed.

(** The keys and the state flags of the data dict. *)
Lemma create_data_dict_keys w data_vars :
  create_data_dict w = Ok data_vars ->
  data_vars.*1
  = ["2d_projection"; "line_rate"; "frame_rate"; "roi_data"; "vector_data";
     "corr_calc_state"; "fitting_state"]
  /\ (list_to_map data_vars : gmap string value) !! "corr_calc_state"
     = Some (Scalar (Num 0))
  /\ (list_to_map data_vars : gmap string value) !! "fitting_state"
     = Some (Scalar (Num 0)).
Proof.
  unfold create_data_dict.
  destruct (calculate_2d_projection w); simpl; [|done].
  destruct (float_of (line_rate_input_value w)); simpl; [|done].
  destruct (float_of (frame_rate_input_value w)); simpl; [|done].
  destruct (get_roi_data_by_index w); simpl; [|done].
  destruct (get_vector_data_by_index w); simpl; [|done].
  intros [= <-]. done.
Qed.

Lemma data_dict_keys_NoDup w data_vars :
  create_data_dict w = Ok data_vars -> NoDup data_vars.*1.
Proof.
  intros H. destruct (create_data_dict_keys w data_vars H) as [-> _].
  apply NoDup_ListNoDup. repeat (constructor; [simpl; intuition discriminate|]).
  constructor.
Qed.

Lemma py_ne_zero stored :
  is_zero (Some (if py_ne stored (Scalar (Num 0)) then Scalar (Num 0) else stored)).
Proof.
  destruct stored as [[|q]|dims p]; simpl; try by (exists 0%Q).
  destruct (Qeq_bool q 0) eqn:Hq; simpl; [by exists q | by exists 0%Q].
Qed.

(** The data dict starts with the projection, a [(dims, array)]
    pair. *)
Lemma create_data_dict_head w data_vars :
  create_data_dict w = Ok data_vars ->
  exists projection rest,
    data_vars = ("2d_projection", Array ["x"; "y"] (Image projection)) :: rest.
Proof.
  unfold create_data_dict.
  destruct (calculate_2d_projection w) as [projection|]; simpl; [|done].
  destruct (float_of (line_rate_input_value w)); simpl; [|done].
  destruct (float_of (frame_rate_input_value w)); simpl; [|done].
  destruct (get_roi_data_by_index w); simpl; [|done].
  destruct (get_vector_data_by_index w); simpl; [|done].
  intros [= <-]. by eexists _, _.
Qed.

Lemma ds_paths_records db paths :
  ds_paths db = Ok paths -> paths = (ds_records db).*1.
Proof. destruct db; simpl; [done| |]; by intros [= <-]. Qed.

Lemma find_record_app_new recs path r p :
  path ∉ recs.*1 ->
  find_record (recs ++ [(path, r)]) p
  = if bool_decide (p = path) then Some r else find_record recs p.
Proof.
  induction recs as [|[q r'] recs IH]; csimpl; intros Hnew.
  - rewrite find_record_cons.
    destruct (bool_decide_reflect (p = path)) as [->|Hp].
    + by rewrite bool_decide_eq_true_2.
    + by rewrite bool_decide_eq_false_2.
  - apply not_elem_of_cons in Hnew as [Hq Hnew].
    rewrite !find_record_cons, (IH Hnew).
    destruct (bool_decide_reflect (q = p)) as [->|Hqp]; [|done].
    by rewrite bool_decide_eq_false_2.
Qed.

Lemma ds_record_scalar_path path rec :
  ds_record (DsScalarPath path rec) path = Some rec.
Proof. unfold ds_record, find_record. simpl. by rewrite bool_decide_eq_true_2. Qed.

(** Reconciling with a dataset whose only record is that of the path. *)
Lemma reconciled_scalar_path w path data_vars rec :
  NoDup data_vars.*1 ->
  (forall k, k ∈ data_vars.*1 -> is_Some (rec !! k)) ->
  exists rec',
    reconciled w path data_vars (DsScalarPath path rec)
    = Ok (DsScalarPath path rec')
    /\ (forall k,
          rec' !! k
          = match (list_to_map data_vars : gmap string value) !! k with
            | Some v => (fun s => if py_ne s v then v else s) <$> rec !! k
            | None => rec !! k
            end).
Proof.
  intros Hnd Hkeys.
  destruct (update_loop_scalar_path path data_vars Hnd rec Hkeys) as [rec' Hrun].
  exists rec'. split.
  - unfold reconciled. simpl. rewrite bool_decide_eq_true_2; [done|].
    apply list_elem_of_here.
  - destruct (update_loop_inv path data_vars Hnd _ rec _
                (ds_record_scalar_path path rec) Hrun)
      as (_ & _ & _ & rec'' & Hr & Hlk).
    rewrite ds_record_scalar_path in Hr. by injection Hr as <-.
Qed.

(** Reconciling with a path dimension that has the path: the first
    field of the data dict is refused. *)
Lemma reconciled_path_dim_raises w path data_vars recs rec dims a rest :
  data_vars = ("2d_projection", Array dims a) :: rest ->
  find_record recs path = Some rec ->
  is_Some (rec !! "2d_projection") ->
  reconciled w path data_vars (DsPathDim recs) = Raise TypeError.
Proof.
  intros -> Hrec Hkey. unfold reconciled. cbn [ds_paths rbind].
  rewrite bool_decide_eq_true_2.
  2:{ apply find_record_elem. by rewrite Hrec. }
  cbn [for_each].
  by rewrite (update_field_path_dim_raises path _ dims a recs rec Hrec Hkey).
Qed.

Lemma reconciled_new w path data_vars db paths coords :
  ds_paths db = Ok paths -> path ∉ paths ->
  create_coords_dict path w = Ok coords ->
  aligned db (xr_Dataset data_vars coords) = true ->
  reconciled w path data_vars db
  = Ok (DsPathDim (ds_records db ++ [(path, list_to_map data_vars)])).
Proof.
  intros Hp Hnew Hco Hal. unfold reconciled. rewrite Hp. simpl.
  rewrite bool_decide_eq_false_2 by done. rewrite Hco. simpl.
  unfold xr_concat. rewrite Hal.
  unfold xr_Dataset. rewrite (coords_path _ _ _ Hco).
  destruct db; simpl in *; done.
Qed.

(** A reconciliation that goes through either found the path, with all
    data fields in its record, and updated that record alone, or found
    it missing, built the coordinates and appended a record. *)
Lemma reconciled_inv w path data_vars db db' :
  NoDup data_vars.*1 ->
  reconciled w path data_vars db = Ok db' ->
  (exists rec rec',
     ds_record db path = Some rec
     /\ (forall k, k ∈ data_vars.*1 -> is_Some (rec !! k))
     /\ ds_paths db' = ds_paths db
     /\ ds_record db' path = Some rec'
     /\ (forall p, p <> path -> ds_record db' p = ds_record db p)
     /\ (forall k,
           rec' !! k
           = match (list_to_map data_vars : gmap string value) !! k with
             | Some v => (fun s => if py_ne s v then v else s) <$> rec !! k
             | None => rec !! k
             end))
  \/ (exists paths coords,
        ds_paths db = Ok paths /\ (path ∉ paths)
        /\ create_coords_dict path w = Ok coords
        /\ aligned db (xr_Dataset data_vars coords) = true
        /\ db' = DsPathDim (ds_records db ++ [(path, list_to_map data_vars)])).
Proof.
  intros Hnd Hrc. pose proof Hrc as Hrc'. revert Hrc. unfold reconciled.
  destruct (ds_paths db) as [paths|e] eqn:Hp; simpl; [|done].
  case_bool_decide as Hin.
  - intros Hrun. left.
    rewrite (ds_paths_records db paths Hp) in Hin.
    apply find_record_elem in Hin as [rec Hrec].
    destruct (update_loop_inv path data_vars Hnd db rec db' Hrec Hrun)
      as (Hkeys & Hp' & Ho & rec' & Hr' & Hlk).
    exists rec, rec'. by rewrite Hp' .
  - destruct (create_coords_dict path w) as [coords|e] eqn:Hco; simpl; [|done].
    intros Hcat. right. exists paths, coords.
    assert (Hal : aligned db (xr_Dataset data_vars coords) = true).
    { unfold xr_concat in Hcat. destruct db; simpl in *; try done;
        by destruct (aligned _ _). }
    repeat (split; [done|]).
    rewrite (reconciled_new w path data_vars db paths coords Hp Hin Hco Hal)
      in Hrc'.
    by injection Hrc' as <-.
Qed.

(** C1. For a stack as the current image: where the dataset file has
    [path] as a dimension (two or more records, as an append leaves it)
    and knows the current image's path, [save] does not update a single
    field. The first field of the data dict is the projection, a
    [(dims, array)] pair, which differs from what is stored and which
    the assignment through [.loc] refuses, so [save] raises a
    [TypeError] and the file stays as it was, whatever the environment
    allows. The sibling branch for a dataset with a single record does
    what the claim says: each data field of the record holds the
    in-memory value if the stored value differed from it and still
    holds the stored value if it did not, and nothing else is
    touched. *)
Theorem C1_update_along_a_path_dimension_raises w path data_vars frames :
  (get_full_path (image_select_value w) w).1 = Ok path ->
  get_current_image w = Ok (Arr3 frames) ->
  create_data_dict w = Ok data_vars ->
  base_dir_input_value w ∈ dirs w ->
  (forall recs rec,
     files w !! db_file w = Some (NetCDF (DsPathDim recs)) ->
     ds_record (DsPathDim recs) path = Some rec ->
     is_Some (rec !! "2d_projection") ->
     (save w).1 = Raise TypeError /\ files (save w).2 = files w)
  /\ (forall rec,
        files w !! db_file w = Some (NetCDF (DsScalarPath path rec)) ->
        (forall k, k ∈ data_vars.*1 -> is_Some (rec !! k)) ->
        faults w = None ->
        exists rec',
          (save w).1 = Ok tt
          /\ files (save w).2
             = <[db_file w := NetCDF (DsScalarPath path rec')]> (files w)
          /\ (forall k v,
                (list_to_map data_vars : gmap string value) !! k = Some v ->
                exists stored,
                  rec !! k = Some stored
                  /\ rec' !! k = Some (if py_ne stored v then v else stored))
          /\ (forall k,
                (list_to_map data_vars : gmap string value) !! k = None ->
                rec' !! k = rec !! k)).
Proof.
  intros Hpath _ Hdata Hdir. split.
  - intros recs rec Hfile Hrec Hkey.
    destruct (create_data_dict_head w data_vars Hdata) as (a & rest & Hhead).
    pose proof (reconciled_path_dim_raises w path data_vars recs rec _ _ rest
                  Hhead Hrec Hkey) as Hrc.
    destruct (save_run w) as (path' & Hpath' & Hrun).
    rewrite Hpath in Hpath'. injection Hpath' as <-.
    rewrite Hdata, Hfile, Hrc, bool_decide_eq_true_2 in Hrun by done.
    by injection Hrun as -> ->.
  - intros rec Hfile Hkeys Hb.
    destruct (reconciled_scalar_path w path data_vars rec
                (data_dict_keys_NoDup w data_vars Hdata) Hkeys)
      as (rec' & Hrc & Hlk).
    destruct (save_with_file w path data_vars _ _ Hpath Hdata Hdir Hfile Hrc)
      as [Hres Hfs].
    rewrite Hb in Hres, Hfs.
    exists rec'. split; [done|]. split; [done|]. split.
    + intros k v Hv.
      destruct (Hkeys k) as [s Hs].
      { apply list_elem_of_fmap. exists (k, v). split; [done|].
        by apply elem_of_list_to_map_2. }
      exists s. split; [done|]. by rewrite Hlk, Hv, Hs.
    + intros k Hk. by rewrite Hlk, Hk.
Qed.

(** C2. With a dataset file on disk and the new dataset worked out,
    [save] first deletes the file and only then writes the new one. If
    the environment fails the write, [save] raises and no dataset file
    is left: the old records are gone although nothing replaced them.
    (If it already fails the deletion the old file is untouched; if it
    fails nothing, the file holds the new dataset.) *)
Theorem C2_save_deletes_then_writes w path data_vars db db' :
  (get_full_path (image_select_value w) w).1 = Ok path ->
  create_data_dict w = Ok data_vars ->
  base_dir_input_value w ∈ dirs w ->
  files w !! db_file w = Some (NetCDF db) ->
  reconciled w path data_vars db = Ok db' ->
  (faults w = Some 1%nat ->
     (save w).1 = Raise OSError
     /\ files (save w).2 = delete (db_file w) (files w)
     /\ files (save w).2 !! db_file w = None)
  /\ (faults w = Some 0%nat ->
        (save w).1 = Raise OSError /\ files (save w).2 = files w)
  /\ (faults w = None ->
        (save w).1 = Ok tt
        /\ files (save w).2 !! db_file w = Some (NetCDF db')).
Proof.
  intros Hpath Hdata Hdir Hfile Hrc.
  destruct (save_with_file w path data_vars db db' Hpath Hdata Hdir Hfile Hrc)
    as [Hres Hfs].
  split; [|split]; intros Hb; rewrite Hb in Hres, Hfs.
  - split; [done|]. split; [done|]. rewrite Hfs. apply lookup_delete_eq.
  - done.
  - split; [done|]. rewrite Hfs. apply lookup_insert_eq.
Qed.

(** A reconciliation that went through leaves zero flags in the record
    of the path. *)
Lemma zero_flags_reconciled w path data_vars db db' :
  create_data_dict w = Ok data_vars ->
  reconciled w path data_vars db = Ok db' ->
  exists rec',
    ds_record db' path = Some rec'
    /\ is_zero (rec' !! "corr_calc_state")
    /\ is_zero (rec' !! "fitting_state").
Proof.
  intros Hdata Hrc.
  destruct (create_data_dict_keys w data_vars Hdata) as (Hkeys & Hc & Hf).
  assert (Hz : is_zero (Some (Scalar (Num 0)))) by by exists 0%Q.
  destruct (reconciled_inv w path data_vars db db'
              (data_dict_keys_NoDup w data_vars Hdata) Hrc)
    as [(rec & rec' & Hrec & Hpresent & _ & Hr' & _ & Hlk)
       |(paths & coords & Hp & Hnew & Hco & _ & ->)].
  - exists rec'. split; [done|].
    destruct (Hpresent "corr_calc_state") as [sc Hsc]; [rewrite Hkeys; set_solver|].
    destruct (Hpresent "fitting_state") as [sf Hsf]; [rewrite Hkeys; set_solver|].
    rewrite !Hlk, Hc, Hf, Hsc, Hsf. simpl. split; apply py_ne_zero.
  - exists (list_to_map data_vars). split.
    { unfold ds_record. simpl.
      rewrite (ds_paths_records db paths Hp) in Hnew.
      rewrite (find_record_app_new _ _ _ _ Hnew).
      by rewrite bool_decide_eq_true_2. }
    by rewrite Hc, Hf.
Qed.

(** C7. The data dict has exactly two state flags, [corr_calc_state]
    and [fitting_state], both set to 0. After every [save] that goes
    through, whether it created the file, appended a record for a new
    path or updated the record of an existing path, the record the
    dataset file holds for the current path has both flags equal to
    zero. *)
Theorem C7_state_flags_zero_on_every_save w :
  (forall data_vars,
     create_data_dict w = Ok data_vars ->
     List.filter is_state_flag data_vars.*1
     = ["corr_calc_state"; "fitting_state"]
     /\ (list_to_map data_vars : gmap string value) !! "corr_calc_state"
        = Some (Scalar (Num 0))
     /\ (list_to_map data_vars : gmap string value) !! "fitting_state"
        = Some (Scalar (Num 0)))
  /\ ((save w).1 = Ok tt ->
      exists path,
        (get_full_path (image_select_value w) w).1 = Ok path
        /\ saved_with_zero_flags w path).
Proof.
  split.
  - intros data_vars Hdata.
    destruct (create_data_dict_keys w data_vars Hdata) as (Hkeys & Hc & Hf).
    by rewrite Hkeys.
  - intros Hok. destruct (save_run w) as (path & Hpath & Hrun).
    exists path. split; [done|]. split; [done|]. rewrite Hok in Hrun.
    destruct (create_data_dict w) as [data_vars|e] eqn:Hdata; [|done].
    case_bool_decide as Hdir; [|done].
    destruct (files w !! db_file w) as [[db|]|] eqn:Hfile; [| done |].
    + destruct (reconciled w path data_vars db) as [db'|e] eqn:Hrc; [|done].
      destruct (zero_flags_reconciled w path data_vars db db' Hdata Hrc)
        as (rec' & Hr' & Hzc & Hzf).
      exists db', rec'. split; [|done].
      destruct (faults w) as [[|[|k]]|]; try done;
        injection Hrun as ->; by rewrite lookup_insert_eq.
    + destruct (create_coords_dict path w) as [coords|e] eqn:Hco; [|done].
      destruct (create_data_dict_keys w data_vars Hdata) as (Hkeys & Hc & Hf).
      exists (DsScalarPath path (list_to_map data_vars)), (list_to_map data_vars).
      split.
      { destruct (faults w) as [[|k]|]; try done;
          injection Hrun as ->; by rewrite lookup_insert_eq. }
      split; [apply ds_record_scalar_path|].
      rewrite Hc, Hf. split; by exists 0%Q.
Qed.
End SavingProofs.

(* ===================================================================== *)
(** * The theorems at the sample states *)
(* ===================================================================== *)

Lemma sample_rois_wf : roi_wf sample_rois 2.
Proof. repeat split. Defined.

Lemma sample_vectors_wf : vector_wf sample_vectors 1.
Proof. repeat split; repeat constructor. Defined.

Lemma crowded_rois_wf : roi_wf (roi_source crowded_world) 51.
Proof. repeat split. Defined.

Lemma crowded_vectors_wf : vector_wf (vector_source crowded_world) 51.
Proof. repeat split; repeat constructor. Defined.

(** C3 at the sample session: two ROIs and one vector. *)
Lemma C3_witness :
  (roi_wf (roi_source sample_world) 2
   /\ vector_wf (vector_source sample_world) 1
   /\ (2 <= 50)%nat /\ (1 <= 50)%nat)
  /\ exists rt vt,
       get_roi_data_by_index sample_world = Ok rt
       /\ get_vector_data_by_index sample_world = Ok vt
       /\ padded rt 2 (roi_row (roi_source sample_world))
       /\ padded vt 1 (vector_row (vector_source sample_world)).
Proof.
  split.
  - split; [exact sample_rois_wf|]. split; [exact sample_vectors_wf|]. lia.
  - apply (C3_tables_fixed_capacity_nan_padded sample_world 2 1
             sample_rois_wf sample_vectors_wf); lia.
Defined.

(** C8 at the crowded session (51 ROIs, 51 vectors) and at the sample
    session. *)
Lemma C8_witness :
  (roi_wf (roi_source crowded_world) 51
   /\ vector_wf (vector_source crowded_world) 51 /\ (50 < 51)%nat)
  /\ get_roi_data_by_index crowded_world = Raise (IndexError (AxisBound 0 50 50))
  /\ get_vector_data_by_index crowded_world
     = Raise (IndexError (AxisBound 0 50 50))
  /\ (exists t, get_roi_data_by_index sample_world = Ok t)
  /\ (exists t, get_vector_data_by_index sample_world = Ok t).
Proof.
  split.
  - split; [exact crowded_rois_wf|]. split; [exact crowded_vectors_wf|]. lia.
  - destruct (C8_capacity_unchecked crowded_world 51 51
                crowded_rois_wf crowded_vectors_wf) as (Hr & _ & Hv & _).
    destruct (C8_capacity_unchecked sample_world 2 1
                sample_rois_wf sample_vectors_wf) as (_ & Hr' & _ & Hv').
    split; [apply Hr; lia|]. split; [apply Hv; lia|].
    split; [apply Hr'; lia | apply Hv'; lia].
Defined.

Lemma sample_stack_wf : stack_wf 3 4 sample_stack.
Proof. repeat constructor. Defined.

(** C6 at the two-frame sample stack. *)
Lemma C6_witness :
  (get_current_image sample_world = Ok (Arr3 sample_stack)
   /\ sample_stack <> [] /\ stack_wf 3 4 sample_stack)
  /\ exists p,
       calculate_2d_projection sample_world = Ok (Some p)
       /\ plane_wf 3 4 p
       /\ forall i j, (i < 3)%nat -> (j < 4)%nat ->
            exists v, pixel p i j = Some v
              /\ (forall f, f ∈ sample_stack ->
                    exists u, pixel f i j = Some u /\ u <= v)
              /\ (exists f, f ∈ sample_stack /\ pixel f i j = Some v).
Proof.
  split.
  - split; [reflexivity|]. split; [discriminate | exact sample_stack_wf].
  - apply (C6_projection_is_max_over_time sample_world sample_stack 3 4).
    + reflexivity.
    + discriminate.
    + exact sample_stack_wf.
Defined.

(** C4 at the sample session: an unknown relative path, the selected
    one, and one that two discovered paths end with. *)
Lemma C4_witness :
  get_full_path "/zzz.tif" sample_world
  = (Ok None,
     set_console ["Failed to find appropriate image path"] sample_world)
  /\ get_full_path "/a.tif" sample_world = (Ok (Some "/data/a.tif"), sample_world)
  /\ get_full_path ".tif" sample_world = (Ok (Some "/data/a.tif"), sample_world).
Proof.
  destruct (C4_get_full_path_sentinel "/zzz.tif" sample_world)
    as (ps & Hps & Hnone & _).
  destruct (C4_get_full_path_sentinel "/a.tif" sample_world)
    as (ps1 & Hps1 & _ & Hfirst1).
  destruct (C4_get_full_path_sentinel ".tif" sample_world)
    as (ps2 & Hps2 & _ & Hfirst2).
  vm_compute in Hps, Hps1, Hps2.
  injection Hps as <-. injection Hps1 as <-. injection Hps2 as <-.
  split; [|split].
  - apply Hnone. repeat constructor.
  - apply (Hfirst1 [] "/data/a.tif" ["/data/sub/b.tif"]); [reflexivity | constructor | reflexivity].
  - apply (Hfirst2 [] "/data/a.tif" ["/data/sub/b.tif"]); [reflexivity | constructor | reflexivity].
Defined.

Lemma sample_dir : base_dir_input_value sample_world ∈ dirs sample_world.
Proof. vm_compute. reflexivity. Defined.

(** C5 at the sample session, without and with a dataset file. *)
Lemma C5_witness :
  (base_dir_input_value sample_world ∈ dirs sample_world
   /\ files sample_world !! os_path_join (base_dir_input_value sample_world) "db.nc"
      = None)
  /\ read_db sample_world = (Ok xr_empty, sample_world)
  /\ read_db update_world = (Ok stored_dataset, update_world).
Proof.
  split; [split; [exact sample_dir | reflexivity]|].
  destruct (C5_read_db_missing_file sample_world) as [_ Hs].
  destruct (C5_read_db_missing_file update_world) as [_ Hu].
  split.
  - apply (proj1 (Hs sample_dir)). reflexivity.
  - apply (proj2 (Hu sample_dir)). reflexivity.
Defined.

(** C9, as amended, at the first sample ROI: width 3 around column 2
    and height 2 around row 1 of a 3 x 4 image, that is columns 1 and 2
    of rows 0 and 1. *)
Lemma C9_witness :
  exists region,
    get_roi_data 0 0 sample_world = Ok region
    /\ Forall (fun row => Z.of_nat (length row) = 3 - 1) region
    /\ Z.of_nat (length region) = 2
    /\ pixel region 1 1 = Some 7.
Proof.
  destruct (C9_region_one_short_for_odd_sizes sample_world 0 0 2 1 3 2
              sample_stack [[1; 2; 3; 4]; [5; 6; 7; 8]; [9; 10; 11; 12]] 3 4)
    as (region & Hrun & Hcols & Hrows & _ & _ & _ & _ & _ & _ & _ & Hall);
    [reflexivity | reflexivity | reflexivity | reflexivity | reflexivity
    | reflexivity | repeat constructor |].
  exists region. split; [exact Hrun|]. split; [|split].
  - apply Hcols; vm_compute; discriminate.
  - apply Hrows; vm_compute; discriminate.
  - destruct (Hall ltac:(vm_compute; discriminate) ltac:(vm_compute; discriminate)
                ltac:(vm_compute; discriminate) ltac:(vm_compute; discriminate)
                ltac:(vm_compute; discriminate) ltac:(vm_compute; discriminate)
                1%nat 1%nat eq_refl eq_refl) as [_ Hpix].
    exact Hpix.
Defined.

(** C9 as stated fails at the second sample ROI: its rounded width is 5
    and it is centred on column 3 of a 4-column image, so the region is
    cut at the right edge and is 3 pixels wide, not 4. *)
Lemma C9_counterexample :
  exists region,
    get_roi_data 1 0 sample_world = Ok region
    /\ (wv <- list_index (roi_width (roi_source sample_world)) 1 ;;
        py_round wv) = Ok 5
    /\ Z.odd 5 = true
    /\ region = [[2; 3; 4]; [6; 7; 8]]
    /\ ~ Forall (fun row => Z.of_nat (length row) = 5 - 1) region.
Proof.
  exists [[2; 3; 4]; [6; 7; 8]].
  split; [reflexivity|]. split; [reflexivity|]. split; [reflexivity|].
  split; [reflexivity|].
  intros H. apply Forall_cons in H as [H _]. vm_compute in H. discriminate H.
Qed.

(** C10, as amended, at the sample session, whose metadata has a zoom
    factor of zero and no line count. *)
Lemma C10_witness :
  (PARAM_GETTERS (B := sample_builtins) !! "zoom_factor"
   = Some (reads get_zoom_factor)
   /\ reads get_zoom_factor sample_world = (Ok (Some (Num 0)), sample_world)
   /\ PARAM_GETTERS (B := sample_builtins) !! "zoom" = None
   /\ forall v, py_str (Builtins := sample_builtins) v <> "INVALID")
  /\ get_string (B := sample_builtins) "zoom_factor" sample_world
     = (Ok "---", sample_world)
  /\ get_string (B := sample_builtins) "zoom" sample_world
     = (Ok "INVALID", sample_world)
  /\ (PARAM_GETTERS (B := sample_builtins) !! "n_rows" = None
      \/ exists (getter : M (option num)) key,
           PARAM_GETTERS (B := sample_builtins) !! "n_rows" = Some getter
           /\ getter sample_world = (Raise (KeyError key), sample_world)).
Proof.
  assert (Hstr : forall v, py_str (Builtins := sample_builtins) v <> "INVALID")
    by (intros v; discriminate).
  split.
  { split; [reflexivity|]. split; [reflexivity|].
    split; [reflexivity | exact Hstr]. }
  destruct (C10_get_string_placeholders (B := sample_builtins)
              "zoom_factor" sample_world) as (_ & Hzero & _).
  destruct (C10_get_string_placeholders (B := sample_builtins)
              "zoom" sample_world) as (_ & _ & Habsent & _).
  destruct (C10_get_string_placeholders (B := sample_builtins)
              "n_rows" sample_world) as (_ & _ & _ & _ & Honly).
  split; [|split].
  - exact (Hzero (reads get_zoom_factor) sample_world eq_refl eq_refl).
  - exact (Habsent eq_refl).
  - exact (Honly Hstr sample_world eq_refl).
Defined.

(** C10 as stated fails: [n_rows] is registered, yet it reads
    [INVALID] in the sample session, whose metadata lacks the key that
    its getter looks up. *)
Lemma C10_counterexample :
  ~ (forall (B : Builtins) param w w',
       get_string param w = (Ok "INVALID", w') ->
       PARAM_GETTERS !! param = None).
Proof.
  intros H.
  assert (E : get_string (B := sample_builtins) "n_rows" sample_world
              = (Ok "INVALID", sample_world)) by reflexivity.
  apply H in E.
  assert (E' : PARAM_GETTERS (B := sample_builtins) !! "n_rows"
               = Some (reads get_number_of_rows)) by reflexivity.
  rewrite E' in E. discriminate E.
Qed.

Lemma stored_record_keys k :
  k ∈ sample_data_vars.*1 -> is_Some (stored_record !! k).
Proof.
  intros Hk. vm_compute in Hk.
  repeat (apply elem_of_cons in Hk as [->|Hk];
          [vm_compute; eexists; reflexivity|]).
  by apply elem_of_nil in Hk.
Defined.

(** C1 at a dataset file with two records: saving the first image
    again raises and leaves the file alone. At the dataset file with
    one record the same save goes through, leaves [line_rate] as stored
    (10/4 equals the in-memory 5/2) and overwrites [frame_rate]. *)
Lemma C1_witness :
  (files second_save_world !! db_file second_save_world
   = Some (NetCDF two_records)
   /\ ds_record two_records (Some "/data/a.tif") = Some stored_record)
  /\ ((save (B := sample_builtins) second_save_world).1 = Raise TypeError
      /\ files (save (B := sample_builtins) second_save_world).2
         = files second_save_world)
  /\ exists rec',
       (save (B := sample_builtins) update_world).1 = Ok tt
       /\ files (save (B := sample_builtins) update_world).2
          = <[db_file update_world :=
                NetCDF (DsScalarPath (Some "/data/a.tif") rec')]>
              (files update_world)
       /\ rec' !! "line_rate" = Some (Scalar (Num (10 # 4)))
       /\ rec' !! "frame_rate" = Some (Scalar (Num (5 # 2))).
Proof.
  split; [by split|].
  destruct (C1_update_along_a_path_dimension_raises (B := sample_builtins)
              second_save_world (Some "/data/a.tif") sample_data_vars
              sample_stack)
    as [Hraises _];
    [reflexivity | reflexivity | reflexivity | vm_compute; reflexivity |].
  destruct (C1_update_along_a_path_dimension_raises (B := sample_builtins)
              update_world (Some "/data/a.tif") sample_data_vars sample_stack)
    as [_ Hupdate];
    [reflexivity | reflexivity | reflexivity | vm_compute; reflexivity |].
  split.
  - apply (Hraises _ stored_record eq_refl eq_refl). by eexists.
  - destruct (Hupdate stored_record eq_refl stored_record_keys eq_refl)
      as (rec' & Hres & Hfs & Hfield & _).
    exists rec'. split; [exact Hres|]. split; [exact Hfs|].
    destruct (Hfield "line_rate" (Scalar (Num (5 # 2))) eq_refl)
      as (s1 & Hs1 & Hl).
    destruct (Hfield "frame_rate" (Scalar (Num (5 # 2))) eq_refl)
      as (s2 & Hs2 & Hf).
    vm_compute in Hs1, Hs2.
    injection Hs1 as <-. injection Hs2 as <-.
    split; [exact Hl | exact Hf].
Defined.

(** C2 with an environment that fails the second mutation. *)
Lemma C2_witness :
  (faults failing_world = Some 1%nat
   /\ files failing_world !! db_file failing_world = Some (NetCDF stored_dataset))
  /\ (save (B := sample_builtins) failing_world).1 = Raise OSError
  /\ files (save (B := sample_builtins) failing_world).2 !! db_file failing_world
     = None.
Proof.
  split; [split; reflexivity|].
  destruct (reconciled_scalar_path failing_world (Some "/data/a.tif")
              sample_data_vars stored_record)
    as (rec' & Hrc & _);
    [apply (data_dict_keys_NoDup (B := sample_builtins) sample_world);
     reflexivity
    | exact stored_record_keys |].
  destruct (C2_save_deletes_then_writes (B := sample_builtins) failing_world
              (Some "/data/a.tif") sample_data_vars stored_dataset
              (DsScalarPath (Some "/data/a.tif") rec'))
    as (Hcrash & _);
    [reflexivity | reflexivity | vm_compute; reflexivity | reflexivity
    | exact Hrc |].
  destruct (Hcrash eq_refl) as (Hres & _ & Hgone). split; assumption.
Defined.

(** C7 for a first save, an appended path and an updated path (whose
    stored flags were 1 and not-a-number). *)
Lemma C7_witness :
  ((save (B := sample_builtins) sample_world).1 = Ok tt
   /\ (save (B := sample_builtins) append_world).1 = Ok tt
   /\ (save (B := sample_builtins) update_world).1 = Ok tt)
  /\ saved_with_zero_flags (B := sample_builtins) sample_world (Some "/data/a.tif")
  /\ saved_with_zero_flags (B := sample_builtins) append_world
       (Some "/data/sub/b.tif")
  /\ saved_with_zero_flags (B := sample_builtins) update_world
       (Some "/data/a.tif").
Proof.
  assert (H1 : (save (B := sample_builtins) sample_world).1 = Ok tt)
    by (vm_compute; reflexivity).
  assert (H2 : (save (B := sample_builtins) append_world).1 = Ok tt)
    by (vm_compute; reflexivity).
  assert (H3 : (save (B := sample_builtins) update_world).1 = Ok tt)
    by (vm_compute; reflexivity).
  split; [by repeat split|].
  destruct (C7_state_flags_zero_on_every_save (B := sample_builtins) sample_world)
    as [_ Hs].
  destruct (C7_state_flags_zero_on_every_save (B := sample_builtins) append_world)
    as [_ Ha].
  destruct (C7_state_flags_zero_on_every_save (B := sample_builtins) update_world)
    as [_ Hu].
  destruct (Hs H1) as (p1 & Hp1 & Z1).
  destruct (Ha H2) as (p2 & Hp2 & Z2).
  destruct (Hu H3) as (p3 & Hp3 & Z3).
  vm_compute in Hp1, Hp2, Hp3.
  injection Hp1 as <-. injection Hp2 as <-. injection Hp3 as <-.
  split; [exact Z1|]. split; [exact Z2 | exact Z3].
Defined.

(* ===================================================================== *)
(** * More on file discovery: what is listed and what an option resolves to *)
(* ===================================================================== *)

Section Discovery.
Local Open Scope nat_scope.

Lemma str_length_app a b :
  String.length (String.append a b) = String.length a + String.length b.
Proof. induction a as [|c a IH]; simpl; [done | by rewrite IH]. Qed.

Lemma substring_skip a b k m :
  String.substring (String.length a + k) m (String.append a b)
  = String.substring k m b.
Proof. induction a as [|c a IH]; simpl; [done | exact IH]. Qed.

Lemma substring_none k s : String.substring k 0 s = "".
Proof.
  revert k; induction s as [|c s IH]; intros [|k]; simpl; done.
Qed.

Lemma substring_length k m s :
  k + m <= String.length s -> String.length (String.substring k m s) = m.
Proof.
  revert k m; induction s as [|c s IH]; intros k m Hk; simpl in *.
  - destruct k, m; simpl; lia.
  - destruct k as [|k].
    + destruct m as [|m]; simpl; [done|]. f_equal. apply (IH 0). lia.
    + apply IH. lia.
Qed.

Lemma endswith_app a b suffix :
  endswith b suffix = true -> endswith (String.append a b) suffix = true.
Proof.
  unfold endswith. rewrite str_length_app.
  destruct (Nat.leb_spec (String.length suffix) (String.length b)) as [Hb|]; [|done].
  intros Hs.
  destruct (Nat.leb_spec (String.length suffix)
              (String.length a + String.length b)); [|lia].
  replace (String.length a + String.length b - String.length suffix)
    with (String.length a + (String.length b - String.length suffix)) by lia.
  by rewrite substring_skip.
Qed.

Lemma endswith_join root f suffix :
  endswith f suffix = true -> endswith (os_path_join root f) suffix = true.
Proof.
  intros Hf. unfold os_path_join.
  destruct (String.prefix "/" f); [done|].
  destruct (String.eqb root "" || endswith root "/").
  - by apply endswith_app.
  - by do 2 apply endswith_app.
Qed.

(** A string ends with each of its tails. *)
Lemma endswith_py_drop k s : endswith s (py_drop k s) = true.
Proof.
  unfold endswith, py_drop.
  destruct (Nat.le_gt_cases k (String.length s)) as [Hk|Hk].
  - rewrite substring_length by lia.
    destruct (Nat.leb_spec (String.length s - k) (String.length s)); [|lia].
    replace (String.length s - (String.length s - k)) with k by lia.
    apply String.eqb_refl.
  - replace (String.length s - k) with 0 by lia.
    rewrite substring_none. simpl. by rewrite substring_none.
Qed.

(** X1. [get_file_paths] lists exactly the files under the walked roots
    whose name ends with the extension, each joined to its root, and
    every listed path itself ends with the extension. *)
Theorem X1_get_file_paths_lists_matching_files ext w :
  exists image_paths,
    get_file_paths ext w = (Ok image_paths, w)
    /\ (forall p,
          p ∈ image_paths <->
          exists root fs f,
            (root, fs) ∈ walk w (base_dir_input_value w)
            /\ f ∈ fs /\ endswith f ext = true /\ p = os_path_join root f)
    /\ Forall (fun p => endswith p ext = true) image_paths.
Proof.
  eexists. split; [reflexivity|].
  assert (Hiff : forall p,
    p ∈ flat_map
          (fun rf : string * list string =>
             os_path_join rf.1 <$> List.filter (fun f => endswith f ext) rf.2)
          (walk w (base_dir_input_value w)) <->
    exists root fs f,
      (root, fs) ∈ walk w (base_dir_input_value w)
      /\ f ∈ fs /\ endswith f ext = true /\ p = os_path_join root f).
  { intros p. rewrite list_elem_of_In, in_flat_map. split.
    - intros ([root fs] & Hin & Hp). simpl in Hp.
      apply list_elem_of_In, list_elem_of_fmap in Hp as (f & -> & Hf).
      apply list_elem_of_In, filter_In in Hf as [Hf He].
      exists root, fs, f. by rewrite !list_elem_of_In.
    - intros (root & fs & f & Hin & Hf & He & ->).
      exists (root, fs). split; [by apply list_elem_of_In|]. simpl.
      apply list_elem_of_In, list_elem_of_fmap. exists f. split; [done|].
      apply list_elem_of_In, filter_In. by rewrite <- list_elem_of_In. }
  split; [exact Hiff|].
  apply Forall_forall. intros p Hp.
  apply Hiff in Hp as (root & fs & f & _ & _ & He & ->).
  by apply endswith_join.
Qed.
End Discovery.

(** What [get_full_path] does, by the discovered paths that end with
    the relative path. *)
Lemma get_full_path_run relative_path w image_paths :
  get_file_paths IMAGE_EXT w = (Ok image_paths, w) ->
  get_full_path relative_path w
  = match List.filter (fun f => endswith f relative_path) image_paths with
    | f :: _ => (Ok (Some f), w)
    | [] =>
        (Ok None,
         set_console (console w ++ ["Failed to find appropriate image path"]) w)
    end.
Proof.
  intros Hp. unfold get_full_path, bind, try_except, lift. rewrite Hp.
  destruct (List.filter _ image_paths) as [|f fs]; [done|].
  by rewrite list_index_0.
Qed.

(** X2. After [update_image_select] for the base directory, the options
    are never empty. With no image under the directory (or no such
    directory) the only option is ['---'] and the selection is left as
    it was. Otherwise the options are the discovered paths with the
    length of the directory name dropped, the first one is selected,
    every option resolves through [get_full_path], without a failure
    message, to a discovered path that ends with it, and the selected
    option resolves to the first discovered path. *)
Theorem X2_image_options_resolve w image_paths :
  get_file_paths IMAGE_EXT w = (Ok image_paths, w) ->
  let new := base_dir_input_value w in
  let options := (update_image_select new w).1 in
  let w' := (update_image_select new w).2 in
  (new ∉ dirs w \/ image_paths = [] -> options = Ok ["---"] /\ w' = w)
  /\ (new ∈ dirs w -> forall first rest,
        image_paths = first :: rest ->
        options = Ok (py_drop (String.length new) <$> image_paths)
        /\ w' = set_image_select_value (py_drop (String.length new) first) w
        /\ get_full_path (image_select_value w') w' = (Ok (Some first), w')
        /\ forall option,
             option ∈ py_drop (String.length new) <$> image_paths ->
             exists f,
               get_full_path option w' = (Ok (Some f), w')
               /\ f ∈ image_paths /\ endswith f option = true).
Proof.
  intros Hp new options w'. subst options w'. split.
  - intros [Hd|Hnil]; unfold update_image_select, bind, os_path_isdir.
    + by rewrite bool_decide_eq_false_2.
    + destruct (bool_decide (new ∈ dirs w)); [|done].
      by rewrite Hp, Hnil.
  - intros Hd first rest Himg.
    assert (Hrun : update_image_select new w
                   = (Ok (py_drop (String.length new) <$> image_paths),
                      set_image_select_value (py_drop (String.length new) first) w)).
    { unfold update_image_select, bind, os_path_isdir.
      rewrite bool_decide_eq_true_2 by done. rewrite Hp, Himg. done. }
    rewrite Hrun. simpl.
    set (w1 := set_image_select_value _ w).
    assert (Hp1 : get_file_paths IMAGE_EXT w1 = (Ok image_paths, w1)).
    { unfold get_file_paths, reads in *. injection Hp as Hp.
      unfold w1. simpl. by rewrite Hp. }
    split; [done|]. split; [done|]. split.
    + rewrite (get_full_path_run _ w1 image_paths Hp1), Himg. simpl.
      by rewrite endswith_py_drop.
    + intros option Hin.
      apply list_elem_of_fmap in Hin as (p & -> & Hin).
      rewrite (get_full_path_run _ w1 image_paths Hp1).
      destruct (List.filter _ image_paths) as [|f fs] eqn:Hf.
      * assert (Hp' : In p (List.filter
                        (fun f => endswith f (py_drop (String.length new) p))
                        image_paths)).
        { apply filter_In. split; [by apply list_elem_of_In|].
          apply endswith_py_drop. }
        rewrite Hf in Hp'. destruct Hp'.
      * exists f. split; [done|].
        assert (Hf' : In f (List.filter
                        (fun f => endswith f (py_drop (String.length new) p))
                        image_paths)) by (rewrite Hf; by left).
        apply filter_In in Hf' as [Hf1 Hf2]. split; [by apply list_elem_of_In|done].
Qed.

(** X3. An option stands for a discovered path [p] that ends with it,
    but [get_full_path] returns the first discovered path that ends
    with the option: that is [p] when no earlier path ends with it, and
    an earlier path otherwise. *)
Theorem X3_option_resolves_to_first_match w pre p post option :
  get_file_paths IMAGE_EXT w = (Ok (pre ++ p :: post), w) ->
  endswith p option = true ->
  (Forall (fun q => endswith q option = false) pre ->
   get_full_path option w = (Ok (Some p), w))
  /\ (Exists (fun q => endswith q option = true) pre ->
      exists f, get_full_path option w = (Ok (Some f), w) /\ f ∈ pre).
Proof.
  intros Hp Hopt. rewrite (get_full_path_run option w _ Hp). split.
  - intros Hpre. by rewrite (filter_first _ pre p post Hpre Hopt).
  - intros Hex. rewrite List.filter_app.
    destruct (List.filter (fun f => endswith f option) pre) as [|f fs] eqn:Hf.
    + apply Exists_exists in Hex as (q & Hq & Hqo).
      assert (Hin : In q (List.filter (fun f => endswith f option) pre))
        by (apply filter_In; split; [by apply list_elem_of_In | done]).
      rewrite Hf in Hin. destruct Hin.
    + exists f. split; [done|].
      assert (Hin : In f (List.filter (fun f => endswith f option) pre))
        by (rewrite Hf; by left).
      apply filter_In in Hin as [Hin _]. by apply list_elem_of_In.
Qed.

(* ===================================================================== *)
(** * The time slider and the frame shown *)
(* ===================================================================== *)

Lemma np_index_nat {A} axis (l : list A) (i : nat) x :
  l !! i = Some x -> np_index axis l (Z.of_nat i) = Ok x.
Proof.
  intros Hl. pose proof (lookup_lt_Some _ _ _ Hl) as Hlt.
  unfold np_index.
  destruct (Z.ltb_spec (Z.of_nat i) 0); [lia|].
  destruct (Z.leb_spec 0 (Z.of_nat i)); [|lia].
  destruct (Z.ltb_spec (Z.of_nat i) (Z.of_nat (length l))); [|lia].
  simpl. by rewrite Nat2Z.id, Hl.
Qed.

(** X4. For a stack of [T] frames [update_time_slider] enables the
    slider, puts it on 0 and lets it run to [T - 1], and every value
    the slider can then take shows a frame of the stack:
    [get_current_frame] returns frame [v] and does not raise. For a
    single plane the slider is disabled and [get_current_frame] returns
    the plane whatever the slider says. *)
Theorem X4_slider_values_are_frames w :
  (forall frames,
     get_current_image w = Ok (Arr3 frames) ->
     exists s,
       update_time_slider w = Ok s
       /\ slider_value s = 0 /\ slider_disabled s = false
       /\ slider_end s = Z.of_nat (length frames) - 1
       /\ forall v disabled,
            0 <= v <= slider_end s ->
            exists f,
              frames !! Z.to_nat v = Some f
              /\ get_current_frame
                   {| slider_end := slider_end s; slider_value := v;
                      slider_disabled := disabled |} w = Ok f)
  /\ (forall rows,
        get_current_image w = Ok (Arr2 rows) ->
        update_time_slider w
        = Ok {| slider_end := 1; slider_value := 0; slider_disabled := true |}
        /\ forall s, get_current_frame s w = Ok rows).
Proof.
  split.
  - intros frames Himg. unfold update_time_slider. rewrite Himg.
    cbn [rbind]. unfold shape. rewrite list_index_0. cbn [rbind].
    eexists. split; [reflexivity|]. simpl.
    repeat (split; [done|]). intros v disabled Hv.
    destruct (lookup_lt_is_Some_2 frames (Z.to_nat v)) as [f Hf]; [lia|].
    exists f. split; [done|]. unfold get_current_frame. rewrite Himg. simpl.
    rewrite <- (Z2Nat.id v) by lia. by apply np_index_nat.
  - intros rows Himg. unfold update_time_slider, get_current_frame.
    by rewrite Himg.
Qed.

(** X5. With an image loaded, [update_frame] never raises an
    [IndexError]: a frame index outside the stack prints the failure
    message and leaves the display as it was; a valid index shows that
    frame, and if the selected ROI cannot be looked up the frame is
    shown all the same, the region is left as it was and the message is
    printed. *)
Theorem X5_update_frame_catches_index_errors new selected s d w image :
  get_current_image w = Ok image ->
  (forall site, (update_frame new selected s d w).1.1 <> Raise (IndexError site))
  /\ (forall frames site,
        image = Arr3 frames ->
        np_index 0 frames new = Raise (IndexError site) ->
        update_frame new selected s d w
        = (Ok tt, d,
           set_console (console w ++ ["Failed to update image frame!"]) w))
  /\ (forall frames f,
        image = Arr3 frames ->
        np_index 0 frames new = Ok f ->
        image_source_image (update_frame new selected s d w).1.2 = [f]
        /\ (selected = [] ->
            update_frame new selected s d w
            = (Ok tt,
               {| image_source_image := [f];
                  roi_plot_image := roi_plot_image d |}, w))
        /\ (forall roi_index others site,
              selected = roi_index :: others ->
              get_roi_data roi_index (slider_value s) w
              = Raise (IndexError site) ->
              update_frame new selected s d w
              = (Ok tt,
                 {| image_source_image := [f];
                    roi_plot_image := roi_plot_image d |},
                 set_console (console w ++ ["Failed to update image frame!"]) w))).
Proof.
  intros Himg. unfold update_frame. rewrite Himg. split; [|split].
  - intros site. destruct image as [rows|frames]; [done|].
    destruct (np_index 0 frames new) as [f|e] eqn:Hf.
    + destruct selected as [|roi_index others]; [done|].
      destruct (get_roi_data roi_index (slider_value s) w) as [r|e]; [done|].
      by destruct e.
    + by destruct e.
  - intros frames site -> Hf. by rewrite Hf.
  - intros frames f -> Hf. rewrite Hf. split; [|split].
    + destruct selected as [|roi_index others]; [done|].
      destruct (get_roi_data roi_index (slider_value s) w) as [r|e]; [done|].
      by destruct e.
    + by intros ->.
    + intros roi_index others site -> Hr. by rewrite Hr.
Qed.

(* ===================================================================== *)
(** * What the extracted region shows *)
(* ===================================================================== *)

(** X6. For an ROI that does not cross the left or the top edge of the
    image, pixel [(i, j)] of the region returned by [get_roi_data] is
    pixel [(y_start + i, x_start + j)] of the requested frame, where
    [x_start = x_center - w//2] and [y_start = y_center - h//2]. *)
Theorem X6_region_is_a_window_of_the_frame
  w roi_index frame qx qy qw qh frames f :
  list_index (roi_width (roi_source w)) roi_index = Ok (Num qw) ->
  list_index (roi_height (roi_source w)) roi_index = Ok (Num qh) ->
  list_index (roi_x (roi_source w)) roi_index = Ok (Num qx) ->
  list_index (roi_y (roi_source w)) roi_index = Ok (Num qy) ->
  get_current_image w = Ok (Arr3 frames) ->
  np_index 0 frames frame = Ok f ->
  let x_start := round_half_even qx - round_half_even qw `div` 2 in
  let y_start := round_half_even qy - round_half_even qh `div` 2 in
  0 <= x_start -> 0 <= y_start ->
  exists region,
    get_roi_data roi_index frame w = Ok region
    /\ forall i j v,
         pixel region i j = Some v ->
         pixel f (Z.to_nat y_start + i) (Z.to_nat x_start + j) = Some v.
Proof.
  intros Hw Hh Hx Hy Himg Hf x_start y_start Hxs Hys.
  eexists. split.
  { unfold get_roi_data. rewrite Hw, Hh, Hx, Hy, Himg. simpl.
    rewrite Hf. simpl. reflexivity. }
  intros i j v. unfold pixel. rewrite list_lookup_fmap.
  destruct (py_slice _ _ f !! i) as [row|] eqn:Hrow; simpl; [|done].
  intros Hv.
  rewrite (py_slice_lookup y_start _ f i row Hys Hrow). simpl.
  by apply (py_slice_lookup x_start _ row j v Hxs Hv).
Qed.

(** A slice that starts before the list and spans no more than the list
    is long is empty: the negative start counts from the end. *)
Lemma py_slice_wrapped {A} a b (l : list A) :
  a < 0 -> 0 <= b -> b - a <= Z.of_nat (length l) -> py_slice a b l = [].
Proof.
  intros Ha Hb Hl. apply nil_length_inv. apply Nat2Z.inj.
  rewrite py_slice_length. unfold clamp_index.
  destruct (Z.ltb_spec a 0), (Z.ltb_spec b 0); cbv beta iota;
    change (Z.of_nat 0%nat) with 0; lia.
Qed.

(** X7. An ROI that sticks out over the left edge of the image and
    spans no more columns than the image has yields a region without a
    single pixel: the negative start of the slice counts from the right
    edge. Likewise an ROI that sticks out over the top edge and spans
    no more rows than the image has yields a region without rows. *)
Theorem X7_region_across_the_left_or_top_edge_is_empty
  w roi_index frame qx qy qw qh frames f (hh ww : nat) :
  list_index (roi_width (roi_source w)) roi_index = Ok (Num qw) ->
  list_index (roi_height (roi_source w)) roi_index = Ok (Num qh) ->
  list_index (roi_x (roi_source w)) roi_index = Ok (Num qx) ->
  list_index (roi_y (roi_source w)) roi_index = Ok (Num qy) ->
  get_current_image w = Ok (Arr3 frames) ->
  np_index 0 frames frame = Ok f ->
  plane_wf hh ww f ->
  let x_start := round_half_even qx - round_half_even qw `div` 2 in
  let x_end := round_half_even qx + round_half_even qw `div` 2 in
  let y_start := round_half_even qy - round_half_even qh `div` 2 in
  let y_end := round_half_even qy + round_half_even qh `div` 2 in
  exists region,
    get_roi_data roi_index frame w = Ok region
    /\ (x_start < 0 -> 0 <= x_end -> x_end - x_start <= Z.of_nat ww ->
        Forall (fun row => row = []) region)
    /\ (y_start < 0 -> 0 <= y_end -> y_end - y_start <= Z.of_nat hh ->
        region = []).
Proof.
  intros Hw Hh Hx Hy Himg Hf [Hrows Hcols] x_start x_end y_start y_end.
  eexists. split.
  { unfold get_roi_data. rewrite Hw, Hh, Hx, Hy, Himg. simpl.
    rewrite Hf. simpl. reflexivity. }
  fold x_start x_end y_start y_end. split.
  - intros Hxs Hxe Hspan. apply Forall_fmap.
    apply py_slice_Forall. eapply Forall_impl; [exact Hcols|].
    intros row Hrow. simpl in *. apply py_slice_wrapped; lia.
  - intros Hys Hye Hspan. rewrite py_slice_wrapped; [done | lia | lia | lia].
Qed.

(* ===================================================================== *)
(** * Tables there and back: what is saved and what is restored *)
(* ===================================================================== *)

Section RoundTrip.
Local Open Scope nat_scope.

Lemma roi_rows_lookup c i : roi_rows c !! i = roi_row c i.
Proof.
  unfold roi_rows, roi_row. rewrite !lookup_zip_with.
  destruct (roi_x c !! i), (roi_y c !! i), (roi_width c !! i),
    (roi_height c !! i); done.
Qed.

Lemma roi_rows_length c n : roi_wf c n -> length (roi_rows c) = n.
Proof.
  intros (Hx & Hy & Hw & Hh). unfold roi_rows.
  rewrite !length_zip_with. lia.
Qed.

Lemma vector_rows_lookup c m i :
  vector_wf c m -> i < m -> vector_rows c !! i = vector_row c i.
Proof.
  intros (Hx & Hy & Fx & Fy) Hi. unfold vector_rows, vector_row.
  rewrite lookup_zip_with.
  destruct (lookup_lt_is_Some_2 (vec_xs c) i) as [xs Ex]; [lia|].
  destruct (lookup_lt_is_Some_2 (vec_ys c) i) as [ys Ey]; [lia|].
  rewrite Ex, Ey. simpl.
  pose proof (proj1 (Forall_lookup _ _) Fx _ _ Ex) as Lx.
  pose proof (proj1 (Forall_lookup _ _) Fy _ _ Ey) as Ly.
  destruct xs as [|x0 [|x1 xr]]; simpl in Lx; try lia.
  destruct ys as [|y0 [|y1 yr]]; simpl in Ly; try lia.
  done.
Qed.

Lemma vector_rows_length c m : vector_wf c m -> length (vector_rows c) = m.
Proof.
  intros (Hx & Hy & _). unfold vector_rows. rewrite length_zip_with. lia.
Qed.

(** A finished table is the rows of the selection followed by sentinel
    rows. *)
Lemma padded_rows t n rows (R : table) :
  padded t n rows -> length R = n ->
  (forall i, i < n -> R !! i = rows i) ->
  t = R ++ replicate (50 - n) nan_row.
Proof.
  intros (Hlen & Hlo & Hhi) HR Hrows. apply list_eq. intros i.
  destruct (Nat.lt_ge_cases i n) as [Hi|Hi].
  - rewrite lookup_app_l by lia. rewrite (Hrows i Hi). by apply Hlo.
  - rewrite lookup_app_r by lia. rewrite HR.
    destruct (Nat.lt_ge_cases i 50) as [Hi'|Hi'].
    + rewrite Hhi by lia. symmetry. apply lookup_replicate_2. lia.
    + rewrite lookup_ge_None_2 by lia. symmetry.
      apply lookup_ge_None_2. rewrite length_replicate.
      assert (n <= 50); [|lia].
      destruct (Nat.le_gt_cases n 50) as [|Hn]; [done|].
      destruct (Hlo 50 ltac:(lia)) as [_ H50].
      pose proof (lookup_lt_is_Some_1 t 50) as Hs.
      rewrite H50 in Hs. destruct (Hlo 50 ltac:(lia)) as [Hs' _].
      specialize (Hs Hs'). lia.
Qed.

Lemma filter_nan_rows k :
  List.filter nan_free (replicate k nan_row) = [].
Proof. induction k as [|k IH]; simpl; [done | exact IH]. Qed.

(** Reading the columns off rows of four numbers. *)
Lemma append_rois_rows (rows : table) : forall acc,
  Forall (fun r => length r = 4) rows ->
  exists c,
    for_each append_roi rows acc = Ok c
    /\ roi_x c = roi_x acc ++ ((fun r => default NaN (r !! 0)) <$> rows)
    /\ roi_y c = roi_y acc ++ ((fun r => default NaN (r !! 1)) <$> rows)
    /\ roi_width c = roi_width acc ++ ((fun r => default NaN (r !! 2)) <$> rows)
    /\ roi_height c = roi_height acc ++ ((fun r => default NaN (r !! 3)) <$> rows).
Proof.
  induction rows as [|r rows IH]; intros acc Hrows.
  - exists acc. simpl. by rewrite !app_nil_r.
  - apply Forall_cons in Hrows as [Hr Hrows].
    destruct r as [|x [|y [|wd [|h [|? ?]]]]]; simpl in Hr; try lia.
    cbn [for_each].
    assert (Hstep : append_roi [x; y; wd; h] acc
                    = Ok {| roi_x := roi_x acc ++ [x]; roi_y := roi_y acc ++ [y];
                            roi_width := roi_width acc ++ [wd];
                            roi_height := roi_height acc ++ [h] |}) by done.
    rewrite Hstep. cbn [rbind].
    destruct (IH {| roi_x := roi_x acc ++ [x]; roi_y := roi_y acc ++ [y];
                    roi_width := roi_width acc ++ [wd];
                    roi_height := roi_height acc ++ [h] |} Hrows)
      as (c & Hrun & Hx & Hy & Hw & Hh).
    exists c. split; [done|]. simpl in *.
    rewrite Hx, Hy, Hw, Hh, <- !app_assoc. done.
Qed.

Lemma append_vectors_rows (rows : table) : forall acc,
  Forall (fun r => length r = 4) rows ->
  exists c,
    for_each append_vector rows acc = Ok c
    /\ vec_xs c = vec_xs acc ++ (take 2 <$> rows)
    /\ vec_ys c = vec_ys acc ++ (drop 2 <$> rows).
Proof.
  induction rows as [|r rows IH]; intros acc Hrows.
  - exists acc. simpl. by rewrite !app_nil_r.
  - apply Forall_cons in Hrows as [Hr Hrows].
    destruct r as [|x0 [|x1 [|y0 [|y1 [|? ?]]]]]; simpl in Hr; try lia.
    cbn [for_each].
    assert (Hstep : append_vector [x0; x1; y0; y1] acc
                    = Ok {| vec_xs := vec_xs acc ++ [[x0; x1]];
                            vec_ys := vec_ys acc ++ [[y0; y1]] |}) by done.
    rewrite Hstep. cbn [rbind].
    destruct (IH {| vec_xs := vec_xs acc ++ [[x0; x1]];
                    vec_ys := vec_ys acc ++ [[y0; y1]] |} Hrows)
      as (c & Hrun & Hx & Hy).
    exists c. split; [done|]. simpl in *.
    rewrite Hx, Hy, <- !app_assoc. done.
Qed.

Lemma roi_rows_four c : Forall (fun r => length r = 4) (roi_rows c).
Proof.
  apply Forall_lookup. intros i r. rewrite roi_rows_lookup. unfold roi_row.
  destruct (roi_x c !! i), (roi_y c !! i), (roi_width c !! i),
    (roi_height c !! i); simpl; try done. by intros [= <-].
Qed.

Lemma vector_rows_four c m :
  vector_wf c m -> Forall (fun r => length r = 4) (vector_rows c).
Proof.
  intros Hwf. apply Forall_lookup. intros i r Hr.
  assert (Hi : i < m).
  { rewrite <- (vector_rows_length c m Hwf). by eapply lookup_lt_Some. }
  rewrite (vector_rows_lookup c m i Hwf Hi) in Hr.
  destruct Hwf as (Hx & Hy & Fx & Fy). unfold vector_row in Hr.
  destruct (vec_xs c !! i) as [xs|]; simpl in Hr; [|done].
  destruct (vec_ys c !! i) as [ys|]; simpl in Hr; [|done].
  destruct (xs !! 0), (xs !! 1), (ys !! 0), (ys !! 1); simpl in Hr; try done.
  by injection Hr as <-.
Qed.

Lemma filter_Forall_length (t : table) k :
  Forall (fun r => length r = k) t ->
  Forall (fun r => length r = k) (List.filter nan_free t).
Proof.
  intros H. apply Forall_forall. intros r Hr.
  apply list_elem_of_In, filter_In in Hr as [Hr _].
  by apply (proj1 (Forall_forall _ _) H), list_elem_of_In.
Qed.

(** The table of a well-formed ROI selection. *)
Lemma roi_table_rows w n :
  roi_wf (roi_source w) n -> n <= 50 ->
  get_roi_data_by_index w
  = Ok (roi_rows (roi_source w) ++ replicate (50 - n) nan_row).
Proof.
  intros Hwf Hn. destruct (roi_table_ok w n Hwf Hn) as (t & -> & Hp).
  f_equal. apply (padded_rows t n (roi_row (roi_source w))); [done | |].
  - by apply roi_rows_length.
  - intros i _. apply roi_rows_lookup.
Qed.

Lemma vector_table_rows w m :
  vector_wf (vector_source w) m -> m <= 50 ->
  get_vector_data_by_index w
  = Ok (vector_rows (vector_source w) ++ replicate (50 - m) nan_row).
Proof.
  intros Hwf Hm. destruct (vector_table_ok w m Hwf Hm) as (t & -> & Hp).
  f_equal. apply (padded_rows t m (vector_row (vector_source w))); [done | |].
  - by apply vector_rows_length.
  - intros i Hi. by apply (vector_rows_lookup _ m).
Qed.

Lemma nan_free_rows_table dims (t : table) :
  t <> [] ->
  nan_free_rows (Array dims (Table t)) = Ok (List.filter nan_free t).
Proof. by destruct t. Qed.

(** The ROI table there and back. *)
Lemma roi_table_round_trip w n dims :
  roi_wf (roi_source w) n -> n <= 50 ->
  exists t c,
    get_roi_data_by_index w = Ok t
    /\ rois_of_stored (Array dims (Table t)) = Ok c
    /\ roi_rows c = List.filter nan_free (roi_rows (roi_source w))
    /\ roi_wf c (length (roi_rows c))
    /\ (Forall (fun r => nan_free r = true) (roi_rows (roi_source w)) ->
        c = roi_source w).
Proof.
  intros Hwf Hn. rewrite (roi_table_rows w n Hwf Hn).
  exists (roi_rows (roi_source w) ++ replicate (50 - n) nan_row).
  unfold rois_of_stored. rewrite nan_free_rows_table.
  2:{ intros Ht. apply (f_equal length) in Ht.
      rewrite length_app, length_replicate, (roi_rows_length _ n Hwf) in Ht.
      simpl in Ht. lia. }
  cbn [rbind].
  rewrite List.filter_app, filter_nan_rows, app_nil_r.
  set (kept := List.filter nan_free (roi_rows (roi_source w))).
  assert (Hfour : Forall (fun r => length r = 4) kept)
    by apply filter_Forall_length, roi_rows_four.
  destruct (append_rois_rows kept no_rois Hfour) as (c & Hrun & Hx & Hy & Hw & Hh).
  exists c. split; [done|]. split; [done|]. simpl in *.
  assert (Hrows : roi_rows c = kept).
  { unfold roi_rows. rewrite Hx, Hy, Hw, Hh.
    clear -Hfour. induction Hfour as [|r rows Hr _ IH]; [done|].
    destruct r as [|x [|y [|wd [|h [|? ?]]]]]; simpl in Hr; try lia.
    csimpl. by rewrite IH. }
  split; [done|]. split.
  { rewrite Hrows. unfold roi_wf. rewrite Hx, Hy, Hw, Hh, !length_fmap. done. }
  intros Hfree.
  assert (Hkept : kept = roi_rows (roi_source w)).
  { unfold kept. clear -Hfree.
    induction Hfree as [|r rows Hr _ IH]; [done|]. simpl. by rewrite Hr, IH. }
  rewrite Hkept in Hx, Hy, Hw, Hh.
  destruct Hwf as (Lx & Ly & Lw & Lh).
  destruct c as [cx cy cw ch], (roi_source w) as [sx sy sw sh]; simpl in *.
  subst cx cy cw ch. unfold roi_rows. simpl.
  clear -Lx Ly Lw Lh. f_equal.
  - revert n sy sw sh Lx Ly Lw Lh. induction sx as [|x sx IH];
      intros n [|y sy] [|wd sw] [|h sh] Lx Ly Lw Lh; simpl in *; try lia; [done|].
    f_equal. apply (IH (length sx)); lia.
  - revert n sx sw sh Lx Ly Lw Lh. induction sy as [|y sy IH];
      intros n [|x sx] [|wd sw] [|h sh] Lx Ly Lw Lh; simpl in *; try lia; [done|].
    f_equal. apply (IH (length sy)); lia.
  - revert n sx sy sh Lx Ly Lw Lh. induction sw as [|wd sw IH];
      intros n [|x sx] [|y sy] [|h sh] Lx Ly Lw Lh; simpl in *; try lia; [done|].
    f_equal. apply (IH (length sw)); lia.
  - revert n sx sy sw Lx Ly Lw Lh. induction sh as [|h sh IH];
      intros n [|x sx] [|y sy] [|wd sw] Lx Ly Lw Lh; simpl in *; try lia; [done|].
    f_equal. apply (IH (length sh)); lia.
Qed.

(** The vector table there and back. *)
Lemma vector_table_round_trip w m dims :
  vector_wf (vector_source w) m -> m <= 50 ->
  exists t c,
    get_vector_data_by_index w = Ok t
    /\ vectors_of_stored (Array dims (Table t)) = Ok c
    /\ vector_rows c = List.filter nan_free (vector_rows (vector_source w))
    /\ two_point_vectors c (length (vector_rows c))
    /\ (two_point_vectors (vector_source w) m ->
        Forall (fun r => nan_free r = true) (vector_rows (vector_source w)) ->
        c = vector_source w).
Proof.
  intros Hwf Hm. rewrite (vector_table_rows w m Hwf Hm).
  exists (vector_rows (vector_source w) ++ replicate (50 - m) nan_row).
  unfold vectors_of_stored. rewrite nan_free_rows_table.
  2:{ intros Ht. apply (f_equal length) in Ht.
      rewrite length_app, length_replicate, (vector_rows_length _ m Hwf) in Ht.
      simpl in Ht. lia. }
  cbn [rbind].
  rewrite List.filter_app, filter_nan_rows, app_nil_r.
  set (kept := List.filter nan_free (vector_rows (vector_source w))).
  assert (Hfour : Forall (fun r => length r = 4) kept)
    by (apply filter_Forall_length; by apply (vector_rows_four _ m)).
  destruct (append_vectors_rows kept no_vectors Hfour) as (c & Hrun & Hx & Hy).
  exists c. split; [done|]. split; [done|]. simpl in *.
  assert (Hrows : vector_rows c = kept).
  { unfold vector_rows. rewrite Hx, Hy.
    clear -Hfour. induction Hfour as [|r rows Hr _ IH]; [done|].
    destruct r as [|x0 [|x1 [|y0 [|y1 [|? ?]]]]]; simpl in Hr; try lia.
    csimpl. by rewrite IH. }
  split; [done|]. split.
  { rewrite Hrows. unfold two_point_vectors.
    rewrite Hx, Hy, !length_fmap. repeat split; try done.
    - apply Forall_fmap. eapply Forall_impl; [exact Hfour|].
      intros r Hr. simpl in *. rewrite length_take. lia.
    - apply Forall_fmap. eapply Forall_impl; [exact Hfour|].
      intros r Hr. simpl in *. rewrite length_drop. lia. }
  intros (Lx & Ly & Fx & Fy) Hfree.
  assert (Hkept : kept = vector_rows (vector_source w)).
  { unfold kept. clear -Hfree.
    induction Hfree as [|r rows Hr _ IH]; [done|]. simpl. by rewrite Hr, IH. }
  rewrite Hkept in Hx, Hy.
  destruct c as [cx cy], (vector_source w) as [sx sy]; simpl in *.
  subst cx cy. unfold vector_rows. simpl.
  clear -Lx Ly Fx Fy. f_equal.
  - revert m sy Lx Ly Fy. induction Fx as [|xs sx Hxs _ IH];
      intros m [|ys sy] Lx Ly Fy; simpl in *; try lia; [done|].
    apply Forall_cons in Fy as [Hys Fy].
    destruct xs as [|x0 [|x1 [|? ?]]]; simpl in Hxs; try lia.
    csimpl. f_equal. apply (IH (length sx)); [lia | lia | done].
  - revert m sx Lx Ly Fx. induction Fy as [|ys sy Hys _ IH];
      intros m [|xs sx] Lx Ly Fx; simpl in *; try lia; [done|].
    apply Forall_cons in Fx as [Hxs Fx].
    destruct xs as [|x0 [|x1 [|? ?]]]; simpl in Hxs; try lia.
    destruct ys as [|y0 [|y1 [|? ?]]]; simpl in Hys; try lia.
    csimpl. f_equal. apply (IH (length sy)); [lia | lia | done].
Qed.

(** X8. What [draw_existing_rois] restores from the table that
    [get_roi_data_by_index] built: the ROIs without a not-a-number
    coordinate, in their order; the sentinel rows and every ROI with a
    not-a-number coordinate are dropped. With no such ROI the restored
    selection is the saved one. *)
Theorem X8_rois_saved_and_restored w n dims :
  roi_wf (roi_source w) n -> n <= 50 ->
  exists t c,
    get_roi_data_by_index w = Ok t
    /\ rois_of_stored (Array dims (Table t)) = Ok c
    /\ roi_rows c = List.filter nan_free (roi_rows (roi_source w))
    /\ roi_wf c (length (roi_rows c))
    /\ (Forall (fun r => nan_free r = true) (roi_rows (roi_source w)) ->
        c = roi_source w).
Proof. apply roi_table_round_trip. Qed.

(** X9. What [draw_existing_vectors] restores from the table that
    [get_vector_data_by_index] built: the vectors without a
    not-a-number among their first two x and first two y coordinates,
    in their order, each with exactly those two points; the sentinel
    rows are dropped. With two-point vectors free of not-a-number the
    restored selection is the saved one. *)
Theorem X9_vectors_saved_and_restored w m dims :
  vector_wf (vector_source w) m -> m <= 50 ->
  exists t c,
    get_vector_data_by_index w = Ok t
    /\ vectors_of_stored (Array dims (Table t)) = Ok c
    /\ vector_rows c = List.filter nan_free (vector_rows (vector_source w))
    /\ two_point_vectors c (length (vector_rows c))
    /\ (two_point_vectors (vector_source w) m ->
        Forall (fun r => nan_free r = true) (vector_rows (vector_source w)) ->
        c = vector_source w).
Proof. apply vector_table_round_trip. Qed.
End RoundTrip.

(* ===================================================================== *)
(** * What saving leaves alone *)
(* ===================================================================== *)

Section Preserved.
Context {B : Builtins}.
Context (R : world -> world -> Prop).
Hypothesis R_refl : forall w, R w w.
Hypothesis R_trans : forall w1 w2 w3, R w1 w2 -> R w2 w3 -> R w1 w3.
Hypothesis R_console : forall c w, R w (set_console c w).
Hypothesis R_mutation :
  forall fs w, R w (set_disk fs (Nat.pred <$> faults w) w).

Lemma preserves_ret {A} (a : A) : preserves R (ret a).
Proof. intros w. apply R_refl. Qed.

Lemma preserves_throw {A} e : preserves R (throw (A := A) e).
Proof. intros w. apply R_refl. Qed.

Lemma preserves_reads {A} (f : world -> result A) : preserves R (reads f).
Proof. intros w. apply R_refl. Qed.

Lemma preserves_lift {A} (r : result A) : preserves R (lift r).
Proof. intros w. apply R_refl. Qed.

Lemma preserves_print s : preserves R (print s).
Proof. intros w. apply R_console. Qed.

Lemma preserves_bind {A C} (m : M A) (k : A -> M C) :
  preserves R m -> (forall a, preserves R (k a)) -> preserves R (bind m k).
Proof.
  intros Hm Hk w. unfold bind. specialize (Hm w).
  destruct (m w) as [[a|e] w1]; simpl in *; [|done].
  eapply R_trans; [exact Hm | apply Hk].
Qed.

Lemma preserves_try_except {A} (body handler : M A) catches :
  preserves R body -> preserves R handler ->
  preserves R (try_except body catches handler).
Proof.
  intros Hb Hh w. unfold try_except. specialize (Hb w).
  destruct (body w) as [[a|e] w1]; simpl in *; [done|].
  destruct (catches e); [|done].
  eapply R_trans; [exact Hb | apply Hh].
Qed.

Lemma preserves_fs_mutation f : preserves R (fs_mutation f).
Proof.
  intros w. unfold fs_mutation.
  destruct (faults w) as [[|k]|] eqn:Hb; [apply R_refl | |];
    (destruct (f (files w)) as [fs'|]; [|apply R_refl]);
    pose proof (R_mutation fs' w) as Hm; rewrite Hb in Hm; exact Hm.
Qed.

Lemma preserves_get_full_path relative_path :
  preserves R (get_full_path relative_path).
Proof.
  apply preserves_bind; [apply preserves_reads|]. intros image_paths.
  apply preserves_try_except.
  - apply preserves_bind; [apply preserves_lift | intros; apply preserves_ret].
  - apply preserves_bind; [apply preserves_print | intros; apply preserves_ret].
Qed.

Lemma preserves_get_db_path : preserves R get_db_path.
Proof.
  apply preserves_bind; [apply preserves_reads|]. intros base.
  apply preserves_bind; [intros w; apply R_refl|].
  intros []; apply preserves_ret.
Qed.

Lemma preserves_os_path_isfile p : preserves R (os_path_isfile p).
Proof. intros w. destruct p; apply R_refl. Qed.

Lemma preserves_xr_open_dataset p : preserves R (xr_open_dataset p).
Proof.
  intros w. unfold xr_open_dataset. destruct p as [p|]; [|apply R_refl].
  destruct (files w !! p) as [[|]|]; apply R_refl.
Qed.

Lemma preserves_os_remove p : preserves R (os_remove p).
Proof. destruct p; [apply preserves_fs_mutation | apply preserves_throw]. Qed.

Lemma preserves_to_netcdf ds p : preserves R (to_netcdf ds p).
Proof. destruct p; [apply preserves_fs_mutation | apply preserves_ret]. Qed.

Lemma preserves_save : preserves R save.
Proof.
  unfold save.
  apply preserves_bind; [apply preserves_reads|]. intros selected.
  apply preserves_bind; [apply preserves_get_full_path|]. intros path.
  apply preserves_bind; [apply preserves_reads|]. intros data_vars.
  apply preserves_bind; [apply preserves_get_db_path|]. intros db_path.
  apply preserves_bind; [apply preserves_os_path_isfile|]. intros [|].
  - apply preserves_bind; [apply preserves_xr_open_dataset|]. intros db.
    apply preserves_bind; [apply preserves_lift|]. intros paths.
    apply preserves_bind.
    + destruct (bool_decide (path ∈ paths)).
      * apply preserves_bind; [apply preserves_print | intros; apply preserves_lift].
      * apply preserves_bind; [apply preserves_print|]. intros _.
        apply preserves_bind; [apply preserves_reads | intros; apply preserves_lift].
    + intros db'. apply preserves_bind; [apply preserves_os_remove|]. intros _.
      apply preserves_bind;
        [apply preserves_get_db_path | intros; apply preserves_to_netcdf].
  - apply preserves_bind; [apply preserves_reads | intros; apply preserves_to_netcdf].
Qed.
End Preserved.

Lemma same_session_refl w : same_session w w.
Proof. by destruct w. Qed.

Lemma same_session_trans w1 w2 w3 :
  same_session w1 w2 -> same_session w2 w3 -> same_session w1 w3.
Proof. unfold same_session. intros H12 H23. rewrite H23, H12. done. Qed.

Lemma keeps_save {B : Builtins} : preserves same_session save.
Proof.
  apply preserves_save.
  - apply same_session_refl.
  - apply same_session_trans.
  - intros c w. by destruct w.
  - intros fs w. by destruct w.
Qed.

Lemma save_still_unlimited {B : Builtins} : preserves still_unlimited save.
Proof.
  apply preserves_save; unfold still_unlimited.
  - done.
  - auto.
  - done.
  - intros fs w Hb. simpl. by rewrite Hb.
Qed.

(** The path [get_full_path] finds is a matter of the directory tree
    and the base directory only. *)
Lemma get_full_path_at relative_path w w' :
  walk w' = walk w ->
  base_dir_input_value w' = base_dir_input_value w ->
  exists c,
    get_full_path relative_path w'
    = ((get_full_path relative_path w).1, set_console c w').
Proof.
  intros Hw Hb. unfold get_full_path, bind, get_file_paths, reads, try_except, lift.
  rewrite Hw, Hb.
  destruct (list_index _ 0) as [f|e]; simpl.
  - exists (console w'). by destruct w'.
  - destruct (is_IndexError e); [by eexists|].
    exists (console w'). by destruct w'.
Qed.

Lemma same_session_path relative_path w w' :
  same_session w w' ->
  (get_full_path relative_path w').1 = (get_full_path relative_path w).1.
Proof.
  intros Hs.
  destruct (get_full_path_at relative_path w w') as [c Hc];
    [by rewrite Hs | by rewrite Hs |].
  by rewrite Hc.
Qed.

Section SavingFrame.
Context {B : Builtins}.

Lemma same_session_data_dict w w' :
  same_session w w' -> create_data_dict w' = create_data_dict w.
Proof. intros ->. done. Qed.

Lemma same_session_coords path w w' :
  same_session w w' -> create_coords_dict path w' = create_coords_dict path w.
Proof. intros ->. done. Qed.

(** X10. [save] changes nothing but the dataset file, the console and
    what the environment still allows: the widgets, the image, its
    metadata, the selections and the directories are as before, and
    every other file on disk is as it was, whether [save] returns or
    raises. *)
Theorem X10_save_touches_only_the_dataset_file w :
  let w' := (save w).2 in
  base_dir_input_value w' = base_dir_input_value w
  /\ image_select_value w' = image_select_value w
  /\ fov_input_value w' = fov_input_value w
  /\ line_rate_input_value w' = line_rate_input_value w
  /\ frame_rate_input_value w' = frame_rate_input_value w
  /\ raw_image w' = raw_image w
  /\ raw_meta w' = raw_meta w
  /\ roi_source w' = roi_source w
  /\ vector_source w' = vector_source w
  /\ dirs w' = dirs w
  /\ forall p, p <> db_file w -> files w' !! p = files w !! p.
Proof.
  intros w'. pose proof (keeps_save w) as Hkeep. fold w' in Hkeep.
  do 10 (split; [by rewrite Hkeep|]). subst w'. intros p Hp.
  destruct (save_run w) as (path & _ & Hrun).
  assert (Hcases : files (save w).2 = files w
                   \/ (exists f, files (save w).2 = <[db_file w := f]> (files w))
                   \/ files (save w).2 = delete (db_file w) (files w)).
  { revert Hrun. generalize (files (save w).2) ((save w).1). intros fs res.
    destruct (create_data_dict w); [|intros [= _ ->]; by left].
    destruct (bool_decide _); [|intros [= _ ->]; by left].
    destruct (files w !! db_file w) as [[db|]|].
    - destruct (reconciled _ _ _ _); [|intros [= _ ->]; by left].
      destruct (faults w) as [[|[|k]]|]; intros [= _ ->]; eauto.
    - intros [= _ ->]; by left.
    - destruct (create_coords_dict _ _); [|intros [= _ ->]; by left].
      destruct (faults w) as [[|k]|]; intros [= _ ->]; eauto. }
  destruct Hcases as [-> | [[f ->] | ->]]; [done | |].
  - by rewrite lookup_insert_ne.
  - by rewrite lookup_delete_ne.
Qed.

(** X11. A save that fails for any reason but the environment failing
    a mutation of the disk has not touched the disk; in particular,
    with an environment that never fails, a save that raises leaves
    every file as it was. *)
Theorem X11_failed_save_leaves_the_disk w e :
  (save w).1 = Raise e ->
  e <> OSError \/ faults w = None ->
  files (save w).2 = files w.
Proof.
  intros Hres He. destruct (save_run w) as (path & _ & Hrun).
  rewrite Hres in Hrun. revert Hrun. generalize (files (save w).2). intros fs.
  destruct (create_data_dict w); [|by intros [= _ ->]].
  destruct (bool_decide _); [|by intros [= _ ->]].
  destruct (files w !! db_file w) as [[db|]|].
  - destruct (reconciled _ _ _ _); [|by intros [= _ ->]].
    destruct (faults w) as [[|[|k]]|]; intros [= Ee ->]; try done.
    by destruct He.
  - by intros [= _ ->].
  - destruct (create_coords_dict _ _); [|by intros [= _ ->]].
    destruct (faults w) as [[|k]|]; by intros [= _ ->].
Qed.
End SavingFrame.

(* ===================================================================== *)
(** * What a save that went through has stored *)
(* ===================================================================== *)

Section SavedRecords.
Context {B : Builtins}.

(** The two ways a [save] goes through. *)
Lemma save_ok_inv w :
  (save w).1 = Ok tt ->
  exists path data_vars,
    (get_full_path (image_select_value w) w).1 = Ok path
    /\ create_data_dict w = Ok data_vars
    /\ base_dir_input_value w ∈ dirs w
    /\ faults w <> Some 0%nat
    /\ ((files w !! db_file w = None
         /\ (exists coords, create_coords_dict path w = Ok coords)
         /\ files (save w).2
            = <[db_file w := NetCDF (DsScalarPath path (list_to_map data_vars))]>
                (files w))
        \/ (exists db db',
              files w !! db_file w = Some (NetCDF db)
              /\ reconciled w path data_vars db = Ok db'
              /\ faults w <> Some 1%nat
              /\ files (save w).2 = <[db_file w := NetCDF db']> (files w))).
Proof.
  intros Hres. destruct (save_run w) as (path & Hpath & Hrun).
  exists path. rewrite Hres in Hrun. revert Hrun.
  generalize (files (save w).2). intros fs.
  destruct (create_data_dict w) as [data_vars|]; [|done].
  case_bool_decide as Hdir; [|done].
  exists data_vars. revert Hrun.
  destruct (files w !! db_file w) as [[db|]|]; [| done |].
  - destruct (reconciled _ _ _ _) as [db'|] eqn:Hrc; [|done].
    destruct (faults w) as [[|[|k]]|]; intros [= ->]; repeat (split; [done|]);
      right; by exists db, db'.
  - destruct (create_coords_dict _ _) as [coords|]; [|done].
    destruct (faults w) as [[|k]|]; intros [= ->]; repeat (split; [done|]);
      left; eauto.
Qed.

Lemma data_key_elem (data_vars : list (string * value)) k v :
  (list_to_map data_vars : gmap string value) !! k = Some v -> k ∈ data_vars.*1.
Proof.
  intros Hk. apply list_elem_of_fmap. exists (k, v). split; [done|].
  by apply elem_of_list_to_map_2.
Qed.

(** After a [save] that went through without appending (there was no
    dataset file, or the file knew the path), the dataset file holds a
    single record, that of the path, in which every field of the data
    dict is the in-memory value, or a stored value that compared equal
    to it. *)
Lemma save_ok_in_place w path :
  (get_full_path (image_select_value w) w).1 = Ok path ->
  (save w).1 = Ok tt ->
  files w !! db_file w = None
  \/ (exists db paths,
        files w !! db_file w = Some (NetCDF db)
        /\ ds_paths db = Ok paths /\ path ∈ paths) ->
  exists data_vars rec',
    create_data_dict w = Ok data_vars
    /\ base_dir_input_value w ∈ dirs w
    /\ files (save w).2
       = <[db_file w := NetCDF (DsScalarPath path rec')]> (files w)
    /\ (forall k v,
          (list_to_map data_vars : gmap string value) !! k = Some v ->
          exists s, rec' !! k = Some s /\ (s = v \/ py_ne s v = false)).
Proof.
  intros Hpath0 Hres Hplace.
  destruct (save_ok_inv w Hres)
    as (path' & data_vars & Hpath & Hdata & Hdir & Hb & Hcases).
  rewrite Hpath0 in Hpath. injection Hpath as <-.
  exists data_vars.
  destruct Hcases as [(Hfile & _ & Hfs) | (db & db' & Hfile & Hrc & Hb1 & Hfs)].
  - exists (list_to_map data_vars). repeat (split; [done|]).
    intros k v Hk. exists v. auto.
  - destruct Hplace as [Hnone | (db0 & paths & Hfile0 & Hp & Hin)];
      [by rewrite Hfile in Hnone|].
    rewrite Hfile in Hfile0. injection Hfile0 as <-.
    pose proof (data_dict_keys_NoDup w data_vars Hdata) as Hnd.
    destruct (reconciled_inv w path data_vars db db' Hnd Hrc)
      as [(rec & rec1 & Hrec & Hpresent & _)
         |(paths' & coords & Hp' & Hnew & _)].
    2:{ rewrite Hp in Hp'. by injection Hp' as <-. }
    destruct db as [vars|p vars|recs]; [done | |].
    + simpl in Hp. injection Hp as <-.
      apply list_elem_of_singleton in Hin. subst p.
      rewrite ds_record_scalar_path in Hrec. injection Hrec as ->.
      destruct (reconciled_scalar_path w path data_vars rec Hnd Hpresent)
        as (rec' & Hrc' & Hlk).
      rewrite Hrc in Hrc'. injection Hrc' as ->.
      exists rec'. repeat (split; [done|]).
      intros k v Hk. rewrite Hlk, Hk.
      destruct (Hpresent k (data_key_elem _ _ _ Hk)) as [s Hs]. rewrite Hs. simpl.
      destruct (py_ne s v) eqn:Hne; eexists; split; eauto.
    + destruct (create_data_dict_head w data_vars Hdata) as (a & rest & Hhead).
      rewrite (reconciled_path_dim_raises w path data_vars recs rec _ _ rest
                 Hhead Hrec) in Hrc; [done|].
      apply Hpresent. rewrite Hhead. apply list_elem_of_here.
Qed.

Lemma ds_record_paths db path rec :
  ds_record db path = Some rec ->
  exists paths, ds_paths db = Ok paths /\ path ∈ paths.
Proof.
  intros Hrec.
  assert (Hin : path ∈ (ds_records db).*1)
    by (apply find_record_elem; by eexists).
  destruct db as [vars|p vars|recs]; simpl in *.
  - by apply elem_of_nil in Hin.
  - by exists [p].
  - by exists recs.*1.
Qed.

(** X12. A save for an image that was found, over an existing dataset
    file, loses nothing: every path the file held it still holds, in
    the same order and in front of whatever is added; nothing is added
    when the file knew the image's path; and the record of every
    stored path other than the image's is the one stored before. *)
Theorem X12_save_keeps_the_other_records w image db paths :
  (get_full_path (image_select_value w) w).1 = Ok (Some image) ->
  files w !! db_file w = Some (NetCDF db) ->
  ds_paths db = Ok paths ->
  (save w).1 = Ok tt ->
  exists db' added,
    files (save w).2 !! db_file w = Some (NetCDF db')
    /\ ds_paths db' = Ok (paths ++ added)
    /\ (Some image ∈ paths -> added = [])
    /\ (forall p, p ∈ paths -> p <> Some image ->
          ds_record db' p = ds_record db p).
Proof.
  intros Himage Hfile Hp Hres.
  destruct (save_ok_inv w Hres)
    as (path & data_vars & Hpath & Hdata & Hdir & Hb & Hcases).
  rewrite Himage in Hpath. injection Hpath as <-.
  destruct Hcases as [(Hnone & _) | (db0 & db' & Hfile' & Hrc & Hb1 & Hfs)];
    [by rewrite Hfile in Hnone|].
  rewrite Hfile in Hfile'. injection Hfile' as <-.
  exists db'.
  pose proof (data_dict_keys_NoDup w data_vars Hdata) as Hnd.
  destruct (reconciled_inv w (Some image) data_vars db db' Hnd Hrc)
    as [(rec & rec' & Hrec & _ & Hps & _ & Hothers & _)
       |(paths0 & coords & Hp0 & Hnew & _ & _ & ->)].
  - exists []. split; [by rewrite Hfs, lookup_insert_eq|].
    split; [by rewrite Hps, Hp, app_nil_r|]. split; [done|].
    intros p _ Hne. by apply Hothers.
  - rewrite Hp in Hp0. injection Hp0 as <-.
    pose proof (ds_paths_records db paths Hp) as Hps.
    exists [Some image]. split; [by rewrite Hfs, lookup_insert_eq|].
    split; [simpl; by rewrite fmap_app, <- Hps|]. split; [done|].
    intros p _ Hne. unfold ds_record. simpl. rewrite Hps in Hnew.
    rewrite (find_record_app_new _ _ _ _ Hnew).
    by rewrite bool_decide_eq_false_2.
Qed.

(** X13. Saving twice is saving once: after a save of a stack, for an
    image that was found, that went through without appending (there
    was no dataset file, or the file knew the image's path), with an
    environment that does not fail, a second save goes through as well
    and the dataset file then holds the same path labels and, for
    every path, the same record as after the first. *)
Theorem X13_saving_again_changes_nothing w image frames :
  (get_full_path (image_select_value w) w).1 = Ok (Some image) ->
  get_current_image w = Ok (Arr3 frames) ->
  faults w = None ->
  (save w).1 = Ok tt ->
  files w !! db_file w = None
  \/ (exists db paths,
        files w !! db_file w = Some (NetCDF db)
        /\ ds_paths db = Ok paths /\ Some image ∈ paths) ->
  let w1 := (save w).2 in
  (save w1).1 = Ok tt
  /\ exists db1 db2,
       files w1 !! db_file w = Some (NetCDF db1)
       /\ files (save w1).2 !! db_file w = Some (NetCDF db2)
       /\ ds_paths db2 = ds_paths db1
       /\ forall p, ds_record db2 p = ds_record db1 p.
Proof.
  intros Himage _ Hb Hres Hplace w1.
  destruct (save_ok_in_place w (Some image) Himage Hres Hplace)
    as (data_vars & rec1 & Hdata & Hdir & Hfs & Hval).
  pose proof (keeps_save w) as Hsame. fold w1 in Hsame, Hfs.
  assert (Hpath1 : (get_full_path (image_select_value w1) w1).1
                   = Ok (Some image)).
  { rewrite (same_session_path _ w w1 Hsame).
    replace (image_select_value w1) with (image_select_value w); [done|].
    by rewrite Hsame. }
  assert (Hdata1 : create_data_dict w1 = Ok data_vars)
    by by rewrite (same_session_data_dict w w1 Hsame).
  assert (Hdir1 : base_dir_input_value w1 ∈ dirs w1) by by rewrite Hsame.
  assert (Hdb : db_file w1 = db_file w) by by rewrite Hsame.
  assert (Hfile1 : files w1 !! db_file w1
                   = Some (NetCDF (DsScalarPath (Some image) rec1)))
    by by rewrite Hdb, Hfs, lookup_insert_eq.
  assert (Hb1 : faults w1 = None) by by apply save_still_unlimited.
  pose proof (data_dict_keys_NoDup w data_vars Hdata) as Hnd.
  assert (Hpresent : forall k, k ∈ data_vars.*1 -> is_Some (rec1 !! k)).
  { intros k Hk. apply list_elem_of_fmap in Hk as ([k' v] & -> & Hkv).
    apply (elem_of_list_to_map_1 (M := gmap string)) in Hkv; [|done].
    destruct (Hval _ _ Hkv) as (s & Hs & _). by eexists. }
  destruct (reconciled_scalar_path w1 (Some image) data_vars rec1 Hnd Hpresent)
    as (rec2 & Hrc & Hlk).
  destruct (save_with_file w1 (Some image) data_vars _ _
              Hpath1 Hdata1 Hdir1 Hfile1 Hrc)
    as [Hres2 Hfs2].
  rewrite Hb1 in Hres2, Hfs2. split; [done|].
  exists (DsScalarPath (Some image) rec1), (DsScalarPath (Some image) rec2).
  rewrite <- Hdb. split; [done|].
  split; [by rewrite Hfs2, lookup_insert_eq|]. split; [done|].
  assert (Hsame12 : rec2 = rec1).
  { apply map_eq. intros k. rewrite Hlk.
    destruct ((list_to_map data_vars : gmap string value) !! k) as [v|] eqn:Hk;
      [|done].
    destruct (Hval _ _ Hk) as (s & Hs & Hsv). rewrite Hs. simpl. f_equal.
    destruct Hsv as [->|Hne]; [by destruct (py_ne v v) | by rewrite Hne]. }
  by rewrite Hsame12.
Qed.

(** X14. An image that is a single plane cannot be saved for the first
    time: its data dict holds no projection, and when there is no
    dataset file yet, or the file does not know the path, building the
    coordinates asks for the third axis of the image and [save] raises
    an [IndexError], leaving the disk as it was. *)
Theorem X14_single_plane_is_not_saved_first_time w rows data_vars path :
  get_current_image w = Ok (Arr2 rows) ->
  create_data_dict w = Ok data_vars ->
  (get_full_path (image_select_value w) w).1 = Ok path ->
  base_dir_input_value w ∈ dirs w ->
  files w !! db_file w = None
  \/ (exists db paths,
        files w !! db_file w = Some (NetCDF db)
        /\ ds_paths db = Ok paths /\ (path ∉ paths)) ->
  (list_to_map data_vars : gmap string value) !! "2d_projection"
  = Some (Array ["x"; "y"] (Image None))
  /\ (save w).1 = Raise (IndexError ListRange)
  /\ files (save w).2 = files w.
Proof.
  intros Himg Hdata Hpath Hdir Hfile.
  assert (Hco : create_coords_dict path w = Raise (IndexError ListRange)).
  { unfold create_coords_dict. rewrite Himg. done. }
  split.
  { revert Hdata. unfold create_data_dict, calculate_2d_projection.
    rewrite Himg. cbn [rbind].
    destruct (float_of (line_rate_input_value w)); simpl; [|done].
    destruct (float_of (frame_rate_input_value w)); simpl; [|done].
    destruct (get_roi_data_by_index w); simpl; [|done].
    destruct (get_vector_data_by_index w); simpl; [|done].
    by intros [= <-]. }
  destruct (save_run w) as (path' & Hpath' & Hrun).
  rewrite Hpath in Hpath'. injection Hpath' as <-.
  rewrite Hdata, bool_decide_eq_true_2 in Hrun by done.
  destruct Hfile as [Hnone | (db & paths & Hfile & Hp & Hnew)].
  - rewrite Hnone, Hco in Hrun. by injection Hrun as -> ->.
  - assert (Hrc : reconciled w path data_vars db = Raise (IndexError ListRange)).
    { unfold reconciled. rewrite Hp. cbn [rbind].
      rewrite bool_decide_eq_false_2 by done. by rewrite Hco. }
    rewrite Hfile, Hrc in Hrun. by injection Hrun as -> ->.
Qed.
End SavedRecords.

(* ===================================================================== *)
(** * Drawing what the dataset holds *)
(* ===================================================================== *)

Lemma get_full_path_found relative_path w path :
  (get_full_path relative_path w).1 = Ok path ->
  exists c, get_full_path relative_path w = (Ok path, set_console c w).
Proof.
  intros Hp. destruct (get_full_path_world relative_path w) as (r & c & Hg).
  rewrite Hg in Hp. injection Hp as ->. by exists c.
Qed.

Lemma draw_existing_rois_run db w path :
  (get_full_path (image_select_value w) w).1 = Ok path ->
  exists c,
    draw_existing_rois db w
    = match (stored <- stored_value db "roi_data" path ;; rois_of_stored stored) with
      | Ok columns => (Ok tt, set_roi_source columns (set_console c w))
      | Raise e => (Raise e, set_console c w)
      end.
Proof.
  intros Hp. destruct (get_full_path_found _ w path Hp) as [c Hg].
  exists c. unfold draw_existing_rois, bind, reads, lift, modify, rois_of_stored.
  rewrite Hg.
  destruct (stored_value db "roi_data" path) as [stored|]; [|done]. cbn [rbind].
  destruct (nan_free_rows stored) as [roi_data|]; [|done]. cbn [rbind].
  by destruct (for_each append_roi roi_data no_rois).
Qed.

Lemma draw_existing_vectors_run db w path :
  (get_full_path (image_select_value w) w).1 = Ok path ->
  exists c,
    draw_existing_vectors db w
    = match (stored <- stored_value db "vector_data" path ;;
             vectors_of_stored stored) with
      | Ok columns => (Ok tt, set_vector_source columns (set_console c w))
      | Raise e => (Raise e, set_console c w)
      end.
Proof.
  intros Hp. destruct (get_full_path_found _ w path Hp) as [c Hg].
  exists c. unfold draw_existing_vectors, bind, reads, lift, modify,
    vectors_of_stored.
  rewrite Hg.
  destruct (stored_value db "vector_data" path) as [stored|]; [|done].
  cbn [rbind].
  destruct (nan_free_rows stored) as [vector_data|]; [|done]. cbn [rbind].
  by destruct (for_each append_vector vector_data no_vectors).
Qed.

(** [update_plot] up to the point where it looks into the dataset. *)
Lemma update_plot_run s w frame path :
  get_current_frame s w = Ok frame ->
  (get_full_path (image_select_value w) w).1 = Ok path ->
  exists c,
    let w1 := set_console c w in
    let cleared :=
      (Ok (display_of frame),
       set_vector_source no_vectors (set_roi_source no_rois w1)) in
    update_plot s w
    = if bool_decide (base_dir_input_value w ∈ dirs w) then
        match files w !! db_file w with
        | Some (NetCDF db) =>
            match ds_paths db with
            | Ok paths =>
                if bool_decide (path ∈ paths) then
                  (draw_existing_rois db ;;;
                   draw_existing_vectors db ;;;
                   ret (display_of frame)) w1
                else cleared
            | Raise _ => cleared
            end
        | Some Opaque => (Raise BackendError, w1)
        | None => cleared
        end
      else (Raise TypeError, w1).
Proof.
  intros Hf Hp. destruct (get_full_path_found _ w path Hp) as [c Hg].
  exists c. intros w1 cleared. subst cleared.
  unfold update_plot. unfold bind at 1. unfold reads at 1. rewrite Hf.
  unfold bind at 1. unfold lift at 1. unfold shape. rewrite list_index_1.
  unfold bind at 1. unfold lift at 1. rewrite list_index_0.
  fold (display_of frame).
  unfold bind at 1. unfold reads at 1.
  unfold bind at 1. rewrite Hg. fold w1.
  unfold bind at 1.
  destruct (decide (base_dir_input_value w ∈ dirs w)) as [Hdir|Hdir].
  2:{ rewrite (get_db_path_nodir w1 Hdir), bool_decide_eq_false_2 by done.
      done. }
  rewrite (get_db_path_dir w1 Hdir), bool_decide_eq_true_2 by done.
  unfold bind at 1. unfold os_path_isfile.
  change (files w1) with (files w).
  change (os_path_join (base_dir_input_value w1) "db.nc") with (db_file w).
  destruct (files w !! db_file w) as [[db|]|] eqn:Hfile.
  - unfold bind at 1. unfold bind at 1. unfold xr_open_dataset.
    change (files w1) with (files w). rewrite Hfile.
    destruct (ds_paths db) as [paths|e]; [|done].
    destruct (bool_decide (path ∈ paths)); [|done].
    unfold bind.
    destruct (draw_existing_rois db w1) as [[[]|e] w2]; [|done].
    destruct (draw_existing_vectors db w2) as [[[]|e] w3]; done.
  - unfold bind, xr_open_dataset.
    change (files w1) with (files w). by rewrite Hfile.
  - done.
Qed.

(** X15. When the dataset has nothing for the selected image (there is
    no dataset file, the file has no [path] at all, or it does not know
    the image's path) [update_plot] shows the current frame (a frame
    with at least one row) and empties both selections, whatever they
    held. With a base directory that is no
    directory it raises a [TypeError] instead and the selections stay
    as they were. *)
Theorem X15_update_plot_clears_without_a_record s w frame path :
  get_current_frame s w = Ok frame ->
  frame <> [] ->
  (get_full_path (image_select_value w) w).1 = Ok path ->
  (base_dir_input_value w ∈ dirs w ->
   files w !! db_file w = None
   \/ (exists db,
         files w !! db_file w = Some (NetCDF db)
         /\ forall paths, ds_paths db = Ok paths -> path ∉ paths) ->
   (update_plot s w).1 = Ok (display_of frame)
   /\ roi_source (update_plot s w).2 = no_rois
   /\ vector_source (update_plot s w).2 = no_vectors)
  /\ (base_dir_input_value w ∉ dirs w ->
      (update_plot s w).1 = Raise TypeError
      /\ roi_source (update_plot s w).2 = roi_source w
      /\ vector_source (update_plot s w).2 = vector_source w).
Proof.
  intros Hf _ Hp. destruct (update_plot_run s w frame path Hf Hp) as [c Hrun].
  simpl in Hrun. split.
  - intros Hdir Hfile. rewrite bool_decide_eq_true_2 in Hrun by done.
    destruct Hfile as [Hnone | (db & Hfile & Hunknown)].
    + rewrite Hnone in Hrun. by rewrite Hrun.
    + rewrite Hfile in Hrun.
      destruct (ds_paths db) as [paths|e]; [|by rewrite Hrun].
      rewrite bool_decide_eq_false_2 in Hrun by by apply Hunknown.
      by rewrite Hrun.
  - intros Hdir. rewrite bool_decide_eq_false_2 in Hrun by done.
    by rewrite Hrun.
Qed.

Lemma stored_value_record db image rec key :
  ds_record db (Some image) = Some rec ->
  stored_value db key (Some image) = dict_get rec key.
Proof.
  destruct db as [vars|p vars|recs]; simpl.
  - done.
  - unfold ds_record, find_record. simpl. case_bool_decide as Hp; [|done].
    subst p. by intros [= ->].
  - apply loc_get_found.
Qed.

(** [update_plot] when the dataset holds tables for the selected
    image. *)
Lemma update_plot_drawn s w frame image db rec dr tr dv tv cr cv :
  get_current_frame s w = Ok frame ->
  (get_full_path (image_select_value w) w).1 = Ok (Some image) ->
  base_dir_input_value w ∈ dirs w ->
  files w !! db_file w = Some (NetCDF db) ->
  ds_record db (Some image) = Some rec ->
  rec !! "roi_data" = Some (Array dr (Table tr)) ->
  rec !! "vector_data" = Some (Array dv (Table tv)) ->
  rois_of_stored (Array dr (Table tr)) = Ok cr ->
  vectors_of_stored (Array dv (Table tv)) = Ok cv ->
  (update_plot s w).1 = Ok (display_of frame)
  /\ roi_source (update_plot s w).2 = cr
  /\ vector_source (update_plot s w).2 = cv.
Proof.
  intros Hf Hp Hdir Hfile Hrec Hr Hv Hcr Hcv.
  destruct (update_plot_run s w frame _ Hf Hp) as [c Hrun]. simpl in Hrun.
  destruct (ds_record_paths db _ rec Hrec) as (paths & Hps & Hin).
  rewrite bool_decide_eq_true_2, Hfile, Hps, bool_decide_eq_true_2 in Hrun
    by done.
  set (w1 := set_console c w) in *.
  assert (Hp1 : (get_full_path (image_select_value w1) w1).1 = Ok (Some image)).
  { destruct (get_full_path_at (image_select_value w) w w1) as [c1 Hc1];
      [done | done |].
    change (image_select_value w1) with (image_select_value w).
    by rewrite Hc1. }
  destruct (draw_existing_rois_run db w1 _ Hp1) as [c2 Hrois].
  rewrite (stored_value_record db image rec _ Hrec) in Hrois.
  unfold dict_get in Hrois. rewrite Hr in Hrois. cbn [rbind] in Hrois.
  rewrite Hcr in Hrois.
  set (w2 := set_roi_source cr (set_console c2 w1)) in *.
  assert (Hp2 : (get_full_path (image_select_value w2) w2).1 = Ok (Some image)).
  { destruct (get_full_path_at (image_select_value w) w w2) as [c3 Hc3];
      [done | done |].
    change (image_select_value w2) with (image_select_value w).
    by rewrite Hc3. }
  destruct (draw_existing_vectors_run db w2 _ Hp2) as [c4 Hvectors].
  rewrite (stored_value_record db image rec _ Hrec) in Hvectors.
  unfold dict_get in Hvectors. rewrite Hv in Hvectors. cbn [rbind] in Hvectors.
  rewrite Hcv in Hvectors.
  rewrite Hrun. unfold bind. rewrite Hrois, Hvectors. done.
Qed.

(** X16. Leaving the 2D projection redraws from the dataset: with the
    toggle switched off [show_2d_projection] enables the time slider,
    shows the current frame and, when the dataset has nothing for the
    selected image, empties both selections, so that what was selected
    and not saved is gone. With the toggle switched on and a single
    plane as the image there is no projection, and [None] is what is
    put into the image source. *)
Theorem X16_leaving_the_projection_redraws s w frame path :
  get_current_frame s w = Ok frame ->
  frame <> [] ->
  (get_full_path (image_select_value w) w).1 = Ok path ->
  base_dir_input_value w ∈ dirs w ->
  files w !! db_file w = None
  \/ (exists db,
        files w !! db_file w = Some (NetCDF db)
        /\ forall paths, ds_paths db = Ok paths -> path ∉ paths) ->
  slider_disabled (toggled_slider false s) = false
  /\ (show_2d_projection false s w).1 = Ok (FrameShown (display_of frame))
  /\ roi_source (show_2d_projection false s w).2 = no_rois
  /\ vector_source (show_2d_projection false s w).2 = no_vectors
  /\ (forall rows,
        get_current_image w = Ok (Arr2 rows) ->
        slider_disabled (toggled_slider true s) = true
        /\ show_2d_projection true s w = (Ok (ProjectionShown [None]), w)).
Proof.
  intros Hf _ Hp Hdir Hfile. split; [done|].
  assert (Hf' : get_current_frame (toggled_slider false s) w = Ok frame)
    by exact Hf.
  destruct (update_plot_run (toggled_slider false s) w frame path Hf' Hp)
    as [c Hrun].
  simpl in Hrun. rewrite bool_decide_eq_true_2 in Hrun by done.
  assert (Hplot : update_plot (toggled_slider false s) w
                  = (Ok (display_of frame),
                     set_vector_source no_vectors
                       (set_roi_source no_rois (set_console c w)))).
  { destruct Hfile as [Hnone | (db & Hfile & Hunknown)].
    - by rewrite Hnone in Hrun.
    - rewrite Hfile in Hrun.
      destruct (ds_paths db) as [paths|e]; [|done].
      by rewrite bool_decide_eq_false_2 in Hrun by by apply Hunknown. }
  assert (Hshow : show_2d_projection false s w
                  = (Ok (FrameShown (display_of frame)),
                     set_vector_source no_vectors
                       (set_roi_source no_rois (set_console c w)))).
  { unfold show_2d_projection. cbn [negb]. unfold bind. by rewrite Hplot. }
  rewrite Hshow. do 3 (split; [done|]).
  intros rows Himg. split; [done|].
  unfold show_2d_projection. cbn [negb].
  unfold bind, reads, calculate_2d_projection. by rewrite Himg.
Qed.

(* ===================================================================== *)
(** * Saving and drawing again *)
(* ===================================================================== *)

Section SaveAndDraw.
Context {B : Builtins}.
Local Open Scope nat_scope.

Lemma create_data_dict_tables w data_vars :
  create_data_dict w = Ok data_vars ->
  exists tr tv,
    get_roi_data_by_index w = Ok tr
    /\ get_vector_data_by_index w = Ok tv
    /\ (list_to_map data_vars : gmap string value) !! "roi_data"
       = Some (Array ["roi_num"; "roi_loc"] (Table tr))
    /\ (list_to_map data_vars : gmap string value) !! "vector_data"
       = Some (Array ["vector_num"; "vector_loc"] (Table tv)).
Proof.
  unfold create_data_dict.
  destruct (calculate_2d_projection w); simpl; [|done].
  destruct (float_of (line_rate_input_value w)); simpl; [|done].
  destruct (float_of (frame_rate_input_value w)); simpl; [|done].
  destruct (get_roi_data_by_index w) as [tr|]; simpl; [|done].
  destruct (get_vector_data_by_index w) as [tv|]; simpl; [|done].
  intros [= <-]. by exists tr, tv.
Qed.

(** X17. Save and draw again: after a [save] of a stack, for an image
    that was found, that went through without appending (there was no
    dataset file, or the file knew the image's path), [update_plot]
    shows the current frame (a frame with at least one row) and
    restores from the dataset file the ROIs and the vectors that were
    selected when saving, in their order, without those that have a
    not-a-number coordinate. With no not-a-number the ROI selection
    comes back as it was, and so does the vector selection if every
    vector has exactly two points. *)
Theorem X17_saved_selections_come_back s w image frames frame n m :
  (get_full_path (image_select_value w) w).1 = Ok (Some image) ->
  get_current_image w = Ok (Arr3 frames) ->
  get_current_frame s w = Ok frame ->
  frame <> [] ->
  roi_wf (roi_source w) n ->
  vector_wf (vector_source w) m ->
  (save w).1 = Ok tt ->
  files w !! db_file w = None
  \/ (exists db paths,
        files w !! db_file w = Some (NetCDF db)
        /\ ds_paths db = Ok paths /\ Some image ∈ paths) ->
  let w' := (update_plot s (save w).2).2 in
  (update_plot s (save w).2).1 = Ok (display_of frame)
  /\ roi_rows (roi_source w')
     = List.filter nan_free (roi_rows (roi_source w))
  /\ vector_rows (vector_source w')
     = List.filter nan_free (vector_rows (vector_source w))
  /\ (Forall (fun r => nan_free r = true) (roi_rows (roi_source w)) ->
      roi_source w' = roi_source w)
  /\ (two_point_vectors (vector_source w) m ->
      Forall (fun r => nan_free r = true) (vector_rows (vector_source w)) ->
      vector_source w' = vector_source w).
Proof.
  intros Himage _ Hframe _ Hrois Hvectors Hres Hplace w'.
  destruct (save_ok_in_place w (Some image) Himage Hres Hplace)
    as (data_vars & rec' & Hdata & Hdir & Hfs & Hval).
  pose proof (ds_record_scalar_path (Some image) rec') as Hrec'.
  destruct (create_data_dict_tables w data_vars Hdata)
    as (tr & tv & Htr & Htv & Hkr & Hkv).
  assert (Hn : n <= 50).
  { destruct (le_gt_dec n 50) as [|Hgt]; [done|].
    rewrite (roi_table_overflow w n Hrois) in Htr by lia. done. }
  assert (Hm : m <= 50).
  { destruct (le_gt_dec m 50) as [|Hgt]; [done|].
    rewrite (vector_table_overflow w m Hvectors) in Htv by lia. done. }
  destruct (roi_table_round_trip w n ["roi_num"; "roi_loc"] Hrois Hn)
    as (tr' & cr & Htr' & Hcr & Hrows & _ & Hsame).
  rewrite Htr in Htr'. injection Htr' as <-.
  destruct (vector_table_round_trip w m ["vector_num"; "vector_loc"] Hvectors Hm)
    as (tv' & cv & Htv' & Hcv & Hvrows & _ & Hvsame).
  rewrite Htv in Htv'. injection Htv' as <-.
  assert (Hsr : rec' !! "roi_data" = Some (Array ["roi_num"; "roi_loc"] (Table tr))).
  { destruct (Hval _ _ Hkr) as (sv & -> & [->|Hne]); [done|].
    by destruct sv. }
  assert (Hsv : rec' !! "vector_data"
                = Some (Array ["vector_num"; "vector_loc"] (Table tv))).
  { destruct (Hval _ _ Hkv) as (sv & -> & [->|Hne]); [done|].
    by destruct sv. }
  pose proof (keeps_save w) as Hkeep.
  set (w1 := (save w).2) in *.
  assert (Hframe1 : get_current_frame s w1 = Ok frame) by by rewrite Hkeep.
  assert (Hpath1 : (get_full_path (image_select_value w1) w1).1 = Ok (Some image)).
  { rewrite (same_session_path _ w w1 Hkeep).
    replace (image_select_value w1) with (image_select_value w); [done|].
    by rewrite Hkeep. }
  assert (Hdir1 : base_dir_input_value w1 ∈ dirs w1) by by rewrite Hkeep.
  assert (Hfile1 : files w1 !! db_file w1
                   = Some (NetCDF (DsScalarPath (Some image) rec'))).
  { replace (db_file w1) with (db_file w) by by rewrite Hkeep.
    by rewrite Hfs, lookup_insert_eq. }
  destruct (update_plot_drawn s w1 frame image _ rec' _ tr _ tv cr cv
              Hframe1 Hpath1 Hdir1 Hfile1 Hrec' Hsr Hsv Hcr Hcv)
    as (Hshown & Hr & Hv).
  subst w'. rewrite Hshown, Hr, Hv. auto.
Qed.
End SaveAndDraw.

(* ===================================================================== *)
(** * The parameter inputs *)
(* ===================================================================== *)

Section Inputs.
Context {B : Builtins}.

Lemma registered_line_rate :
  PARAM_GETTERS !! "line_rate" = Some (reads get_line_rate).
Proof. reflexivity. Qed.

Lemma registered_frame_rate :
  PARAM_GETTERS !! "frame_rate" = Some (reads get_frame_rate).
Proof. reflexivity. Qed.

Lemma registered_n_rows :
  PARAM_GETTERS !! "n_rows" = Some (reads get_number_of_rows).
Proof. reflexivity. Qed.

Lemma registered_n_columns :
  PARAM_GETTERS !! "n_columns" = Some (reads get_number_of_columns).
Proof. reflexivity. Qed.

Lemma registered_zoom_factor :
  PARAM_GETTERS !! "zoom_factor" = Some (reads get_zoom_factor).
Proof. reflexivity. Qed.

Lemma registered_x_pixel_to_micron :
  PARAM_GETTERS !! "x_pixel_to_micron" = Some calc_x_pixel_to_micron.
Proof. reflexivity. Qed.

Lemma registered_y_pixel_to_micron :
  PARAM_GETTERS !! "y_pixel_to_micron" = Some calc_y_pixel_to_micron.
Proof. reflexivity. Qed.

(** What [get_string] makes of a registered getter's outcome. *)
Lemma get_string_getter param (getter : M (option num)) w :
  PARAM_GETTERS !! param = Some getter ->
  get_string param w
  = match getter w with
    | (Ok (Some v), w') => (Ok (if num_truthy v then py_str v else "---"), w')
    | (Ok None, w') => (Ok "---", w')
    | (Raise e, w') => if is_KeyError e then (Ok "INVALID", w') else (Raise e, w')
    end.
Proof.
  intros Hp. unfold get_string, bind, try_except, lift, dict_get. rewrite Hp.
  destruct (getter w) as [[[v|]|e] w']; [| done |].
  - by destruct (num_truthy v).
  - by destruct (is_KeyError e).
Qed.

Lemma get_string_run param (getter : M (option num)) w :
  PARAM_GETTERS !! param = Some getter ->
  (exists s, get_string param w = (Ok s, (getter w).2))
  \/ (exists e, (getter w).1 = Raise e /\ is_KeyError e = false
               /\ get_string param w = (Raise e, (getter w).2)).
Proof.
  intros Hp. rewrite (get_string_getter param getter w Hp).
  destruct (getter w) as [[[v|]|e] w']; simpl; eauto.
  destruct (is_KeyError e) eqn:He; eauto.
Qed.

(** The pixel-to-micron ratios: what comes of the three numbers that
    go into them. *)
Lemma calc_run (count : world -> result (option num)) w :
  try_except
    (n <~ reads count ;;
     fov <~ get_fov ;;
     zoom <~ reads get_zoom_factor ;;
     d <~ lift (py_mul fov zoom) ;;
     v <~ lift (py_div n d) ;;
     ret (Some v))
    is_TypeError (ret None) w
  = match count w with
    | Raise e => if is_TypeError e then (Ok None, w) else (Raise e, w)
    | Ok n =>
        let w' :=
          match py_int (fov_input_value w) with
          | Some _ => w
          | None =>
              set_console
                (console w ++ ["Invalid input! FOV must be an integer."]) w
          end in
        match get_zoom_factor w with
        | Raise e => if is_TypeError e then (Ok None, w') else (Raise e, w')
        | Ok zoom =>
            match py_int (fov_input_value w), zoom, n with
            | Some f, Some z, Some x =>
                match num_div x (num_mul (Num (inject_Z f)) z) with
                | Ok v => (Ok (Some v), w')
                | Raise e =>
                    if is_TypeError e then (Ok None, w') else (Raise e, w')
                end
            | _, _, _ => (Ok None, w')
            end
        end
    end.
Proof.
  unfold get_fov. unfold try_except, bind, reads, lift, print, ret.
  destruct (count w) as [n|e]; [|done].
  destruct (py_int (fov_input_value w)) as [f|]; simpl.
  - destruct (get_zoom_factor w) as [[z|]|e], n as [x|]; simpl; try done.
    by destruct (num_div x _).
  - change (get_zoom_factor (set_console _ w)) with (get_zoom_factor w).
    by destruct (get_zoom_factor w) as [[z|]|e], n as [x|].
Qed.

Lemma no_metadata_readings w :
  meta_truthy (get_current_metadata w) = None ->
  get_line_rate w = Ok None /\ get_frame_rate w = Ok None
  /\ get_number_of_rows w = Ok None /\ get_number_of_columns w = Ok None
  /\ get_zoom_factor w = Ok None.
Proof.
  intros Hm. unfold get_line_rate, get_frame_rate, get_number_of_rows,
    get_number_of_columns, get_zoom_factor. by rewrite Hm.
Qed.

Lemma no_metadata_ratios w :
  meta_truthy (get_current_metadata w) = None ->
  (exists c, get_string "x_pixel_to_micron" w = (Ok "---", set_console c w))
  /\ (exists c, get_string "y_pixel_to_micron" w = (Ok "---", set_console c w)).
Proof.
  intros Hm. destruct (no_metadata_readings w Hm) as (_ & _ & Hrows & Hcols & Hzoom).
  split.
  - rewrite (get_string_getter _ _ w registered_x_pixel_to_micron).
    unfold calc_x_pixel_to_micron. rewrite calc_run, Hcols, Hzoom.
    destruct (py_int (fov_input_value w)); simpl; [|by eexists].
    exists (console w). by destruct w.
  - rewrite (get_string_getter _ _ w registered_y_pixel_to_micron).
    unfold calc_y_pixel_to_micron. rewrite calc_run, Hrows, Hzoom.
    destruct (py_int (fov_input_value w)); simpl; [|by eexists].
    exists (console w). by destruct w.
Qed.

(** X18. With no metadata for the current image (none loaded, or an
    empty dict) [update_parameter_widgets] writes the placeholder
    ['---'] into every parameter input, the line rate and the frame
    rate inputs included; and as ['---'] is no number for [float], a
    [save] in that state raises a [ValueError] and leaves the disk as
    it was, until the two rates are typed in. *)
Theorem X18_without_metadata_nothing_is_saved w :
  meta_truthy (get_current_metadata w) = None ->
  let w' := (update_parameter_widgets w).2 in
  (update_parameter_widgets w).1
  = Ok {| rows_input_value := "---"; columns_input_value := "---";
          zoom_factor_input_value := "---";
          x_pixel_to_micron_input_value := "---";
          y_pixel_to_micron_input_value := "---" |}
  /\ line_rate_input_value w' = "---"
  /\ frame_rate_input_value w' = "---"
  /\ files w' = files w
  /\ (py_float "---" = None ->
      forall projection,
        calculate_2d_projection w = Ok projection ->
        (save w').1 = Raise ValueError /\ files (save w').2 = files w).
Proof.
  intros Hm.
  assert (Hrun : exists c,
            update_parameter_widgets w
            = (Ok {| rows_input_value := "---"; columns_input_value := "---";
                     zoom_factor_input_value := "---";
                     x_pixel_to_micron_input_value := "---";
                     y_pixel_to_micron_input_value := "---" |},
               set_console c
                 (set_frame_rate_input "---" (set_line_rate_input "---" w)))).
  { unfold update_parameter_widgets.
    unfold bind at 1.
    rewrite (get_string_getter _ _ w registered_line_rate).
    unfold reads at 1.
    destruct (no_metadata_readings w Hm) as (-> & _).
    set (w1 := set_line_rate_input "---" w).
    assert (Hm1 : meta_truthy (get_current_metadata w1) = None) by exact Hm.
    unfold bind at 1, modify at 1. fold w1.
    unfold bind at 1.
    rewrite (get_string_getter _ _ w1 registered_frame_rate).
    unfold reads at 1.
    destruct (no_metadata_readings w1 Hm1) as (_ & -> & _).
    set (w2 := set_frame_rate_input "---" w1).
    assert (Hm2 : meta_truthy (get_current_metadata w2) = None) by exact Hm.
    destruct (no_metadata_readings w2 Hm2) as (_ & _ & Hrows & Hcols & Hzoom).
    unfold bind at 1, modify at 1. fold w2.
    unfold bind at 1.
    rewrite (get_string_getter _ _ w2 registered_n_rows).
    unfold reads at 1. rewrite Hrows.
    unfold bind at 1.
    rewrite (get_string_getter _ _ w2 registered_n_columns).
    unfold reads at 1. rewrite Hcols.
    unfold bind at 1.
    rewrite (get_string_getter _ _ w2 registered_zoom_factor).
    unfold reads at 1. rewrite Hzoom.
    destruct (no_metadata_ratios w2 Hm2) as [[c3 Hx] _].
    unfold bind at 1. rewrite Hx.
    set (w3 := set_console c3 w2).
    assert (Hm3 : meta_truthy (get_current_metadata w3) = None) by exact Hm.
    destruct (no_metadata_ratios w3 Hm3) as [_ [c4 Hy]].
    unfold bind at 1. rewrite Hy.
    by exists c4. }
  destruct Hrun as [c Hrun]. intros w'. subst w'. rewrite Hrun. simpl.
  repeat (split; [done|]).
  intros Hfloat projection Hproj.
  set (w' := set_console c _).
  destruct (save_run w') as (path & _ & Hsave).
  assert (Hdata : create_data_dict w' = Raise ValueError).
  { unfold create_data_dict.
    change (calculate_2d_projection w') with (calculate_2d_projection w).
    rewrite Hproj. cbn [rbind]. unfold float_of. simpl. by rewrite Hfloat. }
  rewrite Hdata in Hsave. by injection Hsave as -> ->.
Qed.

Lemma frame_data_errors meta key e :
  frame_data meta key = Raise e -> is_KeyError e = true.
Proof.
  unfold frame_data, dict_get.
  destruct (meta !! "FrameData") as [fd|]; simpl; [|by intros [= <-]].
  destruct (fd !! key); [done | by intros [= <-]].
Qed.

Lemma reading_errors (key : string) w e :
  match meta_truthy (get_current_metadata w) with
  | Some meta => v <- frame_data meta key ;; Ok (Some v)
  | None => Ok None
  end = Raise e ->
  is_KeyError e = true.
Proof.
  destruct (meta_truthy (get_current_metadata w)) as [meta|]; [|done].
  destruct (frame_data meta key) eqn:Hfd; simpl; [done|].
  intros [= <-]. by apply (frame_data_errors meta key).
Qed.

(** A plain reading never raises through [get_string]: a missing key
    reads ['INVALID']. *)
Lemma get_string_reading param (f : world -> result (option num)) w :
  PARAM_GETTERS !! param = Some (reads f) ->
  (forall e, f w = Raise e -> is_KeyError e = true) ->
  exists s, get_string param w = (Ok s, w).
Proof.
  intros Hp Herr. rewrite (get_string_getter _ _ w Hp). unfold reads.
  destruct (f w) as [[v|]|e]; [by eexists | by eexists |].
  rewrite (Herr e eq_refl). by eexists.
Qed.

(** The line rate reads a text, or its zero line period raises. *)
Lemma get_string_line_rate w :
  (exists s, get_string "line_rate" w = (Ok s, w))
  \/ get_string "line_rate" w = (Raise ZeroDivisionError, w).
Proof.
  rewrite (get_string_getter _ _ w registered_line_rate). unfold reads.
  unfold get_line_rate.
  destruct (meta_truthy (get_current_metadata w)) as [meta|]; [|left; by eexists].
  destruct (frame_data meta "SI.hRoiManager.linePeriod") as [p|e] eqn:Hfd; simpl.
  - unfold num_div. destruct p as [|q]; simpl.
    + left. by eexists.
    + destruct (Qeq_bool q 0); simpl; [by right | left; by eexists].
  - rewrite (frame_data_errors _ _ _ Hfd). left. by eexists.
Qed.

(** X19. A field of view times zoom factor of zero (a FOV of 0 typed
    in, or a zoom factor of 0 in the metadata) is not caught: with the
    number of columns known, the x ratio raises [ZeroDivisionError],
    and so do [get_string] for it, [update_pixel_to_micron] and
    [update_parameter_widgets], where only [KeyError] and [TypeError]
    are handled. *)
Theorem X19_zero_field_of_view_raises w n f z :
  get_number_of_columns w = Ok (Some n) ->
  py_int (fov_input_value w) = Some f ->
  get_zoom_factor w = Ok (Some (Num z)) ->
  Qeq_bool (inject_Z f * z) 0 = true ->
  calc_x_pixel_to_micron w = (Raise ZeroDivisionError, w)
  /\ get_string "x_pixel_to_micron" w = (Raise ZeroDivisionError, w)
  /\ update_pixel_to_micron w = (Raise ZeroDivisionError, w)
  /\ (update_parameter_widgets w).1 = Raise ZeroDivisionError.
Proof.
  intros Hcols Hfov Hzoom Hzero.
  assert (Hcalc : forall w', 
            get_number_of_columns w' = get_number_of_columns w ->
            fov_input_value w' = fov_input_value w ->
            get_zoom_factor w' = get_zoom_factor w ->
            calc_x_pixel_to_micron w' = (Raise ZeroDivisionError, w')).
  { intros w' Ec Ef Ez. unfold calc_x_pixel_to_micron.
    rewrite calc_run, Ec, Ef, Ez, Hcols, Hfov, Hzoom. cbv zeta.
    unfold num_mul, num_div. by rewrite Hzero. }
  assert (Hstr : forall w',
            get_number_of_columns w' = get_number_of_columns w ->
            fov_input_value w' = fov_input_value w ->
            get_zoom_factor w' = get_zoom_factor w ->
            get_string "x_pixel_to_micron" w' = (Raise ZeroDivisionError, w')).
  { intros w' Ec Ef Ez.
    rewrite (get_string_getter _ _ w' registered_x_pixel_to_micron).
    by rewrite (Hcalc w' Ec Ef Ez). }
  split; [by apply Hcalc|]. split; [by apply Hstr|]. split.
  { unfold update_pixel_to_micron, bind. by rewrite Hcalc. }
  unfold update_parameter_widgets. unfold bind at 1.
  destruct (get_string_line_rate w) as [[line_rate ->] | ->]; [|done].
  unfold bind at 1, modify at 1. set (w1 := set_line_rate_input line_rate w).
  unfold bind at 1.
  destruct (get_string_reading "frame_rate" get_frame_rate w1
              registered_frame_rate) as [frame_rate ->].
  { intros e. apply reading_errors. }
  unfold bind at 1, modify at 1. set (w2 := set_frame_rate_input frame_rate w1).
  unfold bind at 1.
  destruct (get_string_reading "n_rows" get_number_of_rows w2
              registered_n_rows) as [rows ->].
  { intros e. apply reading_errors. }
  unfold bind at 1.
  destruct (get_string_reading "n_columns" get_number_of_columns w2
              registered_n_columns) as [columns ->].
  { intros e. apply reading_errors. }
  unfold bind at 1.
  destruct (get_string_reading "zoom_factor" get_zoom_factor w2
              registered_zoom_factor) as [zoom_factor ->].
  { intros e. apply reading_errors. }
  unfold bind at 1. by rewrite (Hstr w2).
Qed.

(** X20. A field of view that is no integer is reported and shown in
    two ways: with the three readings at hand,
    [update_pixel_to_micron] prints the complaint twice and writes the
    text [None] into both ratio inputs, whereas [get_string] shows the
    same missing ratio as ['---']. *)
Theorem X20_invalid_fov_reads_None w n n' z :
  py_int (fov_input_value w) = None ->
  get_number_of_columns w = Ok n ->
  get_number_of_rows w = Ok n' ->
  get_zoom_factor w = Ok z ->
  let complaint := "Invalid input! FOV must be an integer." in
  update_pixel_to_micron w
  = (Ok ("None", "None"), set_console (console w ++ [complaint; complaint]) w)
  /\ get_string "x_pixel_to_micron" w
     = (Ok "---", set_console (console w ++ [complaint]) w)
  /\ get_string "y_pixel_to_micron" w
     = (Ok "---", set_console (console w ++ [complaint]) w).
Proof.
  intros Hfov Hcols Hrows Hzoom complaint.
  assert (Hx : forall w',
            fov_input_value w' = fov_input_value w ->
            get_number_of_columns w' = get_number_of_columns w ->
            get_zoom_factor w' = get_zoom_factor w ->
            calc_x_pixel_to_micron w'
            = (Ok None, set_console (console w' ++ [complaint]) w')).
  { intros w' Ef Ec Ez. unfold calc_x_pixel_to_micron.
    rewrite calc_run, Ef, Ec, Ez, Hfov, Hcols, Hzoom. done. }
  assert (Hy : forall w',
            fov_input_value w' = fov_input_value w ->
            get_number_of_rows w' = get_number_of_rows w ->
            get_zoom_factor w' = get_zoom_factor w ->
            calc_y_pixel_to_micron w'
            = (Ok None, set_console (console w' ++ [complaint]) w')).
  { intros w' Ef Ec Ez. unfold calc_y_pixel_to_micron.
    rewrite calc_run, Ef, Ec, Ez, Hfov, Hrows, Hzoom. done. }
  split; [|split].
  - unfold update_pixel_to_micron, bind. rewrite Hx by done.
    rewrite Hy by done. simpl. by rewrite <- app_assoc.
  - rewrite (get_string_getter _ _ w registered_x_pixel_to_micron).
    by rewrite Hx.
  - rewrite (get_string_getter _ _ w registered_y_pixel_to_micron).
    by rewrite Hy.
Qed.

(** X21. A line period of zero in the metadata is not caught either:
    [get_string] raises [ZeroDivisionError] for the line rate, and
    [update_parameter_widgets], which asks for the line rate first,
    raises it before it has written to any input. *)
Theorem X21_zero_line_period_raises w meta period :
  meta_truthy (get_current_metadata w) = Some meta ->
  frame_data meta "SI.hRoiManager.linePeriod" = Ok (Num period) ->
  Qeq_bool period 0 = true ->
  get_string "line_rate" w = (Raise ZeroDivisionError, w)
  /\ update_parameter_widgets w = (Raise ZeroDivisionError, w).
Proof.
  intros Hm Hperiod Hzero.
  assert (Hs : get_string "line_rate" w = (Raise ZeroDivisionError, w)).
  { rewrite (get_string_getter _ _ w registered_line_rate).
    unfold reads, get_line_rate. rewrite Hm, Hperiod. cbn [rbind].
    unfold num_div. by rewrite Hzero. }
  split; [done|]. unfold update_parameter_widgets, bind at 1. by rewrite Hs.
Qed.
End Inputs.

(* ===================================================================== *)
(** * Browsing, saving and drawing at the sample states *)
(* ===================================================================== *)

Lemma sample_image_paths :
  get_file_paths IMAGE_EXT sample_world
  = (Ok ["/data/a.tif"; "/data/sub/b.tif"], sample_world).
Proof. reflexivity. Defined.

(** X1 at the sample session: the two images, not the notes. *)
Lemma X1_witness :
  exists image_paths,
    get_file_paths IMAGE_EXT sample_world = (Ok image_paths, sample_world)
    /\ ("/data/sub/b.tif" ∈ image_paths)
    /\ Forall (fun p => endswith p IMAGE_EXT = true) image_paths.
Proof.
  destruct (X1_get_file_paths_lists_matching_files IMAGE_EXT sample_world)
    as (image_paths & Hrun & Hin & Hall).
  exists image_paths. split; [exact Hrun|]. split; [|exact Hall].
  apply Hin. exists "/data/sub", ["b.tif"], "b.tif".
  split; [|split; [|split]].
  - apply list_elem_of_further, list_elem_of_here.
  - apply list_elem_of_here.
  - reflexivity.
  - reflexivity.
Defined.

(** X2 at the sample session. *)
Lemma X2_witness :
  get_file_paths IMAGE_EXT sample_world
  = (Ok ["/data/a.tif"; "/data/sub/b.tif"], sample_world)
  /\ (update_image_select "/data" sample_world).1
     = Ok ["/a.tif"; "/sub/b.tif"]
  /\ exists f,
       get_full_path "/sub/b.tif" (update_image_select "/data" sample_world).2
       = (Ok (Some f), (update_image_select "/data" sample_world).2)
       /\ endswith f "/sub/b.tif" = true.
Proof.
  split; [exact sample_image_paths|].
  destruct (X2_image_options_resolve sample_world
              ["/data/a.tif"; "/data/sub/b.tif"] sample_image_paths)
    as [_ Hsome].
  destruct (Hsome ltac:(vm_compute; reflexivity) "/data/a.tif"
              ["/data/sub/b.tif"] eq_refl)
    as (Hoptions & _ & _ & Hall).
  split; [exact Hoptions|].
  destruct (Hall "/sub/b.tif") as (f & Hf & _ & Hends).
  { apply list_elem_of_further, list_elem_of_here. }
  exists f. split; [exact Hf | exact Hends].
Defined.

(** X3 at the sample session: [/b.tif] stands for the second image
    only, [.tif] for both. *)
Lemma X3_witness :
  (get_file_paths IMAGE_EXT sample_world
   = (Ok (["/data/a.tif"] ++ "/data/sub/b.tif" :: []), sample_world)
   /\ endswith "/data/sub/b.tif" "/b.tif" = true
   /\ endswith "/data/sub/b.tif" ".tif" = true)
  /\ get_full_path "/b.tif" sample_world
     = (Ok (Some "/data/sub/b.tif"), sample_world)
  /\ exists f,
       get_full_path ".tif" sample_world = (Ok (Some f), sample_world)
       /\ f ∈ ["/data/a.tif"].
Proof.
  split; [by repeat split|].
  destruct (X3_option_resolves_to_first_match sample_world ["/data/a.tif"]
              "/data/sub/b.tif" [] "/b.tif" sample_image_paths eq_refl)
    as [Hfirst _].
  destruct (X3_option_resolves_to_first_match sample_world ["/data/a.tif"]
              "/data/sub/b.tif" [] ".tif" sample_image_paths eq_refl)
    as [_ Hearlier].
  split.
  - apply Hfirst. by repeat constructor.
  - apply Hearlier. by repeat constructor.
Defined.

(** X4 at the two-frame sample stack. *)
Lemma X4_witness :
  exists s,
    update_time_slider sample_world = Ok s
    /\ slider_end s = 1
    /\ exists f,
         get_current_frame
           {| slider_end := slider_end s; slider_value := 1;
              slider_disabled := false |} sample_world = Ok f.
Proof.
  destruct (X4_slider_values_are_frames sample_world) as [Hstack _].
  destruct (Hstack sample_stack eq_refl) as (s & Hs & _ & _ & Hend & Hall).
  exists s. split; [exact Hs|]. split; [exact Hend|].
  destruct (Hall 1 false) as (f & _ & Hf); [rewrite Hend; simpl; lia|].
  by exists f.
Defined.

(** X5 at the sample session: there is no frame 5. *)
Lemma X5_witness :
  get_current_image sample_world = Ok (Arr3 sample_stack)
  /\ update_frame 5 [] {| slider_end := 1; slider_value := 0;
                          slider_disabled := false |}
       {| image_source_image := []; roi_plot_image := [] |} sample_world
     = (Ok tt, {| image_source_image := []; roi_plot_image := [] |},
        set_console ["Failed to update image frame!"] sample_world).
Proof.
  split; [reflexivity|].
  destruct (X5_update_frame_catches_index_errors 5 []
              {| slider_end := 1; slider_value := 0; slider_disabled := false |}
              {| image_source_image := []; roi_plot_image := [] |}
              sample_world (Arr3 sample_stack) eq_refl)
    as (_ & Hout & _).
  exact (Hout sample_stack (AxisBound 0 5 2) eq_refl eq_refl).
Defined.

(** X6 at the first ROI of the sample session, which starts at column
    1 of row 0. *)
Lemma X6_witness :
  exists region,
    get_roi_data 0 0 sample_world = Ok region
    /\ forall i j v,
         pixel region i j = Some v ->
         pixel [[1; 2; 3; 4]; [5; 6; 7; 8]; [9; 10; 11; 12]]
           (0 + i) (1 + j) = Some v.
Proof.
  apply (X6_region_is_a_window_of_the_frame sample_world 0 0 2 1 3 2
           sample_stack [[1; 2; 3; 4]; [5; 6; 7; 8]; [9; 10; 11; 12]]);
    (reflexivity || (vm_compute; discriminate)).
Defined.

(** X7 at an ROI of width 4 centred on column 1 of the 3 x 4 sample
    frame: columns -1 to 3. *)
Lemma X7_witness :
  exists region,
    get_roi_data 0 0
      (set_roi_source
         {| roi_x := [Num 1]; roi_y := [Num 1];
            roi_width := [Num 4]; roi_height := [Num 2] |} sample_world)
    = Ok region
    /\ Forall (fun row => row = []) region.
Proof.
  destruct (X7_region_across_the_left_or_top_edge_is_empty
              (set_roi_source
                 {| roi_x := [Num 1]; roi_y := [Num 1];
                    roi_width := [Num 4]; roi_height := [Num 2] |} sample_world)
              0 0 1 1 4 2 sample_stack
              [[1; 2; 3; 4]; [5; 6; 7; 8]; [9; 10; 11; 12]] 3 4
              eq_refl eq_refl eq_refl eq_refl eq_refl eq_refl)
    as (region & Hrun & Hleft & _).
  { split; [reflexivity | by repeat constructor]. }
  exists region. split; [exact Hrun|].
  apply Hleft; vm_compute; (reflexivity || discriminate).
Defined.

(** X8 and X9 at the sample session: two ROIs and one vector. *)
Lemma X8_witness :
  (roi_wf (roi_source sample_world) 2 /\ (2 <= 50)%nat)
  /\ exists t c,
       get_roi_data_by_index sample_world = Ok t
       /\ rois_of_stored (Array ["roi_num"; "roi_loc"] (Table t)) = Ok c
       /\ c = sample_rois.
Proof.
  split; [split; [exact sample_rois_wf | lia]|].
  destruct (X8_rois_saved_and_restored sample_world 2 ["roi_num"; "roi_loc"]
              sample_rois_wf ltac:(lia))
    as (t & c & Ht & Hc & _ & _ & Hsame).
  exists t, c. split; [exact Ht|]. split; [exact Hc|].
  apply Hsame. by repeat constructor.
Defined.

Lemma X9_witness :
  (vector_wf (vector_source sample_world) 1 /\ (1 <= 50)%nat)
  /\ exists t c,
       get_vector_data_by_index sample_world = Ok t
       /\ vectors_of_stored (Array ["vector_num"; "vector_loc"] (Table t)) = Ok c
       /\ c = sample_vectors.
Proof.
  split; [split; [exact sample_vectors_wf | lia]|].
  destruct (X9_vectors_saved_and_restored sample_world 1
              ["vector_num"; "vector_loc"] sample_vectors_wf ltac:(lia))
    as (t & c & Ht & Hc & _ & _ & Hsame).
  exists t, c. split; [exact Ht|]. split; [exact Hc|].
  apply Hsame.
  - repeat split; by repeat constructor.
  - by repeat constructor.
Defined.

(** X11 at the crowded session: the 51st ROI does not fit the table. *)
Lemma X11_witness :
  (save (B := sample_builtins) crowded_world).1
  = Raise (IndexError (AxisBound 0 50 50))
  /\ files (save (B := sample_builtins) crowded_world).2 = files crowded_world.
Proof.
  assert (Hres : (save (B := sample_builtins) crowded_world).1
                 = Raise (IndexError (AxisBound 0 50 50)))
    by (vm_compute; reflexivity).
  split; [exact Hres|].
  apply (X11_failed_save_leaves_the_disk (B := sample_builtins) crowded_world
           (IndexError (AxisBound 0 50 50)) Hres).
  left. discriminate.
Defined.

(** X12 at the sample dataset file, saving an image it does not know:
    the record of the image it knew is as it was. *)
Lemma X12_witness :
  ((get_full_path (image_select_value append_world) append_world).1
   = Ok (Some "/data/sub/b.tif")
   /\ files append_world !! db_file append_world = Some (NetCDF stored_dataset)
   /\ (save (B := sample_builtins) append_world).1 = Ok tt)
  /\ exists db' added,
       files (save (B := sample_builtins) append_world).2 !! db_file append_world
       = Some (NetCDF db')
       /\ ds_paths db' = Ok ([Some "/data/a.tif"] ++ added)
       /\ ds_record db' (Some "/data/a.tif") = Some stored_record.
Proof.
  assert (Hres : (save (B := sample_builtins) append_world).1 = Ok tt)
    by (vm_compute; reflexivity).
  split; [by repeat split|].
  destruct (X12_save_keeps_the_other_records (B := sample_builtins)
              append_world "/data/sub/b.tif" stored_dataset [Some "/data/a.tif"]
              eq_refl eq_refl eq_refl Hres)
    as (db' & added & Hfile & Hpaths & _ & Hothers).
  exists db', added. split; [exact Hfile|]. split; [exact Hpaths|].
  rewrite Hothers; [reflexivity | apply list_elem_of_here | discriminate].
Defined.

(** X13 at the sample session, from no dataset file at all. *)
Lemma X13_witness :
  ((get_full_path (image_select_value sample_world) sample_world).1
   = Ok (Some "/data/a.tif")
   /\ get_current_image sample_world = Ok (Arr3 sample_stack)
   /\ faults sample_world = None
   /\ (save (B := sample_builtins) sample_world).1 = Ok tt
   /\ files sample_world !! db_file sample_world = None)
  /\ (save (B := sample_builtins)
        (save (B := sample_builtins) sample_world).2).1 = Ok tt.
Proof.
  assert (Hres : (save (B := sample_builtins) sample_world).1 = Ok tt)
    by (vm_compute; reflexivity).
  split; [by repeat split|].
  exact (proj1 (X13_saving_again_changes_nothing (B := sample_builtins)
                  sample_world "/data/a.tif" sample_stack
                  eq_refl eq_refl eq_refl Hres (or_introl eq_refl))).
Defined.

(** X14 at the single-plane session. *)
Lemma X14_witness :
  (get_current_image plane_world = Ok (Arr2 [[1; 2]; [3; 4]])
   /\ (exists data_vars,
         create_data_dict (B := sample_builtins) plane_world = Ok data_vars)
   /\ base_dir_input_value plane_world ∈ dirs plane_world
   /\ files plane_world !! db_file plane_world = None)
  /\ (save (B := sample_builtins) plane_world).1 = Raise (IndexError ListRange)
  /\ files (save (B := sample_builtins) plane_world).2 = files plane_world.
Proof.
  split.
  { split; [reflexivity|]. split; [by eexists|].
    split; [vm_compute; reflexivity | reflexivity]. }
  destruct (X14_single_plane_is_not_saved_first_time (B := sample_builtins)
              plane_world [[1; 2]; [3; 4]] _ (Some "/data/a.tif")
              eq_refl eq_refl eq_refl)
    as (_ & Hres & Hfs).
  - vm_compute; reflexivity.
  - by left.
  - split; [exact Hres | exact Hfs].
Defined.

(** X17 at the sample session: what was selected when saving is what
    [update_plot] draws afterwards. *)
Lemma X17_witness :
  ((get_full_path (image_select_value sample_world) sample_world).1
   = Ok (Some "/data/a.tif")
   /\ roi_wf (roi_source sample_world) 2
   /\ vector_wf (vector_source sample_world) 1
   /\ (save (B := sample_builtins) sample_world).1 = Ok tt
   /\ files sample_world !! db_file sample_world = None)
  /\ roi_source
       (update_plot {| slider_end := 1; slider_value := 0;
                       slider_disabled := false |}
          (save (B := sample_builtins) sample_world).2).2
     = sample_rois
  /\ vector_source
       (update_plot {| slider_end := 1; slider_value := 0;
                       slider_disabled := false |}
          (save (B := sample_builtins) sample_world).2).2
     = sample_vectors.
Proof.
  assert (Hres : (save (B := sample_builtins) sample_world).1 = Ok tt)
    by (vm_compute; reflexivity).
  split.
  { split; [reflexivity|]. split; [exact sample_rois_wf|].
    split; [exact sample_vectors_wf|]. split; [exact Hres | reflexivity]. }
  destruct (X17_saved_selections_come_back (B := sample_builtins)
              {| slider_end := 1; slider_value := 0; slider_disabled := false |}
              sample_world "/data/a.tif" sample_stack
              [[1; 2; 3; 4]; [5; 6; 7; 8]; [9; 10; 11; 12]] 2 1
              eq_refl eq_refl eq_refl ltac:(discriminate)
              sample_rois_wf sample_vectors_wf Hres (or_introl eq_refl))
    as (_ & _ & _ & Hrois & Hvectors).
  split.
  - apply Hrois. by repeat constructor.
  - apply Hvectors.
    + repeat split; by repeat constructor.
    + by repeat constructor.
Defined.

(** X15 at the sample session, which has no dataset file: the two ROIs
    and the vector are gone after [update_plot]. *)
Lemma X15_witness :
  (files sample_world !! db_file sample_world = None
   /\ roi_source sample_world = sample_rois)
  /\ roi_source
       (update_plot {| slider_end := 1; slider_value := 0;
                       slider_disabled := false |} sample_world).2
     = no_rois
  /\ vector_source
       (update_plot {| slider_end := 1; slider_value := 0;
                       slider_disabled := false |} sample_world).2
     = no_vectors.
Proof.
  split; [by split|].
  destruct (X15_update_plot_clears_without_a_record
              {| slider_end := 1; slider_value := 0; slider_disabled := false |}
              sample_world [[1; 2; 3; 4]; [5; 6; 7; 8]; [9; 10; 11; 12]]
              (Some "/data/a.tif") eq_refl ltac:(discriminate) eq_refl)
    as [Hclear _].
  destruct Hclear as (_ & Hrois & Hvectors).
  - vm_compute; reflexivity.
  - by left.
  - split; [exact Hrois | exact Hvectors].
Defined.

(** X16 at the single-plane session. *)
Lemma X16_witness :
  (show_2d_projection false
     {| slider_end := 1; slider_value := 0; slider_disabled := true |}
     plane_world).1
  = Ok (FrameShown (display_of [[1; 2]; [3; 4]]))
  /\ show_2d_projection true
       {| slider_end := 1; slider_value := 0; slider_disabled := true |}
       plane_world
     = (Ok (ProjectionShown [None]), plane_world).
Proof.
  destruct (X16_leaving_the_projection_redraws
              {| slider_end := 1; slider_value := 0; slider_disabled := true |}
              plane_world [[1; 2]; [3; 4]] (Some "/data/a.tif")
              eq_refl ltac:(discriminate) eq_refl)
    as (_ & Hoff & _ & _ & Hon).
  - vm_compute; reflexivity.
  - by left.
  - split; [exact Hoff|]. exact (proj2 (Hon [[1; 2]; [3; 4]] eq_refl)).
Defined.

(** X18 at the single-plane session, which has no metadata. *)
Lemma X18_witness :
  (meta_truthy (get_current_metadata plane_world) = None
   /\ py_float (Builtins := sample_builtins) "---" = None)
  /\ line_rate_input_value
       (update_parameter_widgets (B := sample_builtins) plane_world).2 = "---"
  /\ (save (B := sample_builtins)
        (update_parameter_widgets (B := sample_builtins) plane_world).2).1
     = Raise ValueError.
Proof.
  split; [by split|].
  destruct (X18_without_metadata_nothing_is_saved (B := sample_builtins)
              plane_world eq_refl)
    as (_ & Hline & _ & _ & Hsave).
  split; [exact Hline|].
  exact (proj1 (Hsave eq_refl None eq_refl)).
Defined.

(** X19 at a scan with zoom factor 0 and a field of view of 870. *)
Lemma X19_witness :
  (get_number_of_columns (scan_world still_scan "870") = Ok (Some (Num 512))
   /\ py_int (Builtins := sample_builtins)
        (fov_input_value (scan_world still_scan "870")) = Some 870
   /\ get_zoom_factor (scan_world still_scan "870") = Ok (Some (Num 0)))
  /\ update_pixel_to_micron (B := sample_builtins) (scan_world still_scan "870")
     = (Raise ZeroDivisionError, scan_world still_scan "870").
Proof.
  split; [by repeat split|].
  destruct (X19_zero_field_of_view_raises (B := sample_builtins)
              (scan_world still_scan "870") (Num 512) 870 0
              eq_refl eq_refl eq_refl eq_refl)
    as (_ & _ & Hraise & _).
  exact Hraise.
Defined.

(** X20 at the same scan with a field of view that is no integer. *)
Lemma X20_witness :
  py_int (Builtins := sample_builtins)
    (fov_input_value (scan_world still_scan "wide")) = None
  /\ update_pixel_to_micron (B := sample_builtins) (scan_world still_scan "wide")
     = (Ok ("None", "None"),
        set_console
          ["Invalid input! FOV must be an integer.";
           "Invalid input! FOV must be an integer."]
          (scan_world still_scan "wide"))
  /\ get_string (B := sample_builtins) "x_pixel_to_micron"
       (scan_world still_scan "wide")
     = (Ok "---",
        set_console ["Invalid input! FOV must be an integer."]
          (scan_world still_scan "wide")).
Proof.
  split; [reflexivity|].
  destruct (X20_invalid_fov_reads_None (B := sample_builtins)
              (scan_world still_scan "wide") (Some (Num 512)) (Some (Num 512))
              (Some (Num 0)) eq_refl eq_refl eq_refl eq_refl)
    as (Hnone & Hdash & _).
  split; [exact Hnone | exact Hdash].
Defined.

(** X21 at the same scan, whose line period is 0. *)
Lemma X21_witness :
  frame_data {[ "FrameData" := still_scan ]} "SI.hRoiManager.linePeriod"
  = Ok (Num 0)
  /\ update_parameter_widgets (B := sample_builtins) (scan_world still_scan "870")
     = (Raise ZeroDivisionError, scan_world still_scan "870").
Proof.
  split; [reflexivity|].
  exact (proj2 (X21_zero_line_period_raises (B := sample_builtins)
                  (scan_world still_scan "870")
                  {[ "FrameData" := still_scan ]} 0 eq_refl eq_refl eq_refl)).
Defined.
